(** * Plugin synchronisation engine of the godspeed CLI (package [plugin])

    A shallow embedding of the Go package that adds, removes and updates
    event-source / data-source plugins of a project, together with the
    helpers of package [utils] it calls.  The program talks to a file
    system, to child processes ([npm], [node]), to JSON / YAML codecs and to
    an interactive prompt.  The file system is modelled concretely as a
    finite map from paths to nodes; the other collaborators are the fields
    of an environment record [Env], so every statement below holds for all
    of their behaviours.  Every function is a computation over the file
    system that also returns the list of effects it issued, in order. *)

From Stdlib Require Import Ascii String.
From stdpp Require Import gmap strings list fin_maps.

Open Scope string_scope.
Open Scope list_scope.

(** ** Values shared with the Go code *)

#[local] Unset Elimination Schemes.

(** Go's [error] values.  Errors raised outside this package (system calls,
    child processes, decoders) are opaque; [fmt.Errorf] keeps its format and
    arguments. *)
Inductive error : Type :=
| ExtError (origin : string)
| Errorf (format : string) (args : list fmtArg)
with fmtArg : Type :=
| ArgS (s : string)
| ArgE (e : error).

(** [interface{}] values decoded from JSON. *)
Inductive Any : Type :=
| ANil
| ABool (b : bool)
| ANumber (literal : string)
| AString (s : string)
| AList (l : list Any)
| AMap (m : list (string * Any)).
#[local] Set Elimination Schemes.

(** [type Plugin struct] *)
Record Plugin : Type := mkPlugin {
  Value : string;
  Name : string;
  Description : string
}.

(** The anonymous struct decoded from [npm search --json]. *)
Record SearchResult : Type := mkSearchResult {
  sr_Name : string;
  sr_Description : string;
  sr_Version : string
}.

(** The anonymous struct decoded by [getModuleInfo]. *)
Record ModuleInfo : Type := mkModuleInfo {
  ModuleType : string;
  LoaderFileName : string;
  YamlFileName : string;
  DefaultConfig : gmap string Any
}.

(** ** The file system *)

Inductive node : Type :=
| File (content : string)
| Dir.

Abbreviation FS := (gmap string node).

Definition IsDir (n : node) : bool :=
  match n with Dir => true | File _ => false end.

(** ** Observable effects *)

Inductive Color : Type := Red | Yellow | Green | Cyan.

Inductive Event : Type :=
| EvPrint (c : Color) (format : string) (args : list fmtArg)
| EvSpinnerStart (text : string)
| EvSpinnerStop
| EvPrompt (message : string) (options : list string)
| EvExec (name : string) (args : list string)
| EvMkdirAll (path : string)
| EvWriteFile (path : string) (data : string)
| EvRemove (path : string).

(** ** External collaborators *)

Record Env : Type := mkEnv {
  (** [os.Executable()] *)
  os_Executable : error + string;
  (** [filepath.Clean] and [filepath.Dir], lexical functions of the host OS *)
  filepath_Clean : string -> string;
  filepath_Dir : string -> string;
  (** [exec.Command(name, args...).Output()]: the captured stdout of a query *)
  exec_Output : string -> list string -> FS -> error + string;
  (** [exec.Command(name, args...).Run()]: exit status and the disk it leaves *)
  exec_Run : string -> list string -> FS -> option error * FS;
  (** [json.Unmarshal] at the four target types used by the package *)
  json_Plugins : string -> error + list Plugin;
  json_SearchResults : string -> error + list SearchResult;
  json_Dependencies : string -> error + gmap string string;
  json_ModuleInfo : string -> error + ModuleInfo;
  (** [yaml.Marshal] of a [map[string]interface{}] *)
  yaml_Marshal : gmap string Any -> error + string;
  (** [survey.AskOne] on a [survey.MultiSelect] *)
  survey_MultiSelect : string -> list string -> error + list string;
  (** the order in which a [for k, v := range m] visits a map *)
  go_range : forall A : Type, gmap string A -> list (string * A)
}.

(** Go visits every entry of a map exactly once, in an unspecified order. *)
Definition range_visits_once (E : Env) : Prop :=
  forall (A : Type) (m : gmap string A), go_range E A m ≡ₚ map_to_list m.

(** ** Computations *)

Record Res (A : Type) : Type := mkRes {
  value : A;
  disk : FS;
  emitted : list Event
}.
Arguments mkRes {A} _ _ _.
Arguments value {A} _.
Arguments disk {A} _.
Arguments emitted {A} _.

Definition M (A : Type) : Type := FS -> Res A.

Definition ret {A : Type} (a : A) : M A :=
  fun fs => mkRes a fs [].

Definition bind {A B : Type} (m : M A) (f : A -> M B) : M B :=
  fun fs =>
    let r := m fs in
    let r' := f (value r) (disk r) in
    mkRes (value r') (disk r') (emitted r ++ emitted r').

Definition emit (e : Event) : M unit :=
  fun fs => mkRes tt fs [e].

Notation "x <- m ;; k" := (bind m (fun x => k))
  (at level 100, m at next level, right associativity, only parsing).
Notation "m ;;; k" := (bind m (fun _ => k))
  (at level 100, right associativity, only parsing).

(** [for _, x := range xs { body }] *)
Fixpoint forEach {A : Type} (body : A -> M unit) (xs : list A) : M unit :=
  match xs with
  | [] => ret tt
  | x :: xs' => body x ;;; forEach body xs'
  end.

(** ** Strings and paths *)

Definition nl : string := String "010"%char "".
Definition tab : string := String "009"%char "".

(** [strings.HasPrefix] *)
Fixpoint HasPrefix (s prefix : string) : bool :=
  match prefix, s with
  | "", _ => true
  | String p prefix', String c s' => if Ascii.eqb p c then HasPrefix s' prefix' else false
  | String _ _, "" => false
  end.

(** [strings.Split] for a non-empty separator: [skip] counts the characters
    of a matched separator still to be dropped, [cur] is the piece read so
    far. *)
Fixpoint split_from (sep : string) (skip : nat) (cur : string) (s : string) : list string :=
  match s with
  | "" => [cur]
  | String c s' =>
      match skip with
      | S k => split_from sep k cur s'
      | O =>
          if HasPrefix s sep
          then cur :: split_from sep (String.length sep - 1) "" s'
          else split_from sep 0 (cur +:+ String c "") s'
      end
  end.

Definition Split (s sep : string) : list string := split_from sep 0 "" s.

(** The proper ancestors of a slash-separated path, nearest first. *)
Fixpoint cut_points (acc : string) (s : string) : list string :=
  match s with
  | "" => []
  | String c s' =>
      if Ascii.eqb c "/"%char
      then acc :: cut_points (acc +:+ "/") s'
      else cut_points (acc +:+ String c "") s'
  end.

Definition path_ancestors (p : string) : list string :=
  reverse (filter (fun q => q ≠ "") (cut_points "" p)).

(** [filepath.Join]: empty elements are dropped, the rest is joined with the
    separator and cleaned; no element at all gives the empty string. *)
Definition filepath_Join (E : Env) (elem : list string) : string :=
  match filter (fun q => q ≠ "") elem with
  | [] => ""
  | parts => filepath_Clean E (String.concat "/" parts)
  end.

(** ** System calls *)

(** [os.Stat]: the only failure modelled is "does not exist". *)
Definition os_Stat (path : string) : M (option node) :=
  fun fs => mkRes (fs !! path) fs [].

(** [ioutil.ReadFile] *)
Definition ioutil_ReadFile (path : string) : M (error + string) :=
  fun fs =>
    mkRes (match fs !! path with
           | Some (File c) => inr c
           | _ => inl (ExtError "ReadFile")
           end) fs [].

(** A file can be written when its directory exists and the path is not a
    directory itself; a path without ancestors lives in the working
    directory (or the root), which always exists. *)
Definition can_write (fs : FS) (path : string) : bool :=
  match path_ancestors path with
  | [] => true
  | d :: _ => match fs !! d with Some Dir => true | _ => false end
  end
  && match fs !! path with Some Dir => false | _ => true end.

(** [ioutil.WriteFile] (create or truncate) *)
Definition ioutil_WriteFile (path data : string) : M (option error) :=
  fun fs =>
    if can_write fs path
    then mkRes None (<[path := File data]> fs) [EvWriteFile path data]
    else mkRes (Some (ExtError "WriteFile")) fs [EvWriteFile path data].

(** [os.MkdirAll] on a path followed by its ancestors: a directory is done,
    a file is an error, otherwise the parent is made first and then the
    directory itself. *)
Fixpoint mkdir_up (chain : list string) (fs : FS) : option error * FS :=
  match chain with
  | [] => (None, fs)
  | q :: parents =>
      match fs !! q with
      | Some Dir => (None, fs)
      | Some (File _) => (Some (ExtError "MkdirAll"), fs)
      | None =>
          match mkdir_up parents fs with
          | (Some e, fs') => (Some e, fs')
          | (None, fs') =>
              match fs' !! q with
              | None => (None, <[q := Dir]> fs')
              | Some Dir => (None, fs')
              | Some (File _) => (Some (ExtError "MkdirAll"), fs')
              end
          end
      end
  end.

Definition os_MkdirAll (path : string) : M (option error) :=
  fun fs =>
    let r := mkdir_up (path :: path_ancestors path) fs in
    mkRes (fst r) (snd r) [EvMkdirAll path].

(** [os.Remove] of a regular file; the package never calls it on anything
    else, so a directory or a missing path is reported as an error. *)
Definition os_Remove (path : string) : M (option error) :=
  fun fs =>
    match fs !! path with
    | Some (File _) => mkRes None (delete path fs) [EvRemove path]
    | _ => mkRes (Some (ExtError "Remove")) fs [EvRemove path]
    end.

(** ** Package [utils] *)

Definition FileExists (path : string) : M bool :=
  info <- os_Stat path ;;
  ret (match info with
       | None => false
       | Some n => negb (IsDir n)
       end).

Definition DirExists (path : string) : M bool :=
  info <- os_Stat path ;;
  ret (match info with
       | None => false
       | Some n => IsDir n
       end).

Definition CreateDir (path : string) : M (option error) :=
  b <- DirExists path ;;
  if b then ret None else os_MkdirAll path.

Definition IsGodspeedProject : M bool :=
  b <- FileExists ".godspeed" ;;
  if negb b then
    emit (EvPrint Red "The current directory is not a Godspeed Framework project." []) ;;;
    emit (EvPrint Yellow "godspeed commands work inside godspeed project directory." []) ;;;
    ret false
  else
    b' <- FileExists "package.json" ;;
    if negb b' then
      emit (EvPrint Red "The current directory is not a Godspeed project." []) ;;;
      emit (EvPrint Yellow "godspeed commands only work inside godspeed project directory." []) ;;;
      ret false
    else ret true.

Definition NewSpinner_Start (text : string) : M unit := emit (EvSpinnerStart text).
Definition Spinner_Stop : M unit := emit EvSpinnerStop.

(** ** Child processes and the prompt

    A command run for its output ([npm search], [node -e]) is a query: it
    answers from the disk and leaves it as it is.  A command run for its
    effect ([npm install], [uninstall], [update]) returns the disk it
    left. *)

Definition Cmd_Output (E : Env) (name : string) (args : list string) : M (error + string) :=
  fun fs => mkRes (exec_Output E name args fs) fs [EvExec name args].

Definition Cmd_Run (E : Env) (name : string) (args : list string) : M (option error) :=
  fun fs =>
    let r := exec_Run E name args fs in
    mkRes (fst r) (snd r) [EvExec name args].

Definition survey_AskOne (E : Env) (message : string) (options : list string)
  : M (error + list string) :=
  fun fs => mkRes (survey_MultiSelect E message options) fs [EvPrompt message options].

(** [_, ok := m[k]] *)
Definition has_key {A : Type} (m : gmap string A) (k : string) : bool :=
  match m !! k with Some _ => true | None => false end.

(** [m[k]] on a [map[string]string]: the zero value when the key is absent *)
Definition index (m : gmap string string) (k : string) : string :=
  match m !! k with Some v => v | None => "" end.

Definition is_empty {A : Type} (l : list A) : bool :=
  match l with [] => true | _ :: _ => false end.

(** ** Package [plugin] *)

Definition plugin_prefix : string := "@godspeedsystems/plugins".

Definition quiet_flags : list string :=
  ["--quiet"; "--no-warnings"; "--silent"; "--progress=false"].

(** The two emoji closing the farewell line, as UTF-8 bytes. *)
Definition emoji : string :=
  String "240"%char (String "159"%char (String "154"%char (String "128"%char
  (String "240"%char (String "159"%char (String "142"%char (String "137"%char ""))))))).

Definition happy_coding : Event :=
  EvPrint Cyan ("Happy coding with Godspeed! " +:+ emoji +:+ nl) [].

Definition searchPluginsFromNpm (E : Env) : M (error + list Plugin) :=
  out <- Cmd_Output E "npm" ["search"; plugin_prefix; "--json"] ;;
  match out with
  | inl err => ret (inl err)
  | inr output =>
      match json_SearchResults E output with
      | inl err => ret (inl err)
      | inr searchResults =>
          ret (inr (foldl (fun plugins result =>
                             let nameParts := Split (sr_Name result) "plugins-" in
                             if (1 <? length nameParts)%nat
                             then plugins ++ [mkPlugin (sr_Name result)
                                                       (nth 1 nameParts "")
                                                       (sr_Description result)]
                             else plugins)
                          [] searchResults))
      end
  end.

Definition LoadPluginsList (E : Env) : M (error + list Plugin) :=
  match os_Executable E with
  | inl err => ret (inl err)
  | inr execPath =>
      let pluginsPath :=
        filepath_Join E [filepath_Dir E execPath; "assets"; "plugins_list.json"] in
      r <- ioutil_ReadFile pluginsPath ;;
      match r with
      | inl _ => searchPluginsFromNpm E
      | inr data =>
          match json_Plugins E data with
          | inl err => ret (inl err)
          | inr plugins => ret (inr plugins)
          end
      end
  end.

Definition GetInstalledPlugins (E : Env) : M (error + gmap string string) :=
  ok <- IsGodspeedProject ;;
  if negb ok then ret (inl (Errorf "not a godspeed project" []))
  else
    let pkgPath := filepath_Join E ["."; "package.json"] in
    ex <- FileExists pkgPath ;;
    if negb ex then ret (inl (Errorf "package.json not found" []))
    else
      r <- ioutil_ReadFile pkgPath ;;
      match r with
      | inl err => ret (inl err)
      | inr pkgData =>
          match json_Dependencies E pkgData with
          | inl err => ret (inl err)
          | inr Dependencies =>
              ret (inr (foldl (fun plugins (entry : string * string) =>
                                 if HasPrefix (fst entry) plugin_prefix
                                 then <[fst entry := snd entry]> plugins
                                 else plugins)
                              ∅ (go_range E string Dependencies)))
          end
      end.

Definition ModuleTypeDS : string := "DS".
Definition ModuleTypeES : string := "ES".
Definition ModuleTypeBoth : string := "BOTH".

Definition module_script (pluginName : string) : string :=
  nl +:+ tab +:+ tab +:+ "try {" +:+ nl
  +:+ tab +:+ tab +:+ tab +:+ "const Module = require('" +:+ pluginName +:+ "');" +:+ nl
  +:+ tab +:+ tab +:+ tab +:+ "console.log(JSON.stringify({" +:+ nl
  +:+ tab +:+ tab +:+ tab +:+ tab +:+ "moduleType: Module.SourceType," +:+ nl
  +:+ tab +:+ tab +:+ tab +:+ tab +:+ "loaderFileName: Module.Type," +:+ nl
  +:+ tab +:+ tab +:+ tab +:+ tab +:+ "yamlFileName: Module.CONFIG_FILE_NAME," +:+ nl
  +:+ tab +:+ tab +:+ tab +:+ tab +:+ "defaultConfig: Module.DEFAULT_CONFIG || {}" +:+ nl
  +:+ tab +:+ tab +:+ tab +:+ "}));" +:+ nl
  +:+ tab +:+ tab +:+ "} catch (e) {" +:+ nl
  +:+ tab +:+ tab +:+ tab +:+ "console.error(e.message);" +:+ nl
  +:+ tab +:+ tab +:+ tab +:+ "process.exit(1);" +:+ nl
  +:+ tab +:+ tab +:+ "}" +:+ nl
  +:+ tab.

(** The four results of the Go function are returned as one record. *)
Definition getModuleInfo (E : Env) (pluginName : string) : M (error + ModuleInfo) :=
  out <- Cmd_Output E "node" ["-e"; module_script pluginName] ;;
  match out with
  | inl err => ret (inl (Errorf "error getting module info: %v" [ArgE err]))
  | inr output =>
      match json_ModuleInfo E output with
      | inl err => ret (inl (Errorf "error parsing module info: %v" [ArgE err]))
      | inr result => ret (inr result)
      end
  end.

(** [config := map{"type": loaderFileName}; for k, v := range defaultConfig
    { config[k] = v }] *)
Definition build_config (E : Env) (loaderFileName : string) (defaultConfig : gmap string Any)
  : gmap string Any :=
  foldl (fun config (entry : string * Any) => <[fst entry := snd entry]> config)
        {["type" := AString loaderFileName]}
        (go_range E Any defaultConfig).

Definition stub_content (kind pluginName : string) : string :=
  nl +:+ "import { " +:+ kind +:+ " } from '" +:+ pluginName +:+ "';" +:+ nl
  +:+ "export default " +:+ kind +:+ ";" +:+ nl +:+ tab.

Definition createEventSourceFiles (E : Env) (pluginName loaderFileName yamlFileName : string)
    (defaultConfig : gmap string Any) : M (option error) :=
  let typesDir := filepath_Join E ["src"; "eventsources"; "types"] in
  e <- CreateDir typesDir ;;
  match e with
  | Some err => ret (Some err)
  | None =>
      let tsContent := stub_content "EventSource" pluginName in
      let tsPath := filepath_Join E [typesDir; loaderFileName +:+ ".ts"] in
      e <- ioutil_WriteFile tsPath tsContent ;;
      match e with
      | Some err => ret (Some err)
      | None =>
          let config := build_config E loaderFileName defaultConfig in
          match yaml_Marshal E config with
          | inl err => ret (Some err)
          | inr yamlData =>
              let yamlPath :=
                filepath_Join E ["src"; "eventsources"; yamlFileName +:+ ".yaml"] in
              ioutil_WriteFile yamlPath yamlData
          end
      end
  end.

Definition createDataSourceFiles (E : Env) (pluginName loaderFileName yamlFileName : string)
    (defaultConfig : gmap string Any) : M (option error) :=
  let typesDir := filepath_Join E ["src"; "datasources"; "types"] in
  e <- CreateDir typesDir ;;
  match e with
  | Some err => ret (Some err)
  | None =>
      let tsContent := stub_content "DataSource" pluginName in
      let tsPath := filepath_Join E [typesDir; loaderFileName +:+ ".ts"] in
      e <- ioutil_WriteFile tsPath tsContent ;;
      match e with
      | Some err => ret (Some err)
      | None =>
          if String.eqb loaderFileName "prisma" then ret None
          else
            let config := build_config E loaderFileName defaultConfig in
            match yaml_Marshal E config with
            | inl err => ret (Some err)
            | inr yamlData =>
                let yamlPath :=
                  filepath_Join E ["src"; "datasources"; yamlFileName +:+ ".yaml"] in
                ioutil_WriteFile yamlPath yamlData
            end
      end
  end.

(** The [switch moduleType] of [createPluginFiles]. *)
Definition createFilesByType (E : Env) (pluginName moduleType loaderFileName yamlFileName : string)
    (defaultConfig : gmap string Any) : M (option error) :=
  if String.eqb moduleType ModuleTypeBoth then
    e <- createEventSourceFiles E pluginName loaderFileName yamlFileName defaultConfig ;;
    match e with
    | Some err => ret (Some err)
    | None => createDataSourceFiles E pluginName loaderFileName yamlFileName defaultConfig
    end
  else if String.eqb moduleType ModuleTypeDS then
    createDataSourceFiles E pluginName loaderFileName yamlFileName defaultConfig
  else if String.eqb moduleType ModuleTypeES then
    createEventSourceFiles E pluginName loaderFileName yamlFileName defaultConfig
  else ret (Some (Errorf "unknown module type: %s" [ArgS moduleType])).

Definition createPluginFiles (E : Env) (pluginName : string) : M (option error) :=
  r <- getModuleInfo E pluginName ;;
  match r with
  | inl err => ret (Some err)
  | inr info =>
      createFilesByType E pluginName (ModuleType info) (LoaderFileName info)
                        (YamlFileName info) (DefaultConfig info)
  end.

(** [if utils.FileExists(path) { if err := os.Remove(path); err != nil
    { return err } }] *)
Definition removeIfExists (path : string) : M (option error) :=
  ex <- FileExists path ;;
  if ex then os_Remove path else ret None.

Definition removeEventSourceFiles (E : Env) (loaderFileName yamlFileName : string)
  : M (option error) :=
  let tsPath := filepath_Join E ["src"; "eventsources"; "types"; loaderFileName +:+ ".ts"] in
  e <- removeIfExists tsPath ;;
  match e with
  | Some err => ret (Some err)
  | None =>
      let yamlPath := filepath_Join E ["src"; "eventsources"; yamlFileName +:+ ".yaml"] in
      removeIfExists yamlPath
  end.

Definition removeDataSourceFiles (E : Env) (loaderFileName yamlFileName : string)
  : M (option error) :=
  let tsPath := filepath_Join E ["src"; "datasources"; "types"; loaderFileName +:+ ".ts"] in
  e <- removeIfExists tsPath ;;
  match e with
  | Some err => ret (Some err)
  | None =>
      if String.eqb loaderFileName "prisma" then ret None
      else
        let yamlPath := filepath_Join E ["src"; "datasources"; yamlFileName +:+ ".yaml"] in
        removeIfExists yamlPath
  end.

(** The [switch moduleType] of [removePluginFiles]. *)
Definition removeFilesByType (E : Env) (moduleType loaderFileName yamlFileName : string)
  : M (option error) :=
  if String.eqb moduleType ModuleTypeBoth then
    e <- removeEventSourceFiles E loaderFileName yamlFileName ;;
    match e with
    | Some err => ret (Some err)
    | None => removeDataSourceFiles E loaderFileName yamlFileName
    end
  else if String.eqb moduleType ModuleTypeDS then
    removeDataSourceFiles E loaderFileName yamlFileName
  else if String.eqb moduleType ModuleTypeES then
    removeEventSourceFiles E loaderFileName yamlFileName
  else ret (Some (Errorf "unknown module type: %s" [ArgS moduleType])).

Definition removePluginFiles (E : Env) (pluginName : string) : M (option error) :=
  r <- getModuleInfo E pluginName ;;
  match r with
  | inl err => ret (Some err)
  | inr info =>
      removeFilesByType E (ModuleType info) (LoaderFileName info) (YamlFileName info)
  end.

(** Body of the loop of [installPlugins]: [if err := createPluginFiles(
    pluginName); err != nil { color.Red(...) }]. *)
Definition createFilesStep (E : Env) (pluginName : string) : M unit :=
  r <- createPluginFiles E pluginName ;;
  match r with
  | Some e =>
      emit (EvPrint Red "Error creating files for %s: %v" [ArgS pluginName; ArgE e])
  | None => ret tt
  end.

(** Body of the loop of [removePlugins]. *)
Definition removeFilesStep (E : Env) (pluginName : string) : M unit :=
  r <- removePluginFiles E pluginName ;;
  match r with
  | Some e =>
      emit (EvPrint Red "Error removing files for %s: %v" [ArgS pluginName; ArgE e])
  | None => ret tt
  end.

Definition installPlugins (E : Env) (plugins : list string) : M unit :=
  if is_empty plugins then ret tt
  else
    NewSpinner_Start "Installing plugins... " ;;;
    let args := ("install" :: plugins) ++ quiet_flags in
    err <- Cmd_Run E "npm" args ;;
    Spinner_Stop ;;;
    match err with
    | Some e => emit (EvPrint Red (nl +:+ "Error installing plugins: %v") [ArgE e])
    | None =>
        emit (EvPrint Green (nl +:+ "Plugins installed successfully!") []) ;;;
        forEach (createFilesStep E) plugins ;;;
        emit happy_coding
    end.

Definition removePlugins (E : Env) (plugins : list string) : M unit :=
  if is_empty plugins then ret tt
  else
    forEach (removeFilesStep E) plugins ;;;
    NewSpinner_Start "Uninstalling plugins... " ;;;
    let args := ("uninstall" :: plugins) ++ quiet_flags in
    err <- Cmd_Run E "npm" args ;;
    Spinner_Stop ;;;
    match err with
    | Some e => emit (EvPrint Red (nl +:+ "Error uninstalling plugins: %v") [ArgE e])
    | None =>
        emit (EvPrint Green (nl +:+ "Plugins uninstalled successfully!") []) ;;;
        emit happy_coding
    end.

Definition updatePlugins (E : Env) (plugins : list string) : M unit :=
  if is_empty plugins then ret tt
  else
    NewSpinner_Start "Updating plugins... " ;;;
    let args := ("update" :: plugins) ++ quiet_flags in
    err <- Cmd_Run E "npm" args ;;
    Spinner_Stop ;;;
    match err with
    | Some e => emit (EvPrint Red (nl +:+ "Error updating plugins: %v") [ArgE e])
    | None =>
        emit (EvPrint Green (nl +:+ "Plugins updated successfully!") []) ;;;
        emit happy_coding
    end.

(** [fmt.Sprintf("%s - %s", a, b)] *)
Definition display (a b : string) : string := a +:+ " - " +:+ b.

Definition Add (E : Env) (pluginName : string) : M unit :=
  ok <- IsGodspeedProject ;;
  if negb ok then ret tt
  else
    r <- LoadPluginsList E ;;
    match r with
    | inl err => emit (EvPrint Red "Error loading plugins list: %v" [ArgE err])
    | inr availablePlugins =>
        r' <- GetInstalledPlugins E ;;
        match r' with
        | inl err => emit (EvPrint Red "Error checking installed plugins: %v" [ArgE err])
        | inr installedPlugins =>
            let missingPlugins :=
              foldl (fun missing plugin =>
                       if negb (has_key installedPlugins (Value plugin))
                       then missing ++ [plugin] else missing)
                    [] availablePlugins in
            if String.eqb pluginName "" then
              if is_empty missingPlugins then
                emit (EvPrint Red "All plugins are already installed." [])
              else
                let options :=
                  map (fun plugin => display (Name plugin) (Description plugin))
                      missingPlugins in
                let optionsMap :=
                  foldl (fun m plugin =>
                           <[display (Name plugin) (Description plugin) := Value plugin]> m)
                        (∅ : gmap string string) missingPlugins in
                sel <- survey_AskOne E "Please select godspeed plugin to install:" options ;;
                match sel with
                | inl err => emit (EvPrint Red "Error: %v" [ArgE err])
                | inr selectedPlugins =>
                    if is_empty selectedPlugins then
                      emit (EvPrint Red "No plugins selected." [])
                    else
                      let pluginsToInstall := map (index optionsMap) selectedPlugins in
                      installPlugins E pluginsToInstall
                end
            else
              let found :=
                existsb (fun plugin => String.eqb (Value plugin) pluginName)
                        availablePlugins in
              if negb found then
                emit (EvPrint Red (nl +:+ "Please provide a valid plugin name." +:+ nl) [])
              else if has_key installedPlugins pluginName then
                emit (EvPrint Yellow "Plugin %s is already installed." [ArgS pluginName])
              else
                installPlugins E [pluginName] ;;;
                emit (EvPrint Cyan (nl +:+ "For detailed documentation and examples, visit:") []) ;;;
                emit (EvPrint Yellow ("https://www.npmjs.com/package/%s" +:+ nl)
                              [ArgS pluginName])
        end
    end.

(** The interactive selection shared, word for word, by [Remove] and
    [Update]: one option per installed plugin, labelled with the catalog's
    description, and the chosen labels mapped back to identifiers.  [k]
    receives the chosen identifiers. *)
Definition selectInstalled (E : Env) (installedPlugins : gmap string string)
    (message none_selected : string) (k : list string -> M unit) : M unit :=
  r <- LoadPluginsList E ;;
  match r with
  | inl err => emit (EvPrint Red "Error loading plugins list: %v" [ArgE err])
  | inr availablePlugins =>
      let pluginDescriptions :=
        foldl (fun m plugin => <[Value plugin := Description plugin]> m)
              (∅ : gmap string string) availablePlugins in
      let displayName (name : string) :=
        let description := index pluginDescriptions name in
        display name (if String.eqb description ""
                      then "No description available" else description) in
      let names := map fst (go_range E string installedPlugins) in
      let options := map displayName names in
      let optionsMap :=
        foldl (fun m name => <[displayName name := name]> m)
              (∅ : gmap string string) names in
      sel <- survey_AskOne E message options ;;
      match sel with
      | inl err => emit (EvPrint Red "Error: %v" [ArgE err])
      | inr selectedPlugins =>
          if is_empty selectedPlugins then emit (EvPrint Red none_selected [])
          else k (map (index optionsMap) selectedPlugins)
      end
  end.

Definition Remove (E : Env) (pluginName : string) : M unit :=
  ok <- IsGodspeedProject ;;
  if negb ok then ret tt
  else
    r <- GetInstalledPlugins E ;;
    match r with
    | inl err => emit (EvPrint Red "Error checking installed plugins: %v" [ArgE err])
    | inr installedPlugins =>
        if (size installedPlugins =? 0)%nat then
          emit (EvPrint Red "There are no eventsource/datasource plugins installed." [])
        else if negb (String.eqb pluginName "") then
          if negb (has_key installedPlugins pluginName) then
            emit (EvPrint Red "Plugin %s is not installed." [ArgS pluginName])
          else removePlugins E [pluginName]
        else
          selectInstalled E installedPlugins
            "Please select godspeed plugin to uninstall:"
            "No plugins selected to remove."
            (removePlugins E)
    end.

Definition Update (E : Env) : M unit :=
  ok <- IsGodspeedProject ;;
  if negb ok then ret tt
  else
    r <- GetInstalledPlugins E ;;
    match r with
    | inl err => emit (EvPrint Red "Error checking installed plugins: %v" [ArgE err])
    | inr installedPlugins =>
        if (size installedPlugins =? 0)%nat then
          emit (EvPrint Red "There are no eventsource/datasource plugins installed." [])
        else
          selectInstalled E installedPlugins
            "Please select godspeed plugin to update:"
            "No plugins selected to update."
            (updatePlugins E)
    end.

(** ** Vocabulary of the statements *)

(** [path] is a regular file of [fs]. *)
Definition is_file (fs : FS) (path : string) : Prop :=
  exists content, fs !! path = Some (File content).

(** The manifest path as [GetInstalledPlugins] computes it. *)
Definition pkgPath (E : Env) : string := filepath_Join E ["."; "package.json"].

(** Where [LoadPluginsList] looks for the bundled catalog. *)
Definition snapshot_path (E : Env) (execPath : string) : string :=
  filepath_Join E [filepath_Dir E execPath; "assets"; "plugins_list.json"].

(** The registry search issued by [searchPluginsFromNpm]. *)
Definition catalog_query : Event :=
  EvExec "npm" ["search"; "@godspeedsystems/plugins"; "--json"].

(** Effects that create, change or delete something under the project. *)
Definition is_file_op (e : Event) : bool :=
  match e with
  | EvMkdirAll _ | EvWriteFile _ _ | EvRemove _ => true
  | _ => false
  end.

(** Invocations of the package manager that change the manifest. *)
Definition is_package_op (e : Event) : bool :=
  match e with
  | EvExec name (sub :: _) =>
      String.eqb name "npm"
      && (String.eqb sub "install" || String.eqb sub "uninstall" || String.eqb sub "update")
  | _ => false
  end.

(** Child processes. *)
Definition is_exec (e : Event) : bool :=
  match e with
  | EvExec _ _ => true
  | _ => false
  end.

(** The descriptor resolution of one plugin, and the three batched calls of
    the package manager. *)
Definition resolution (pluginName : string) : Event :=
  EvExec "node" ["-e"; module_script pluginName].

Definition npm_call (sub : string) (plugins : list string) : Event :=
  EvExec "npm" ((sub :: plugins) ++ quiet_flags).

Definition is_error_print (e : Event) : bool :=
  match e with
  | EvPrint Red _ _ => true
  | _ => false
  end.

(** The files written, in order. *)
Definition is_write (e : Event) : bool :=
  match e with
  | EvWriteFile _ _ => true
  | _ => false
  end.

Definition written_path (e : Event) : string :=
  match e with
  | EvWriteFile path _ => path
  | _ => ""
  end.

(** *** Artifact creation as a straight-line script

    Both [create...Files] functions run a fixed sequence of directory
    creations and file writes and stop at the first error.  A [step] is one
    element of such a sequence; [StepFail] stands for a computation that
    fails without touching the disk (an encoder error, an unknown module
    type). *)
Inductive step : Type :=
| StepMkdir (dir : string)
| StepWrite (path data : string)
| StepFail (err : error).

Definition run_step (s : step) : M (option error) :=
  match s with
  | StepMkdir dir => CreateDir dir
  | StepWrite path data => ioutil_WriteFile path data
  | StepFail err => ret (Some err)
  end.

Fixpoint run_script (steps : list step) : M (option error) :=
  match steps with
  | [] => ret None
  | s :: rest =>
      e <- run_step s ;;
      match e with
      | Some err => ret (Some err)
      | None => run_script rest
      end
  end.

Definition config_steps (E : Env) (tree loaderFileName yamlFileName : string)
    (defaultConfig : gmap string Any) : list step :=
  match yaml_Marshal E (build_config E loaderFileName defaultConfig) with
  | inl err => [StepFail err]
  | inr yamlData =>
      [StepWrite (filepath_Join E ["src"; tree; yamlFileName +:+ ".yaml"]) yamlData]
  end.

Definition stub_steps (E : Env) (tree kind pluginName loaderFileName : string) : list step :=
  let typesDir := filepath_Join E ["src"; tree; "types"] in
  [StepMkdir typesDir;
   StepWrite (filepath_Join E [typesDir; loaderFileName +:+ ".ts"])
             (stub_content kind pluginName)].

Definition es_script (E : Env) (pluginName loaderFileName yamlFileName : string)
    (defaultConfig : gmap string Any) : list step :=
  stub_steps E "eventsources" "EventSource" pluginName loaderFileName
  ++ config_steps E "eventsources" loaderFileName yamlFileName defaultConfig.

Definition ds_script (E : Env) (pluginName loaderFileName yamlFileName : string)
    (defaultConfig : gmap string Any) : list step :=
  stub_steps E "datasources" "DataSource" pluginName loaderFileName
  ++ (if String.eqb loaderFileName "prisma" then []
      else config_steps E "datasources" loaderFileName yamlFileName defaultConfig).

Definition type_script (E : Env) (pluginName moduleType loaderFileName yamlFileName : string)
    (defaultConfig : gmap string Any) : list step :=
  if String.eqb moduleType ModuleTypeBoth then
    es_script E pluginName loaderFileName yamlFileName defaultConfig
    ++ ds_script E pluginName loaderFileName yamlFileName defaultConfig
  else if String.eqb moduleType ModuleTypeDS then
    ds_script E pluginName loaderFileName yamlFileName defaultConfig
  else if String.eqb moduleType ModuleTypeES then
    es_script E pluginName loaderFileName yamlFileName defaultConfig
  else [StepFail (Errorf "unknown module type: %s" [ArgS moduleType])].

(** The artifact paths of a descriptor, in the order they are written: a
    function of the module type, the loader name and the config name. *)
Definition tree_paths (E : Env) (tree loaderFileName yamlFileName : string) (config : bool)
  : list string :=
  filepath_Join E [filepath_Join E ["src"; tree; "types"]; loaderFileName +:+ ".ts"]
  :: (if config then [filepath_Join E ["src"; tree; yamlFileName +:+ ".yaml"]] else []).

Definition es_paths (E : Env) (loaderFileName yamlFileName : string) : list string :=
  tree_paths E "eventsources" loaderFileName yamlFileName true.

Definition ds_paths (E : Env) (loaderFileName yamlFileName : string) : list string :=
  tree_paths E "datasources" loaderFileName yamlFileName
             (negb (String.eqb loaderFileName "prisma")).

Definition artifact_paths (E : Env) (moduleType loaderFileName yamlFileName : string)
  : list string :=
  if String.eqb moduleType ModuleTypeBoth then
    es_paths E loaderFileName yamlFileName ++ ds_paths E loaderFileName yamlFileName
  else if String.eqb moduleType ModuleTypeDS then ds_paths E loaderFileName yamlFileName
  else if String.eqb moduleType ModuleTypeES then es_paths E loaderFileName yamlFileName
  else [].

(** The paths a script writes if nothing goes wrong before its first
    [StepFail]. *)
Fixpoint planned_paths (steps : list step) : list string :=
  match steps with
  | [] => []
  | StepMkdir _ :: rest => planned_paths rest
  | StepWrite path _ :: rest => path :: planned_paths rest
  | StepFail _ :: _ => []
  end.

Definition never_fails (steps : list step) : Prop :=
  Forall (fun s => match s with StepFail _ => False | _ => True end) steps.

(** Directories stay directories and files stay files. *)
Definition grows (fs fs' : FS) : Prop :=
  forall path,
    (fs !! path = Some Dir -> fs' !! path = Some Dir)
    /\ (is_file fs path -> is_file fs' path).

(** [fsx] is the final disk [final] of a run, except where it still holds
    the files that the run had already written when it reached [fs0]. *)
Definition replays (fs0 fsx final : FS) : Prop :=
  forall path,
    fsx !! path = final !! path
    \/ (fsx !! path = fs0 !! path /\ is_file fs0 path).

(** The catalog contract in its strong form: a failure of
    [LoadPluginsList] means that the snapshot could not be read and that the
    registry search failed as well. *)
Definition snapshot_unreadable (E : Env) (fs : FS) : Prop :=
  match os_Executable E with
  | inl _ => True
  | inr execPath => forall data, fs !! snapshot_path E execPath <> Some (File data)
  end.

Definition remote_fails (E : Env) (fs : FS) : Prop :=
  exists err, value (searchPluginsFromNpm E fs) = inl err.

Definition fails_only_if_both_fail (E : Env) (fs : FS) : Prop :=
  forall err,
    value (LoadPluginsList E fs) = inl err ->
    snapshot_unreadable E fs /\ remote_fails E fs.

(** ** A concrete environment, used to run the model *)

Module Demo.

Definition express : string := "@godspeedsystems/plugins-express-as-http".
Definition mongo : string := "@godspeedsystems/plugins-mongo".

Definition catalog : list Plugin :=
  [mkPlugin express "express-as-http" "HTTP event source";
   mkPlugin mongo "mongo" "Mongo data source"].

Definition descriptor (pluginName : string) : option ModuleInfo :=
  if String.eqb pluginName express
  then Some (mkModuleInfo "ES" "express" "http" ∅)
  else if String.eqb pluginName mongo
  then Some (mkModuleInfo "BOTH" "mongo" "mongo-cfg" {["uri" := AString "x"]})
  else None.

(** [npm] succeeds on everything except a batch naming ["broken"], and
    leaves the disk as it found it; [node] prints the identifier of the
    module it loaded, or fails when there is no such module. *)
Definition run (name : string) (args : list string) (fs : FS) : option error * FS :=
  if bool_decide ("broken" ∈ args) then (Some (ExtError "exit status 1"), fs)
  else (None, fs).

Definition output (name : string) (args : list string) (fs : FS) : error + string :=
  if String.eqb name "npm" then inr "search"
  else match args with
       | [_; script] =>
           if bool_decide (script = module_script express) then inr express
           else if bool_decide (script = module_script mongo) then inr mongo
           else inl (ExtError "exit status 1")
       | _ => inl (ExtError "exit status 1")
       end.

Definition decode_plugins (data : string) : error + list Plugin :=
  if String.eqb data "catalog" then inr catalog
  else if String.eqb data "stale" then inr [mkPlugin mongo "mongo" "Mongo data source"]
  else inl (ExtError "invalid character").

Definition decode_dependencies (data : string) : error + gmap string string :=
  if String.eqb data "manifest"
  then inr ({[express := "^1.0.0"; "lodash" := "^4.17.0"]} : gmap string string)
  else inl (ExtError "invalid character").

Definition decode_module (data : string) : error + ModuleInfo :=
  match descriptor data with
  | Some info => inr info
  | None => inl (ExtError "unexpected end of JSON input")
  end.

(** A one-line rendering that shows which ["type"] a config ended up with. *)
Definition render (config : gmap string Any) : string :=
  "type: " +:+ match config !! "type" with
               | Some (AString t) => t
               | _ => "?"
               end.

(** Enough of [filepath.Clean] for the paths of this package: a leading
    [./] is dropped. *)
Definition clean (p : string) : string :=
  match p with
  | String "."%char (String "/"%char rest) => rest
  | _ => p
  end.

Definition env : Env := {|
  os_Executable := inr "/opt/godspeed/godspeed";
  filepath_Clean := clean;
  filepath_Dir := fun _ => "/opt/godspeed";
  exec_Output := output;
  exec_Run := run;
  json_Plugins := decode_plugins;
  json_SearchResults := fun _ => inr [mkSearchResult mongo "Mongo data source" "1.0.0"];
  json_Dependencies := decode_dependencies;
  json_ModuleInfo := decode_module;
  yaml_Marshal := fun config => inr (render config);
  survey_MultiSelect := fun _ options => inr (take 1 options);
  go_range := fun A m => map_to_list m
|}.

(** A project with a bundled catalog next to the executable. *)
Definition project : FS :=
  {[ ".godspeed" := File "";
     "package.json" := File "manifest";
     "/opt/godspeed/assets/plugins_list.json" := File "catalog" ]}.

(** The same project with a bundled catalog that does not parse. *)
Definition corrupt_catalog : FS :=
  <["/opt/godspeed/assets/plugins_list.json" := File "<html>"]> project.

(** The same project with an older catalog that does not list [express]. *)
Definition stale_catalog : FS :=
  <["/opt/godspeed/assets/plugins_list.json" := File "stale"]> project.

End Demo.

(** ** More vocabulary and a second concrete environment *)

(** The two lines [IsGodspeedProject] prints when the marker file is
    missing, and when only the manifest is. *)
Definition no_marker_notice : list Event :=
  [EvPrint Red "The current directory is not a Godspeed Framework project." [];
   EvPrint Yellow "godspeed commands work inside godspeed project directory." []].

Definition no_manifest_notice : list Event :=
  [EvPrint Red "The current directory is not a Godspeed project." [];
   EvPrint Yellow "godspeed commands only work inside godspeed project directory." []].

(** The label under which [Add] offers a catalog entry, and the entries it
    offers: those of the catalog that are not installed. *)
Definition label (plugin : Plugin) : string :=
  display (Name plugin) (Description plugin).

Definition missing_plugins (installed : gmap string string) (available : list Plugin)
  : list Plugin :=
  List.filter (fun plugin => negb (has_key installed (Value plugin))) available.

(** The label under which [Remove] and [Update] offer an installed
    identifier: the identifier and its description in the catalog. *)
Definition describe (available : list Plugin) (name : string) : string :=
  let pluginDescriptions :=
    foldl (fun m plugin => <[Value plugin := Description plugin]> m)
          (∅ : gmap string string) available in
  let description := index pluginDescriptions name in
  display name (if String.eqb description ""
                then "No description available" else description).

(** The identifiers of the installed set in the order the selection loop
    visits them. *)
Definition visited_names (E : Env) (installed : gmap string string) : list string :=
  map fst (go_range E string installed).

Fixpoint no_space (s : string) : bool :=
  match s with
  | "" => true
  | String c s' => negb (Ascii.eqb c " "%char) && no_space s'
  end.

(** The three module types the package knows. *)
Definition known_type (moduleType : string) : bool :=
  String.eqb moduleType ModuleTypeBoth
  || String.eqb moduleType ModuleTypeDS
  || String.eqb moduleType ModuleTypeES.

(** The paths that the removal of a descriptor examines, in order. *)
Definition removed_tree_paths (E : Env) (tree loaderFileName yamlFileName : string)
    (config : bool) : list string :=
  filepath_Join E ["src"; tree; "types"; loaderFileName +:+ ".ts"]
  :: (if config then [filepath_Join E ["src"; tree; yamlFileName +:+ ".yaml"]] else []).

Definition removal_paths (E : Env) (moduleType loaderFileName yamlFileName : string)
  : list string :=
  let es := removed_tree_paths E "eventsources" loaderFileName yamlFileName true in
  let ds := removed_tree_paths E "datasources" loaderFileName yamlFileName
                               (negb (String.eqb loaderFileName "prisma")) in
  if String.eqb moduleType ModuleTypeBoth then es ++ ds
  else if String.eqb moduleType ModuleTypeDS then ds
  else if String.eqb moduleType ModuleTypeES then es
  else [].

(** Removing a list of files one after the other, stopping at the first
    error: what both [remove...Files] functions do. *)
Fixpoint remove_all (paths : list string) : M (option error) :=
  match paths with
  | [] => ret None
  | path :: rest =>
      e <- removeIfExists path ;;
      match e with
      | Some err => ret (Some err)
      | None => remove_all rest
      end
  end.

(** Creation builds the path of a stub from the types directory, removal
    builds it in one go.  The two agree when joining onto a joined path is
    joining everything at once, as it is for [filepath.Join] on cleaned
    paths. *)
Definition stub_paths_agree (E : Env) (loaderFileName : string) : Prop :=
  forall tree,
    tree = "eventsources" \/ tree = "datasources" ->
    filepath_Join E [filepath_Join E ["src"; tree; "types"]; loaderFileName +:+ ".ts"]
    = filepath_Join E ["src"; tree; "types"; loaderFileName +:+ ".ts"].

(** [sep] occurs somewhere in [s]. *)
Fixpoint contains (s sep : string) : bool :=
  HasPrefix s sep
  || match s with
     | "" => false
     | String _ s' => contains s' sep
     end.

(** A registry entry of the plugin namespace, and the catalog entry made of
    it. *)
Definition registry_entry (short description version : string) : SearchResult :=
  mkSearchResult ("@godspeedsystems/plugins-" +:+ short) description version.

Definition catalog_entry (r : SearchResult) (short : string) : Plugin :=
  mkPlugin (sr_Name r) short (sr_Description r).

(** A search result described either as an entry of the namespace (short
    name, description, version) or as any other result; the part of its
    name that matters for the split; and the catalog entry expected of it. *)
Definition search_result (item : string * string * string + SearchResult) : SearchResult :=
  match item with
  | inl (short, description, version) => registry_entry short description version
  | inr r => r
  end.

Definition item_key (item : string * string * string + SearchResult) : string :=
  match item with
  | inl (short, _, _) => short
  | inr r => sr_Name r
  end.

Definition expected_entry (item : string * string * string + SearchResult) : option Plugin :=
  match item with
  | inl (short, description, _) =>
      Some (mkPlugin ("@godspeedsystems/plugins-" +:+ short) short description)
  | inr _ => None
  end.

Module Demo2.

(** [Demo.env] with a manifest that lists no plugin. *)
Definition bare : Env := {|
  os_Executable := os_Executable Demo.env;
  filepath_Clean := filepath_Clean Demo.env;
  filepath_Dir := filepath_Dir Demo.env;
  exec_Output := exec_Output Demo.env;
  exec_Run := exec_Run Demo.env;
  json_Plugins := json_Plugins Demo.env;
  json_SearchResults := json_SearchResults Demo.env;
  json_Dependencies := fun _ => inr ({["lodash" := "^4.17.0"]} : gmap string string);
  json_ModuleInfo := json_ModuleInfo Demo.env;
  yaml_Marshal := yaml_Marshal Demo.env;
  survey_MultiSelect := survey_MultiSelect Demo.env;
  go_range := go_range Demo.env
|}.

(** [Demo.env] with a plugin whose module type is spelt in lower case. *)
Definition odd : Env := {|
  os_Executable := os_Executable Demo.env;
  filepath_Clean := filepath_Clean Demo.env;
  filepath_Dir := filepath_Dir Demo.env;
  exec_Output := fun _ _ _ => inr "descriptor";
  exec_Run := exec_Run Demo.env;
  json_Plugins := json_Plugins Demo.env;
  json_SearchResults := json_SearchResults Demo.env;
  json_Dependencies := json_Dependencies Demo.env;
  json_ModuleInfo := fun _ => inr (mkModuleInfo "both" "mongo" "mongo-cfg" ∅);
  yaml_Marshal := yaml_Marshal Demo.env;
  survey_MultiSelect := survey_MultiSelect Demo.env;
  go_range := go_range Demo.env
|}.

(** A directory that is not a project. *)
Definition elsewhere : FS := {[ "package.json" := File "manifest" ]}.

End Demo2.

(** * Package [devops]

    The devops plugins live in one directory under the user's home, outside
    any project.  Their commands differ from the project commands in four
    ways, which the computations of this part add to the ones above: the
    process can exit ([utils.UserHomeDir]), a child process is run inside a
    directory, the prompt asks for one option, and some lines are printed
    without colour. *)

Module devops.

(** [type DevopsPlugin struct] *)
Record DevopsPlugin : Type := mkDevopsPlugin {
  dp_Name : string;
  dp_Description : string;
  dp_Version : string
}.

Inductive Effect : Type :=
(** an effect of the helpers shared with package [plugin], or a coloured line *)
| Base (e : Event)
(** [fmt.Printf] and [fmt.Println] *)
| EvPrintf (format : string) (args : list fmtArg)
| EvPrintln (args : list fmtArg)
(** [survey.AskOne] on a [survey.Select] *)
| EvSelect (message : string) (options : list string)
(** [cmd.Dir = dir; cmd.Run()] *)
| EvRunIn (dir name : string) (args : list string)
(** [os.Exit] *)
| EvExit (code : nat).

Record Host : Type := mkHost {
  base : Env;
  (** [os.UserHomeDir()] *)
  os_UserHomeDir : error + string;
  (** [cmd.Run()] of a command whose [Dir] is set: exit status and the disk it leaves *)
  exec_RunIn : string -> string -> list string -> FS -> option error * FS;
  (** [survey.AskOne] on a [survey.Select] *)
  survey_Select : string -> list string -> error + string
}.

(** A computation that may end the process: [result] is [None] once
    [os.Exit] has been called, and nothing runs after that. *)
Record Out (A : Type) : Type := mkOut {
  result : option A;
  final : FS;
  trace : list Effect
}.
Arguments mkOut {A} _ _ _.
Arguments result {A} _.
Arguments final {A} _.
Arguments trace {A} _.

Definition P (A : Type) : Type := FS -> Out A.

Definition pret {A : Type} (a : A) : P A :=
  fun fs => mkOut (Some a) fs [].

Definition pbind {A B : Type} (m : P A) (f : A -> P B) : P B :=
  fun fs =>
    let r := m fs in
    match result r with
    | None => mkOut None (final r) (trace r)
    | Some a =>
        let r' := f a (final r) in
        mkOut (result r') (final r') (trace r ++ trace r')
    end.

Declare Scope proc_scope.
Delimit Scope proc_scope with proc.
Notation "x <- m ;; k" := (pbind m (fun x => k))
  (at level 100, m at next level, right associativity, only parsing) : proc_scope.
Notation "m ;;; k" := (pbind m (fun _ => k))
  (at level 100, right associativity, only parsing) : proc_scope.
#[local] Open Scope proc_scope.

Definition lift {A : Type} (m : M A) : P A :=
  fun fs =>
    let r := m fs in
    mkOut (Some (value r)) (disk r) (map Base (emitted r)).

Definition say (e : Effect) : P unit :=
  fun fs => mkOut (Some tt) fs [e].

Definition color_Print (c : Color) (format : string) (args : list fmtArg) : P unit :=
  say (Base (EvPrint c format args)).

Definition os_Exit {A : Type} (code : nat) : P A :=
  fun fs => mkOut None fs [EvExit code].

Definition Cmd_RunIn (H : Host) (dir name : string) (args : list string) : P (option error) :=
  fun fs =>
    let r := exec_RunIn H dir name args fs in
    mkOut (Some (fst r)) (snd r) [EvRunIn dir name args].

Definition survey_AskOne_Select (H : Host) (message : string) (options : list string)
  : P (error + string) :=
  fun fs => mkOut (Some (survey_Select H message options)) fs [EvSelect message options].

(** [strings.SplitN] for a non-empty separator: at most [n] pieces, the last
    one being the unsplit rest; [skip] and [cur] are as in [split_from]. *)
Fixpoint splitN_from (sep : string) (skip : nat) (n : nat) (cur : string) (s : string)
  : list string :=
  match s with
  | "" => [cur]
  | String c s' =>
      match skip with
      | S k => splitN_from sep k n cur s'
      | O =>
          match n with
          | S (S n') =>
              if HasPrefix s sep
              then cur :: splitN_from sep (String.length sep - 1) (S n') "" s'
              else splitN_from sep 0 n (cur +:+ String c "") s'
          | _ => [cur +:+ s]
          end
      end
  end.

Definition SplitN (s sep : string) (n : nat) : list string :=
  match n with
  | O => []
  | S _ => splitN_from sep 0 n "" s
  end.

(** [utils.UserHomeDir] *)
Definition UserHomeDir (H : Host) : P string :=
  match os_UserHomeDir H with
  | inl err =>
      say (EvPrintln [ArgS "Could not determine user home directory:"; ArgE err]) ;;;
      os_Exit 1
  | inr home => pret home
  end.

Definition searchDevopsPlugins (H : Host) : P (error + list DevopsPlugin) :=
  out <- lift (Cmd_Output (base H) "npm"
                 ["search"; "@godspeedsystems/devops-plugin"; "--json"]) ;;
  match out with
  | inl err => pret (inl err)
  | inr output =>
      match json_SearchResults (base H) output with
      | inl err => pret (inl err)
      | inr searchResults =>
          pret (inr (map (fun result =>
                            mkDevopsPlugin (sr_Name result) (sr_Description result)
                                           (sr_Version result))
                         searchResults))
      end
  end.

(** The interactive part of [Install]: the name to install, or [None] when
    the function returns without installing. *)
Definition Install_select (H : Host) : P (option string) :=
  r <- searchDevopsPlugins H ;;
  match r with
  | inl err =>
      color_Print Red "Error searching for devops plugins: %v" [ArgE err] ;;; pret None
  | inr availablePlugins =>
      if is_empty availablePlugins then
        color_Print Red "No devops plugins found." [] ;;; pret None
      else
        let options :=
          map (fun plugin => dp_Name plugin +:+ " - " +:+ dp_Description plugin)
              availablePlugins in
        sel <- survey_AskOne_Select H "Please select devops plugin to install:" options ;;
        match sel with
        | inl err => color_Print Red "Error: %v" [ArgE err] ;;; pret None
        | inr selected =>
            let parts := SplitN selected " - " 2 in
            pret (Some (nth 0 parts ""))
        end
  end.

Definition Install (H : Host) (pluginName : string) : P unit :=
  home <- UserHomeDir H ;;
  let gsDevopsPluginsDir := filepath_Join (base H) [home; ".godspeed"; "devops-plugins"] in
  made <- lift (CreateDir gsDevopsPluginsDir) ;;
  match made with
  | Some err => color_Print Red "Error creating plugins directory: %v" [ArgE err]
  | None =>
      let packageJsonPath := filepath_Join (base H) [gsDevopsPluginsDir; "package.json"] in
      there <- lift (FileExists packageJsonPath) ;;
      initialized <-
        (if negb there
         then Cmd_RunIn H gsDevopsPluginsDir "npm" ["init"; "--yes"]
         else pret None) ;;
      match initialized with
      | Some err => color_Print Red "Error initializing package.json: %v" [ArgE err]
      | None =>
          named <- (if String.eqb pluginName "" then Install_select H
                    else pret (Some pluginName)) ;;
          match named with
          | None => pret tt
          | Some pluginName =>
              color_Print Yellow "Installing %s..." [ArgS pluginName] ;;;
              ran <- Cmd_RunIn H gsDevopsPluginsDir "npm" ["install"; pluginName] ;;
              match ran with
              | Some err => color_Print Red "Error installing plugin: %v" [ArgE err]
              | None => color_Print Green "Successfully installed %s" [ArgS pluginName]
              end
          end
      end
  end.

(** The common opening of [Remove], [Update] and [listInstalledPlugins]:
    the plugin directory and the dependencies of its manifest, or [None]
    when the function has printed why it returns.  The three functions
    differ in two of the lines they print. *)
Definition installedDependencies (H : Host) (noManifest noDependencies : string)
  : P (option (string * gmap string string)) :=
  home <- UserHomeDir H ;;
  let gsDevopsPluginsDir := filepath_Join (base H) [home; ".godspeed"; "devops-plugins"] in
  isDir <- lift (DirExists gsDevopsPluginsDir) ;;
  if negb isDir then
    color_Print Red "Devops plugins directory not found." [] ;;; pret None
  else
    let packageJsonPath := filepath_Join (base H) [gsDevopsPluginsDir; "package.json"] in
    there <- lift (FileExists packageJsonPath) ;;
    if negb there then color_Print Red noManifest [] ;;; pret None
    else
      r <- lift (ioutil_ReadFile packageJsonPath) ;;
      match r with
      | inl err => color_Print Red "Error reading package.json: %v" [ArgE err] ;;; pret None
      | inr data =>
          match json_Dependencies (base H) data with
          | inl err =>
              color_Print Red "Error parsing package.json: %v" [ArgE err] ;;; pret None
          | inr Dependencies =>
              if (size Dependencies =? 0)%nat then
                color_Print Red noDependencies [] ;;; pret None
              else pret (Some (gsDevopsPluginsDir, Dependencies))
          end
      end.

(** [for name := range pkg.Dependencies { options = append(options, name) }] *)
Definition dependencyNames (H : Host) (Dependencies : gmap string string) : list string :=
  map fst (go_range (base H) string Dependencies).

Definition Remove (H : Host) (pluginName : string) : P unit :=
  opened <- installedDependencies H "No devops plugins are installed."
                                  "No devops plugins are installed." ;;
  match opened with
  | None => pret tt
  | Some (gsDevopsPluginsDir, Dependencies) =>
      named <-
        (if String.eqb pluginName "" then
           let options := dependencyNames H Dependencies in
           sel <- survey_AskOne_Select H "Please select devops plugin to remove:" options ;;
           match sel with
           | inl err => color_Print Red "Error: %v" [ArgE err] ;;; pret None
           | inr selected => pret (Some selected)
           end
         else if negb (has_key Dependencies pluginName) then
           color_Print Red "Plugin %s is not installed." [ArgS pluginName] ;;; pret None
         else pret (Some pluginName)) ;;
      match named with
      | None => pret tt
      | Some pluginName =>
          color_Print Yellow "Removing %s..." [ArgS pluginName] ;;;
          ran <- Cmd_RunIn H gsDevopsPluginsDir "npm" ["uninstall"; pluginName] ;;
          match ran with
          | Some err => color_Print Red "Error removing plugin: %v" [ArgE err]
          | None => color_Print Green "Successfully removed %s" [ArgS pluginName]
          end
      end
  end.

Definition Update (H : Host) : P unit :=
  opened <- installedDependencies H "No devops plugins are installed."
                                  "No devops plugins are installed." ;;
  match opened with
  | None => pret tt
  | Some (gsDevopsPluginsDir, Dependencies) =>
      let options := dependencyNames H Dependencies in
      sel <- survey_AskOne_Select H "Please select devops plugin to update:" options ;;
      match sel with
      | inl err => color_Print Red "Error: %v" [ArgE err]
      | inr selected =>
          color_Print Yellow "Updating %s..." [ArgS selected] ;;;
          ran <- Cmd_RunIn H gsDevopsPluginsDir "npm" ["install"; selected +:+ "@latest"] ;;
          match ran with
          | Some err => color_Print Red "Error updating plugin: %v" [ArgE err]
          | None => color_Print Green "Successfully updated %s" [ArgS selected]
          end
      end
  end.

(** [for _, x := range xs { body }] *)
Fixpoint forEach {A : Type} (body : A -> P unit) (xs : list A) : P unit :=
  match xs with
  | [] => pret tt
  | x :: xs' => body x ;;; forEach body xs'
  end.

Definition listInstalledPlugins (H : Host) : P unit :=
  opened <- installedDependencies H "No devops-plugin is installed"
                                  "There are no devops plugins installed." ;;
  match opened with
  | None => pret tt
  | Some (_, Dependencies) =>
      forEach (fun name => say (EvPrintf ("-> %s" +:+ nl) [ArgS name]))
              (dependencyNames H Dependencies)
  end.

Definition listAvailablePlugins (H : Host) : P unit :=
  r <- searchDevopsPlugins H ;;
  match r with
  | inl err => color_Print Red "Error searching for devops plugins: %v" [ArgE err]
  | inr plugins =>
      if is_empty plugins then color_Print Red "No devops plugins found." []
      else
        say (EvPrintln [ArgS "List of available devops plugins:"]) ;;;
        forEach (fun plugin => say (EvPrintf ("-> %s" +:+ nl) [ArgS (dp_Name plugin)]))
                plugins
  end.

Definition List (H : Host) (installed : bool) : P unit :=
  if installed then listInstalledPlugins H else listAvailablePlugins H.

(** ** Vocabulary of the statements about [devops] *)

Definition pluginsDir (H : Host) (home : string) : string :=
  filepath_Join (base H) [home; ".godspeed"; "devops-plugins"].

Definition manifestPath (H : Host) (home : string) : string :=
  filepath_Join (base H) [pluginsDir H home; "package.json"].

(** The plugin directory under [home] is there and its manifest lists
    [Dependencies]. *)
Definition lists (H : Host) (home : string) (fs : FS) (Dependencies : gmap string string)
  : Prop :=
  os_UserHomeDir H = inr home
  /\ fs !! pluginsDir H home = Some Dir
  /\ exists data,
       fs !! manifestPath H home = Some (File data)
       /\ json_Dependencies (base H) data = inr Dependencies.

(** The child processes run inside a directory, in order. *)
Definition runs (t : list Effect) : list (string * string * list string) :=
  omap (fun e => match e with
                 | EvRunIn dir name args => Some (dir, name, args)
                 | _ => None
                 end) t.

(** Prompts, and queries to the registry. *)
Definition is_question (e : Effect) : bool :=
  match e with
  | EvSelect _ _ | Base (EvPrompt _ _) => true
  | _ => false
  end.

Definition is_query (e : Effect) : bool :=
  match e with
  | Base (EvExec _ _) => true
  | _ => false
  end.

(** Effects by which the program itself changes the disk. *)
Definition touches (e : Effect) : bool :=
  match e with
  | Base e' => is_file_op e'
  | _ => false
  end.

Definition registry_query : Effect :=
  Base (EvExec "npm" ["search"; "@godspeedsystems/devops-plugin"; "--json"]).

(** The line printed for a listed plugin, and the option under which
    [Install] offers one. *)
Definition listed (name : string) : Effect :=
  EvPrintf ("-> %s" +:+ nl) [ArgS name].

Definition offer (plugin : DevopsPlugin) : string :=
  dp_Name plugin +:+ " - " +:+ dp_Description plugin.

(** A command that leaves the disk [fs] to the package manager: it issues
    no file operation of its own, runs at most one child process, and when
    it runs none the disk is as it was. *)
Definition contained (fs : FS) (o : Out unit) : Prop :=
  Forall (fun e => touches e = false) (trace o)
  /\ (length (runs (trace o)) <= 1)%nat
  /\ (runs (trace o) = [] -> final o = fs).

(** What the user sees when the home directory cannot be determined. *)
Definition no_home (err : error) : list Effect :=
  [EvPrintln [ArgS "Could not determine user home directory:"; ArgE err]; EvExit 1].

(** ** A concrete host *)

Module Sample.

Definition home : string := "/home/dev".
Definition dir : string := "/home/dev/.godspeed/devops-plugins".
Definition k8s : string := "@godspeedsystems/devops-plugin-k8s".

(** [npm init] writes a manifest, the other commands leave the disk as it
    is; a command naming ["broken"] fails. *)
Definition run_in (dir name : string) (args : list string) (fs : FS) : option error * FS :=
  if bool_decide ("broken" ∈ args) then (Some (ExtError "exit status 1"), fs)
  else match args with
       | "init" :: _ => (None, <[dir +:+ "/package.json" := File "fresh"]> fs)
       | _ => (None, fs)
       end.

Definition registry : Env := {|
  os_Executable := os_Executable Demo.env;
  filepath_Clean := filepath_Clean Demo.env;
  filepath_Dir := filepath_Dir Demo.env;
  exec_Output := exec_Output Demo.env;
  exec_Run := exec_Run Demo.env;
  json_Plugins := json_Plugins Demo.env;
  json_SearchResults := fun _ => inr [mkSearchResult k8s "Kubernetes deployment" "0.1.0"];
  json_Dependencies := fun data =>
    if String.eqb data "manifest"
    then inr ({[k8s := "^0.1.0"]} : gmap string string)
    else inl (ExtError "invalid character");
  json_ModuleInfo := json_ModuleInfo Demo.env;
  yaml_Marshal := yaml_Marshal Demo.env;
  survey_MultiSelect := survey_MultiSelect Demo.env;
  go_range := go_range Demo.env
|}.

(** The prompt answers with the first option. *)
Definition host : Host := {|
  base := registry;
  os_UserHomeDir := inr home;
  exec_RunIn := run_in;
  survey_Select := fun _ options => inr (nth 0 options "")
|}.

Definition homeless : Host := {|
  base := registry;
  os_UserHomeDir := inl (ExtError "$HOME is not defined");
  exec_RunIn := run_in;
  survey_Select := fun _ options => inr (nth 0 options "")
|}.

(** A machine with one devops plugin installed, and one with none. *)
Definition machine : FS :=
  {[ "/home/dev" := Dir;
     "/home/dev/.godspeed" := Dir;
     dir := Dir;
     dir +:+ "/package.json" := File "manifest" ]}.

Definition pristine : FS := {[ "/home/dev" := Dir ]}.

End Sample.

End devops.

(** * Properties *)

(** ** The model at work *)

Example path_ancestors_types :
  path_ancestors "src/datasources/types" = ["src/datasources"; "src"].
Proof. reflexivity. Qed.

Example Split_plugin_name :
  Split "@godspeedsystems/plugins-mongo" "plugins-" = ["@godspeedsystems/"; "mongo"].
Proof. reflexivity. Qed.

Example Split_no_separator : Split "lodash" "plugins-" = ["lodash"].
Proof. reflexivity. Qed.

Example HasPrefix_namespace :
  HasPrefix Demo.express plugin_prefix = true /\ HasPrefix "lodash" plugin_prefix = false.
Proof. split; reflexivity. Qed.

(** A plugin filling both roles gets a stub and a config in each tree. *)
Example create_both_roles :
  map written_path
      (List.filter is_write
         (emitted (createPluginFiles Demo.env Demo.mongo Demo.project)))
  = ["src/eventsources/types/mongo.ts"; "src/eventsources/mongo-cfg.yaml";
     "src/datasources/types/mongo.ts"; "src/datasources/mongo-cfg.yaml"]
  /\ disk (createPluginFiles Demo.env Demo.mongo Demo.project)
       !! "src/datasources/mongo-cfg.yaml" = Some (File "type: mongo").
Proof. split; vm_compute; reflexivity. Qed.

(** An interactive [Add] offers what is missing and installs the choice. *)
Example Add_interactive :
  List.filter (fun e => is_exec e || match e with EvPrompt _ _ => true | _ => false end)
              (emitted (Add Demo.env "" Demo.project))
  = [EvPrompt "Please select godspeed plugin to install:" ["mongo - Mongo data source"];
     npm_call "install" [Demo.mongo];
     resolution Demo.mongo].
Proof. vm_compute. reflexivity. Qed.

(** Without a bundled catalog the registry is searched. *)
Example LoadPluginsList_remote :
  value (LoadPluginsList Demo.env ∅)
  = inr [mkPlugin Demo.mongo "mongo" "Mongo data source"]
  /\ emitted (LoadPluginsList Demo.env ∅) = [catalog_query].
Proof. split; reflexivity. Qed.

(** ** Maps built by ranging over a Go map *)

Section Ranging.
Context {A : Type}.
Implicit Types (l : list (string * A)) (acc m : gmap string A).

(** Inserting the entries of a duplicate-free list one by one: the list
    wins over what the map held before. *)
Lemma foldl_insert_union l acc :
  NoDup l.*1 ->
  foldl (fun m (e : string * A) => <[fst e := snd e]> m) acc l = list_to_map l ∪ acc.
Proof.
  revert acc. induction l as [|[k v] l IH]; intros acc Hnd; simpl.
  - by rewrite map_empty_union.
  - apply NoDup_cons in Hnd as [Hk Hnd]. rewrite IH by done.
    apply map_eq. intros i.
    rewrite !lookup_union. destruct (decide (i = k)) as [->|Hne].
    + rewrite !lookup_insert_eq. rewrite not_elem_of_list_to_map_1 by done.
      by destruct (acc !! k).
    + rewrite !lookup_insert_ne by done. done.
Qed.

(** The same loop with a guard on the key. *)
Lemma foldl_guarded_insert_lookup (keep : string -> bool) l acc k :
  NoDup l.*1 ->
  foldl (fun m (e : string * A) => if keep (fst e) then <[fst e := snd e]> m else m) acc l !! k
  = if keep k
    then match list_to_map (M := gmap string A) l !! k with
         | Some v => Some v
         | None => acc !! k
         end
    else acc !! k.
Proof.
  revert acc. induction l as [|[k0 v0] l IH]; intros acc Hnd; simpl.
  - rewrite lookup_empty. by destruct (keep k).
  - apply NoDup_cons in Hnd as [Hk Hnd]. rewrite IH by done.
    destruct (decide (k = k0)) as [->|Hne].
    + rewrite lookup_insert_eq, not_elem_of_list_to_map_1 by done.
      destruct (keep k0); [by rewrite lookup_insert_eq | done].
    + rewrite (lookup_insert_ne _ k0 k) by done.
      destruct (keep k0); [by rewrite lookup_insert_ne | done].
Qed.

Lemma range_NoDup (E : Env) m :
  range_visits_once E -> NoDup (go_range E A m).*1.
Proof.
  intros Hr. rewrite (Hr A m). apply NoDup_fst_map_to_list.
Qed.

Lemma range_to_map (E : Env) m :
  range_visits_once E -> list_to_map (go_range E A m) = m.
Proof.
  intros Hr. rewrite <- (list_to_map_to_list m) at 2.
  apply list_to_map_proper; [by apply range_NoDup | apply Hr].
Qed.
End Ranging.

(** ** Reading the project *)

(** Unfold the plumbing of a computation, and nothing else. *)
Ltac msimpl := cbn [bind ret emit value disk emitted app fst snd negb].
Ltac msimpl_in H := cbn [bind ret emit value disk emitted app fst snd negb] in H.

Create Rewrite HintDb reads.

Lemma FileExists_disk path fs : disk (FileExists path fs) = fs.
Proof. reflexivity. Qed.

Lemma FileExists_emitted path fs : emitted (FileExists path fs) = [].
Proof. reflexivity. Qed.

Lemma DirExists_disk path fs : disk (DirExists path fs) = fs.
Proof. reflexivity. Qed.

Lemma DirExists_emitted path fs : emitted (DirExists path fs) = [].
Proof. reflexivity. Qed.

Lemma ReadFile_disk path fs : disk (ioutil_ReadFile path fs) = fs.
Proof. reflexivity. Qed.

Lemma ReadFile_emitted path fs : emitted (ioutil_ReadFile path fs) = [].
Proof. reflexivity. Qed.

Lemma Cmd_Output_disk E name args fs : disk (Cmd_Output E name args fs) = fs.
Proof. reflexivity. Qed.

Lemma survey_AskOne_disk E message options fs :
  disk (survey_AskOne E message options fs) = fs.
Proof. reflexivity. Qed.

#[local] Hint Rewrite FileExists_disk FileExists_emitted DirExists_disk DirExists_emitted
  ReadFile_disk ReadFile_emitted Cmd_Output_disk survey_AskOne_disk : reads.

Ltac mstep := msimpl; autorewrite with reads; msimpl.

Lemma FileExists_value fs path :
  value (FileExists path fs) = true <-> is_file fs path.
Proof.
  unfold FileExists, is_file, os_Stat; msimpl.
  destruct (fs !! path) as [[c|]|]; simpl; split; intros H; try done.
  - by exists c.
  - by destruct H.
  - by destruct H.
Qed.

Lemma IsGodspeedProject_disk fs : disk (IsGodspeedProject fs) = fs.
Proof.
  unfold IsGodspeedProject; mstep.
  destruct (value (FileExists ".godspeed" fs)); mstep; [|done].
  by destruct (value (FileExists "package.json" fs)).
Qed.

Lemma IsGodspeedProject_true fs :
  value (IsGodspeedProject fs) = true <->
  is_file fs ".godspeed" /\ is_file fs "package.json".
Proof.
  rewrite <- !FileExists_value.
  unfold IsGodspeedProject; mstep.
  destruct (value (FileExists ".godspeed" fs)); mstep; [|intuition congruence].
  destruct (value (FileExists "package.json" fs)); mstep; intuition congruence.
Qed.

Lemma IsGodspeedProject_quiet fs :
  value (IsGodspeedProject fs) = true -> emitted (IsGodspeedProject fs) = [].
Proof.
  unfold IsGodspeedProject; mstep.
  destruct (value (FileExists ".godspeed" fs)); mstep; [|done].
  by destruct (value (FileExists "package.json" fs)).
Qed.

#[local] Hint Rewrite IsGodspeedProject_disk : reads.

Lemma GetInstalledPlugins_disk E fs : disk (GetInstalledPlugins E fs) = fs.
Proof.
  unfold GetInstalledPlugins; mstep.
  destruct (value (IsGodspeedProject fs)); mstep; [|done].
  destruct (value (FileExists _ fs)); mstep; [|done].
  destruct (value (ioutil_ReadFile _ fs)); mstep; [done|].
  by destruct (json_Dependencies E _).
Qed.

#[local] Hint Rewrite GetInstalledPlugins_disk : reads.

(** A successful read of the installed set prints nothing. *)
Lemma GetInstalledPlugins_quiet E fs installed :
  value (GetInstalledPlugins E fs) = inr installed ->
  emitted (GetInstalledPlugins E fs) = [] /\ value (IsGodspeedProject fs) = true.
Proof.
  unfold GetInstalledPlugins; mstep.
  pose proof (IsGodspeedProject_quiet fs) as Hq.
  destruct (value (IsGodspeedProject fs)); mstep; [|done].
  rewrite Hq by done.
  destruct (value (FileExists _ fs)); mstep; [|done].
  destruct (value (ioutil_ReadFile _ fs)); mstep; [done|].
  by destruct (json_Dependencies E _).
Qed.

(** What a well-formed project makes [GetInstalledPlugins] compute. *)
Lemma GetInstalledPlugins_run E fs pkgData Dependencies :
  is_file fs ".godspeed" ->
  is_file fs "package.json" ->
  fs !! pkgPath E = Some (File pkgData) ->
  json_Dependencies E pkgData = inr Dependencies ->
  value (GetInstalledPlugins E fs)
  = inr (foldl (fun plugins (entry : string * string) =>
                  if HasPrefix (fst entry) plugin_prefix
                  then <[fst entry := snd entry]> plugins
                  else plugins)
               ∅ (go_range E string Dependencies)).
Proof.
  intros Hg Hp Hm Hj.
  unfold GetInstalledPlugins; mstep.
  rewrite (proj2 (IsGodspeedProject_true fs)) by done. mstep.
  fold (pkgPath E).
  rewrite (proj2 (FileExists_value fs (pkgPath E))) by (by exists pkgData). mstep.
  unfold ioutil_ReadFile. msimpl. rewrite Hm, Hj. done.
Qed.

(** C6: for every manifest of a project, [GetInstalledPlugins] returns
    exactly the dependency entries whose identifier starts with
    ["@godspeedsystems/plugins"]: an entry is in the installed set if and
    only if it is a dependency with that prefix, so a dependency outside the
    namespace never appears. *)
Theorem GetInstalledPlugins_namespace E fs pkgData Dependencies :
  range_visits_once E ->
  is_file fs ".godspeed" ->
  is_file fs "package.json" ->
  fs !! pkgPath E = Some (File pkgData) ->
  json_Dependencies E pkgData = inr Dependencies ->
  exists installed : gmap string string,
    value (GetInstalledPlugins E fs) = inr installed
    /\ installed = filter (fun entry => HasPrefix (fst entry) plugin_prefix = true) Dependencies
    /\ forall name version,
         installed !! name = Some version
         <-> Dependencies !! name = Some version
             /\ HasPrefix name "@godspeedsystems/plugins" = true.
Proof.
  intros Hr Hg Hp Hm Hj.
  eexists. split; [by eapply GetInstalledPlugins_run|].
  assert (Hlook : forall name version,
    foldl (fun plugins (entry : string * string) =>
             if HasPrefix (fst entry) plugin_prefix
             then <[fst entry := snd entry]> plugins else plugins)
          (∅ : gmap string string) (go_range E string Dependencies) !! name = Some version
    <-> Dependencies !! name = Some version /\ HasPrefix name plugin_prefix = true).
  { intros name version.
    rewrite (foldl_guarded_insert_lookup (fun k => HasPrefix k plugin_prefix))
      by (by apply range_NoDup).
    rewrite range_to_map by done. rewrite lookup_empty.
    destruct (HasPrefix name plugin_prefix); [|intuition congruence].
    destruct (Dependencies !! name); intuition congruence. }
  split; [|exact Hlook].
  apply map_eq. intros name. apply option_eq. intros version.
  rewrite Hlook, map_lookup_filter_Some. done.
Qed.

Lemma GetInstalledPlugins_namespace_witness :
  exists installed : gmap string string,
    value (GetInstalledPlugins Demo.env Demo.project) = inr installed
    /\ installed !! Demo.express = Some "^1.0.0"
    /\ installed !! "lodash" = None.
Proof.
  destruct (GetInstalledPlugins_namespace Demo.env Demo.project "manifest"
              {[Demo.express := "^1.0.0"; "lodash" := "^4.17.0"]})
    as (installed & Hv & _ & Hlook).
  - intros A m. reflexivity.
  - by exists "".
  - by exists "manifest".
  - reflexivity.
  - reflexivity.
  - exists installed. split; [exact Hv|]. split.
    + apply Hlook. split; reflexivity.
    + destruct (installed !! "lodash") as [v|] eqn:Hl; [|done].
      apply Hlook in Hl as [_ Hl]. vm_compute in Hl. done.
Defined.

(** ** The catalog *)

Lemma searchPluginsFromNpm_disk E fs : disk (searchPluginsFromNpm E fs) = fs.
Proof.
  unfold searchPluginsFromNpm; mstep.
  destruct (value (Cmd_Output E _ _ fs)); mstep; [done|].
  by destruct (json_SearchResults E _).
Qed.

Lemma searchPluginsFromNpm_emitted E fs :
  emitted (searchPluginsFromNpm E fs) = [catalog_query].
Proof.
  unfold searchPluginsFromNpm; mstep.
  destruct (value (Cmd_Output E _ _ fs)); mstep; [done|].
  by destruct (json_SearchResults E _).
Qed.

Lemma LoadPluginsList_disk E fs : disk (LoadPluginsList E fs) = fs.
Proof.
  unfold LoadPluginsList.
  destruct (os_Executable E); mstep; [done|].
  destruct (value (ioutil_ReadFile _ fs)); mstep.
  - apply searchPluginsFromNpm_disk.
  - by destruct (json_Plugins E _).
Qed.

#[local] Hint Rewrite searchPluginsFromNpm_disk LoadPluginsList_disk : reads.

Lemma LoadPluginsList_emitted E fs :
  emitted (LoadPluginsList E fs) = [] \/ emitted (LoadPluginsList E fs) = [catalog_query].
Proof.
  unfold LoadPluginsList.
  destruct (os_Executable E); mstep; [by left|].
  destruct (value (ioutil_ReadFile _ fs)); mstep.
  - right. apply searchPluginsFromNpm_emitted.
  - left. by destruct (json_Plugins E _).
Qed.

(** The snapshot is read when it is a regular file, and only then. *)
Lemma ReadFile_value fs path :
  (forall data, fs !! path = Some (File data) -> value (ioutil_ReadFile path fs) = inr data)
  /\ ((forall data, fs !! path <> Some (File data)) ->
      value (ioutil_ReadFile path fs) = inl (ExtError "ReadFile")).
Proof.
  unfold ioutil_ReadFile; msimpl. split.
  - by intros data ->.
  - intros Hno. destruct (fs !! path) as [[c|]|]; try done. by destruct (Hno c).
Qed.

(** C3, as stated, fails: a bundled catalog that is present but does not
    parse makes [LoadPluginsList] fail although the registry search would
    have answered. *)
Lemma LoadPluginsList_fails_with_registry_up :
  ~ fails_only_if_both_fail Demo.env Demo.corrupt_catalog.
Proof.
  intros Hclaim.
  destruct (Hclaim (ExtError "invalid character")) as [_ [err Hremote]].
  - reflexivity.
  - vm_compute in Hremote. discriminate.
Qed.

(** C3, amended: [LoadPluginsList] fails exactly when the path of the
    executable is unknown, or the snapshot is read but does not decode, or
    the snapshot cannot be read and the registry search fails or returns
    malformed data.  Whenever the snapshot cannot be read the registry search
    is attempted and its answer returned; an empty list, from either source,
    is a success. *)
Theorem LoadPluginsList_failures E fs :
  (forall err,
     value (LoadPluginsList E fs) = inl err <->
     os_Executable E = inl err
     \/ (exists execPath data,
           os_Executable E = inr execPath
           /\ fs !! snapshot_path E execPath = Some (File data)
           /\ json_Plugins E data = inl err)
     \/ (exists execPath,
           os_Executable E = inr execPath
           /\ (forall data, fs !! snapshot_path E execPath <> Some (File data))
           /\ (exec_Output E "npm" ["search"; "@godspeedsystems/plugins"; "--json"] fs = inl err
               \/ exists output,
                    exec_Output E "npm" ["search"; "@godspeedsystems/plugins"; "--json"] fs
                    = inr output
                    /\ json_SearchResults E output = inl err)))
  /\ (forall execPath,
        os_Executable E = inr execPath ->
        (forall data, fs !! snapshot_path E execPath <> Some (File data)) ->
        emitted (LoadPluginsList E fs) = [catalog_query]
        /\ value (LoadPluginsList E fs) = value (searchPluginsFromNpm E fs))
  /\ (forall execPath data,
        os_Executable E = inr execPath ->
        fs !! snapshot_path E execPath = Some (File data) ->
        json_Plugins E data = inr [] ->
        value (LoadPluginsList E fs) = inr [] /\ emitted (LoadPluginsList E fs) = [])
  /\ (forall output,
        exec_Output E "npm" ["search"; "@godspeedsystems/plugins"; "--json"] fs = inr output ->
        json_SearchResults E output = inr [] ->
        value (searchPluginsFromNpm E fs) = inr []).
Proof.
  assert (Hsearch : forall err,
    value (searchPluginsFromNpm E fs) = inl err <->
    exec_Output E "npm" ["search"; "@godspeedsystems/plugins"; "--json"] fs = inl err
    \/ exists output,
         exec_Output E "npm" ["search"; "@godspeedsystems/plugins"; "--json"] fs = inr output
         /\ json_SearchResults E output = inl err).
  { intros err. unfold searchPluginsFromNpm, Cmd_Output; msimpl.
    change plugin_prefix with "@godspeedsystems/plugins".
    destruct (exec_Output E "npm" _ fs) as [e|output]; msimpl.
    - split; [intros [= ->]; by left|].
      intros [[= ->]|(output & [=] & _)]; done.
    - destruct (json_SearchResults E output) as [e|results] eqn:Hj; msimpl.
      + split; [intros [= ->]; right; by exists output|].
        intros [[=]|(output' & [= <-] & Hj')]. congruence.
      + split; [done|].
        intros [[=]|(output' & [= <-] & Hj')]. congruence. }
  split; [intros err; split|].
  - (* failure, left to right *)
    unfold LoadPluginsList. fold (snapshot_path E).
    destruct (os_Executable E) as [e|execPath] eqn:Hx; msimpl.
    + intros [= ->]. by left.
    + fold (snapshot_path E execPath).
      destruct (ReadFile_value fs (snapshot_path E execPath)) as [Hok Hko].
      destruct (fs !! snapshot_path E execPath) as [[data|]|] eqn:Hs.
      * rewrite (Hok data) by done. msimpl.
        destruct (json_Plugins E data) as [e|plugins] eqn:Hj; msimpl; [|done].
        intros [= ->]. right. left. by exists execPath, data.
      * rewrite Hko by done. msimpl. autorewrite with reads.
        intros Hf. right. right. exists execPath. split; [done|].
        split; [intros data; by rewrite Hs|]. by apply Hsearch.
      * rewrite Hko by done. msimpl. autorewrite with reads.
        intros Hf. right. right. exists execPath. split; [done|].
        split; [intros data; by rewrite Hs|]. by apply Hsearch.
  - (* failure, right to left *)
    unfold LoadPluginsList.
    intros [Hx|[(execPath & data & Hx & Hs & Hj)|(execPath & Hx & Hs & Hq)]];
      rewrite Hx; msimpl; [done| |]; fold (snapshot_path E execPath);
      destruct (ReadFile_value fs (snapshot_path E execPath)) as [Hok Hko].
    + rewrite (Hok data) by done. msimpl. by rewrite Hj.
    + rewrite Hko by done. msimpl. autorewrite with reads. by apply Hsearch.
  - split; [|split].
    + (* the registry is tried *)
      intros execPath Hx Hs.
      unfold LoadPluginsList. rewrite Hx. msimpl. fold (snapshot_path E execPath).
      destruct (ReadFile_value fs (snapshot_path E execPath)) as [_ Hko].
      rewrite Hko by done. msimpl. autorewrite with reads.
      split; [apply searchPluginsFromNpm_emitted | done].
    + (* an empty snapshot *)
      intros execPath data Hx Hs Hj.
      unfold LoadPluginsList. rewrite Hx. msimpl. fold (snapshot_path E execPath).
      destruct (ReadFile_value fs (snapshot_path E execPath)) as [Hok _].
      rewrite (Hok data) by done. msimpl. by rewrite Hj.
    + (* an empty answer of the registry *)
      intros output Ho Hj.
      unfold searchPluginsFromNpm, Cmd_Output; msimpl.
      change plugin_prefix with "@godspeedsystems/plugins".
      rewrite Ho. msimpl. by rewrite Hj.
Qed.

(** ** Add with an explicit identifier *)

Lemma existsb_Value (pluginName : string) (available : list Plugin) :
  existsb (fun plugin => String.eqb (Value plugin) pluginName) available = true
  <-> pluginName ∈ Value <$> available.
Proof.
  rewrite existsb_exists, list_elem_of_fmap. split.
  - intros (plugin & Hin & Heq). apply String.eqb_eq in Heq.
    exists plugin. by rewrite list_elem_of_In.
  - intros (plugin & -> & Hin). exists plugin.
    rewrite <- list_elem_of_In. by rewrite String.eqb_refl.
Qed.

(** [Add] up to the point where the identifier is examined. *)
Lemma Add_explicit E fs pluginName available installed :
  pluginName <> "" ->
  value (LoadPluginsList E fs) = inr available ->
  value (GetInstalledPlugins E fs) = inr installed ->
  exists (k : M unit),
    k = (if negb (existsb (fun plugin => String.eqb (Value plugin) pluginName) available)
         then emit (EvPrint Red (nl +:+ "Please provide a valid plugin name." +:+ nl) [])
         else if has_key installed pluginName
         then emit (EvPrint Yellow "Plugin %s is already installed." [ArgS pluginName])
         else
           installPlugins E [pluginName] ;;;
           emit (EvPrint Cyan (nl +:+ "For detailed documentation and examples, visit:") []) ;;;
           emit (EvPrint Yellow ("https://www.npmjs.com/package/%s" +:+ nl)
                         [ArgS pluginName]))
    /\ emitted (Add E pluginName fs) = emitted (LoadPluginsList E fs) ++ emitted (k fs)
    /\ disk (Add E pluginName fs) = disk (k fs).
Proof.
  intros Hname Hload Hinst.
  destruct (GetInstalledPlugins_quiet E fs installed Hinst) as [Hquiet Hproj].
  eexists. split; [reflexivity|].
  unfold Add. mstep. rewrite Hproj. mstep.
  rewrite IsGodspeedProject_quiet by done.
  rewrite Hload. mstep. rewrite Hinst, Hquiet. mstep.
  apply String.eqb_neq in Hname. rewrite Hname.
  done.
Qed.

(** C7: [Add] with an explicit identifier that is in the catalog and already
    installed ends with the yellow "already installed" notice and nothing
    else after loading the catalog: no error is printed, the package manager
    is not asked to install anything, no directory or file is created, and
    the disk is left as it was. *)
Theorem Add_already_installed E fs pluginName available installed :
  pluginName <> "" ->
  value (LoadPluginsList E fs) = inr available ->
  pluginName ∈ Value <$> available ->
  value (GetInstalledPlugins E fs) = inr installed ->
  is_Some (installed !! pluginName) ->
  emitted (Add E pluginName fs)
  = emitted (LoadPluginsList E fs)
    ++ [EvPrint Yellow "Plugin %s is already installed." [ArgS pluginName]]
  /\ disk (Add E pluginName fs) = fs
  /\ Forall (fun e => is_file_op e = false
                      /\ is_package_op e = false
                      /\ is_error_print e = false)
            (emitted (Add E pluginName fs)).
Proof.
  intros Hname Hload Hcat Hinst [version Hin].
  destruct (Add_explicit E fs pluginName available installed) as (k & -> & He & Hd);
    [done..|].
  apply existsb_Value in Hcat.
  rewrite Hcat in He, Hd. unfold has_key in He, Hd. rewrite Hin in He, Hd.
  cbn [negb] in He, Hd.
  split; [exact He|]. split; [exact Hd|].
  rewrite He. apply Forall_app. split.
  - destruct (LoadPluginsList_emitted E fs) as [-> | ->]; repeat constructor.
  - repeat constructor.
Qed.

Lemma Add_already_installed_witness :
  emitted (Add Demo.env Demo.express Demo.project)
  = [EvPrint Yellow "Plugin %s is already installed." [ArgS Demo.express]]
  /\ disk (Add Demo.env Demo.express Demo.project) = Demo.project.
Proof.
  destruct (Add_already_installed Demo.env Demo.project Demo.express Demo.catalog
              (filter (fun entry => HasPrefix (fst entry) plugin_prefix = true)
                      ({[Demo.express := "^1.0.0"; "lodash" := "^4.17.0"]}
                         : gmap string string)))
    as (He & Hd & _).
  - discriminate.
  - reflexivity.
  - vm_compute. left.
  - vm_compute. reflexivity.
  - vm_compute. eauto.
  - split; [exact He | exact Hd].
Defined.

(** C10: [Add] looks the identifier up in the catalog before it looks at the
    installed set.  An identifier that is installed but missing from the
    loaded catalog is refused with the red "valid plugin name" message; the
    "already installed" notice is not printed and nothing is changed. *)
Theorem Add_unknown_before_installed E fs pluginName available installed :
  pluginName <> "" ->
  value (LoadPluginsList E fs) = inr available ->
  pluginName ∉ Value <$> available ->
  value (GetInstalledPlugins E fs) = inr installed ->
  is_Some (installed !! pluginName) ->
  emitted (Add E pluginName fs)
  = emitted (LoadPluginsList E fs)
    ++ [EvPrint Red (nl +:+ "Please provide a valid plugin name." +:+ nl) []]
  /\ disk (Add E pluginName fs) = fs
  /\ EvPrint Yellow "Plugin %s is already installed." [ArgS pluginName]
     ∉ emitted (Add E pluginName fs).
Proof.
  intros Hname Hload Hcat Hinst _.
  destruct (Add_explicit E fs pluginName available installed) as (k & -> & He & Hd);
    [done..|].
  rewrite <- existsb_Value in Hcat. apply not_true_is_false in Hcat.
  rewrite Hcat in He, Hd. cbn [negb] in He, Hd.
  split; [exact He|]. split; [exact Hd|].
  rewrite He. intros Hin. apply elem_of_app in Hin as [Hin|Hin].
  - destruct (LoadPluginsList_emitted E fs) as [Hl|Hl]; rewrite Hl in Hin.
    + by apply elem_of_nil in Hin.
    + apply list_elem_of_singleton in Hin. discriminate.
  - apply list_elem_of_singleton in Hin. discriminate.
Qed.

Lemma Add_unknown_before_installed_witness :
  emitted (Add Demo.env Demo.express Demo.stale_catalog)
  = [EvPrint Red (nl +:+ "Please provide a valid plugin name." +:+ nl) []]
  /\ disk (Add Demo.env Demo.express Demo.stale_catalog) = Demo.stale_catalog.
Proof.
  destruct (Add_unknown_before_installed Demo.env Demo.stale_catalog Demo.express
              [mkPlugin Demo.mongo "mongo" "Mongo data source"]
              (filter (fun entry => HasPrefix (fst entry) plugin_prefix = true)
                      ({[Demo.express := "^1.0.0"; "lodash" := "^4.17.0"]}
                         : gmap string string)))
    as (He & Hd & _).
  - discriminate.
  - reflexivity.
  - intros Hin. apply list_elem_of_singleton in Hin. discriminate.
  - vm_compute. reflexivity.
  - vm_compute. eauto.
  - split; [exact He | exact Hd].
Defined.

(** ** The batched calls of the package manager *)

Lemma forEach_app {A : Type} (body : A -> M unit) (l1 l2 : list A) fs :
  emitted (forEach body (l1 ++ l2) fs)
  = emitted (forEach body l1 fs) ++ emitted (forEach body l2 (disk (forEach body l1 fs)))
  /\ disk (forEach body (l1 ++ l2) fs) = disk (forEach body l2 (disk (forEach body l1 fs))).
Proof.
  revert fs. induction l1 as [|x l1 IH]; intros fs; [done|].
  cbn [forEach app]. msimpl.
  destruct (IH (disk (body x fs))) as [-> ->]. by rewrite app_assoc.
Qed.

Lemma is_empty_false {A : Type} (l : list A) : l <> [] -> is_empty l = false.
Proof. by destruct l. Qed.

(** A batch whose installation fails stops right after the error message. *)
Lemma installPlugins_failed_run E plugins fs err :
  plugins <> [] ->
  fst (exec_Run E "npm" (("install" :: plugins) ++ quiet_flags) fs) = Some err ->
  emitted (installPlugins E plugins fs)
  = [EvSpinnerStart "Installing plugins... "; npm_call "install" plugins; EvSpinnerStop;
     EvPrint Red (nl +:+ "Error installing plugins: %v") [ArgE err]]
  /\ disk (installPlugins E plugins fs)
     = snd (exec_Run E "npm" (("install" :: plugins) ++ quiet_flags) fs).
Proof.
  intros Hne Hfail. unfold installPlugins. rewrite is_empty_false by done.
  unfold NewSpinner_Start, Spinner_Stop, Cmd_Run, npm_call.
  cbn [app] in Hfail. msimpl. rewrite Hfail. done.
Qed.

(** The installed set is a function of three paths. *)
Lemma GetInstalledPlugins_frame E fs fs' :
  fs' !! ".godspeed" = fs !! ".godspeed" ->
  fs' !! "package.json" = fs !! "package.json" ->
  fs' !! pkgPath E = fs !! pkgPath E ->
  value (GetInstalledPlugins E fs') = value (GetInstalledPlugins E fs).
Proof.
  intros Hg Hp Hm. unfold pkgPath in Hm.
  unfold GetInstalledPlugins, IsGodspeedProject, FileExists, os_Stat, ioutil_ReadFile.
  set (p := filepath_Join E ["."; "package.json"]) in *.
  msimpl. rewrite Hg.
  destruct (fs !! ".godspeed") as [[c|]|]; cbn [IsDir negb]; msimpl; try done.
  rewrite Hp.
  destruct (fs !! "package.json") as [[c'|]|]; cbn [IsDir negb]; msimpl; try done.
  rewrite Hm.
  destruct (fs !! p) as [[c''|]|] eqn:Hfs; cbn [IsDir negb]; msimpl; try done.
  rewrite Hm, Hfs. destruct (json_Dependencies E _); reflexivity.
Qed.

(** C1: when the [npm install] of a batch fails, [installPlugins] prints the
    error and stops: no directory is made and no stub or config file is
    written for any identifier of the batch, and the disk is the one the
    failed call left.  If that call left the project marker and the manifest
    alone, the installed set is what it was before. *)
Theorem installPlugins_failure_is_terminal E plugins fs err :
  plugins <> [] ->
  fst (exec_Run E "npm" (("install" :: plugins) ++ quiet_flags) fs) = Some err ->
  let left_by_npm := snd (exec_Run E "npm" (("install" :: plugins) ++ quiet_flags) fs) in
  emitted (installPlugins E plugins fs)
  = [EvSpinnerStart "Installing plugins... "; npm_call "install" plugins; EvSpinnerStop;
     EvPrint Red (nl +:+ "Error installing plugins: %v") [ArgE err]]
  /\ Forall (fun e => is_file_op e = false) (emitted (installPlugins E plugins fs))
  /\ disk (installPlugins E plugins fs) = left_by_npm
  /\ (left_by_npm !! ".godspeed" = fs !! ".godspeed" ->
      left_by_npm !! "package.json" = fs !! "package.json" ->
      left_by_npm !! pkgPath E = fs !! pkgPath E ->
      value (GetInstalledPlugins E (disk (installPlugins E plugins fs)))
      = value (GetInstalledPlugins E fs)).
Proof.
  intros Hne Hfail left_by_npm.
  destruct (installPlugins_failed_run E plugins fs err Hne Hfail) as [He Hd].
  split; [exact He|]. split; [rewrite He; repeat constructor|].
  split; [exact Hd|]. rewrite Hd. apply GetInstalledPlugins_frame.
Qed.

Lemma installPlugins_failure_is_terminal_witness :
  emitted (installPlugins Demo.env ["broken"; Demo.mongo] Demo.project)
  = [EvSpinnerStart "Installing plugins... "; npm_call "install" ["broken"; Demo.mongo];
     EvSpinnerStop;
     EvPrint Red (nl +:+ "Error installing plugins: %v") [ArgE (ExtError "exit status 1")]]
  /\ value (GetInstalledPlugins Demo.env
              (disk (installPlugins Demo.env ["broken"; Demo.mongo] Demo.project)))
     = value (GetInstalledPlugins Demo.env Demo.project).
Proof.
  destruct (installPlugins_failure_is_terminal Demo.env ["broken"; Demo.mongo] Demo.project
              (ExtError "exit status 1"))
    as (He & _ & _ & Hi).
  - discriminate.
  - reflexivity.
  - split; [exact He|]. apply Hi; reflexivity.
Defined.

(** The same through [Add]: a new identifier whose installation fails leaves
    nothing behind but messages. *)
Lemma Add_install_failed E fs pluginName available installed err :
  pluginName <> "" ->
  value (LoadPluginsList E fs) = inr available ->
  pluginName ∈ Value <$> available ->
  value (GetInstalledPlugins E fs) = inr installed ->
  installed !! pluginName = None ->
  fst (exec_Run E "npm" (("install" :: [pluginName]) ++ quiet_flags) fs) = Some err ->
  Forall (fun e => is_file_op e = false) (emitted (Add E pluginName fs))
  /\ disk (Add E pluginName fs)
     = snd (exec_Run E "npm" (("install" :: [pluginName]) ++ quiet_flags) fs).
Proof.
  intros Hname Hload Hcat Hinst Hnew Hfail.
  destruct (Add_explicit E fs pluginName available installed) as (k & -> & He & Hd);
    [done..|].
  apply existsb_Value in Hcat.
  rewrite Hcat in He, Hd. unfold has_key in He, Hd. rewrite Hnew in He, Hd.
  cbn [negb] in He, Hd. msimpl_in He. msimpl_in Hd.
  destruct (installPlugins_failed_run E [pluginName] fs err) as [Hie Hid]; [done..|].
  rewrite Hie in He. rewrite Hid in Hd. split; [|exact Hd].
  rewrite He. apply Forall_app. split.
  - destruct (LoadPluginsList_emitted E fs) as [-> | ->]; repeat constructor.
  - repeat constructor.
Qed.

(** ** Update *)

(** Effects that neither touch a file nor change the manifest. *)
Lemma selectInstalled_cases E installed message none_selected (k : list string -> M unit) fs :
  exists prelude,
    Forall (fun e => is_file_op e = false /\ (is_exec e = true -> e = catalog_query)) prelude
    /\ ((emitted (selectInstalled E installed message none_selected k fs) = prelude
         /\ disk (selectInstalled E installed message none_selected k fs) = fs)
        \/ exists selected,
             selected <> []
             /\ emitted (selectInstalled E installed message none_selected k fs)
                = prelude ++ emitted (k selected fs)
             /\ disk (selectInstalled E installed message none_selected k fs)
                = disk (k selected fs)).
Proof.
  assert (Hload : Forall (fun e => is_file_op e = false
                                   /\ (is_exec e = true -> e = catalog_query))
                         (emitted (LoadPluginsList E fs))).
  { destruct (LoadPluginsList_emitted E fs) as [-> | ->]; repeat constructor. }
  unfold selectInstalled. mstep.
  destruct (value (LoadPluginsList E fs)) as [err|available]; mstep.
  - eexists. split; [|left; split; reflexivity].
    apply Forall_app. split; [done|]. repeat constructor. done.
  - match goal with
    | |- context [survey_AskOne E message ?o fs] => set (options := o)
    end.
    unfold survey_AskOne. msimpl.
    destruct (survey_MultiSelect E message options) as [err|selected]; mstep.
    + eexists. split; [|left; split; reflexivity].
      apply Forall_app. split; [done|]. repeat constructor; done.
    + destruct selected as [|s selected]; cbn [is_empty]; mstep.
      * eexists. split; [|left; split; reflexivity].
        apply Forall_app. split; [done|]. repeat constructor; done.
      * exists (emitted (LoadPluginsList E fs) ++ [EvPrompt message options]).
        split; [apply Forall_app; split; [done|]; repeat constructor; done|].
        right. eexists. split; [|split; [|reflexivity]].
        -- by cbn.
        -- rewrite <- app_assoc. reflexivity.
Qed.

Lemma updatePlugins_run E plugins fs :
  plugins <> [] ->
  exists report,
    emitted (updatePlugins E plugins fs)
    = [EvSpinnerStart "Updating plugins... "; npm_call "update" plugins; EvSpinnerStop]
      ++ report
    /\ Forall (fun e => is_file_op e = false /\ is_exec e = false) report
    /\ disk (updatePlugins E plugins fs)
       = snd (exec_Run E "npm" (("update" :: plugins) ++ quiet_flags) fs).
Proof.
  intros Hne. unfold updatePlugins. rewrite is_empty_false by done.
  unfold NewSpinner_Start, Spinner_Stop, Cmd_Run, npm_call. msimpl.
  destruct (exec_Run E "npm" _ fs) as [[err|] fs']; msimpl;
    (eexists; split; [reflexivity|]; split; [repeat constructor | reflexivity]).
Qed.

(** C8: whatever is selected, [Update] never makes a directory and never
    writes or removes a file.  The only child processes it runs are the
    catalog search and one [npm update] of the selected identifiers, so the
    disk it leaves is the one it found or the one that [npm update] left; a
    path that [npm update] does not touch, such as any file of the
    data-source and event-source trees, is left as it was. *)
Theorem Update_leaves_artifacts E fs :
  Forall (fun e => is_file_op e = false) (emitted (Update E fs))
  /\ (forall e, e ∈ emitted (Update E fs) -> is_exec e = true ->
        e = catalog_query \/ exists plugins, plugins <> [] /\ e = npm_call "update" plugins)
  /\ (disk (Update E fs) = fs
      \/ exists plugins,
           plugins <> []
           /\ disk (Update E fs)
              = snd (exec_Run E "npm" (("update" :: plugins) ++ quiet_flags) fs))
  /\ (forall path,
        (forall plugins,
           snd (exec_Run E "npm" (("update" :: plugins) ++ quiet_flags) fs) !! path
           = fs !! path) ->
        disk (Update E fs) !! path = fs !! path).
Proof.
  assert (Hmain :
    Forall (fun e => is_file_op e = false
                     /\ (is_exec e = true ->
                         e = catalog_query
                         \/ exists plugins, plugins <> [] /\ e = npm_call "update" plugins))
           (emitted (Update E fs))
    /\ (disk (Update E fs) = fs
        \/ exists plugins,
             plugins <> []
             /\ disk (Update E fs)
                = snd (exec_Run E "npm" (("update" :: plugins) ++ quiet_flags) fs))).
  { unfold Update. mstep.
    assert (Hproj : Forall (fun e => is_file_op e = false /\ is_exec e = false)
                           (emitted (IsGodspeedProject fs))).
    { unfold IsGodspeedProject. mstep.
      destruct (value (FileExists ".godspeed" fs)); mstep; [|repeat constructor].
      destruct (value (FileExists "package.json" fs)); mstep; repeat constructor. }
    assert (Hweak : forall l,
      Forall (fun e => is_file_op e = false /\ is_exec e = false) l ->
      Forall (fun e => is_file_op e = false
                       /\ (is_exec e = true ->
                           e = catalog_query
                           \/ exists plugins, plugins <> [] /\ e = npm_call "update" plugins)) l).
    { intros l Hl. eapply Forall_impl; [exact Hl|].
      intros e [Hf Hx]. split; [done|]. by rewrite Hx. }
    apply Hweak in Hproj.
    destruct (value (IsGodspeedProject fs)); mstep;
      [|split; [by rewrite app_nil_r | by left]].
    assert (Hinst : Forall (fun e => is_file_op e = false /\ is_exec e = false)
                           (emitted (GetInstalledPlugins E fs))).
    { unfold GetInstalledPlugins. mstep.
      apply Forall_app. split.
      - unfold IsGodspeedProject. mstep.
        destruct (value (FileExists ".godspeed" fs)); mstep; [|repeat constructor].
        destruct (value (FileExists "package.json" fs)); mstep; repeat constructor.
      - destruct (value (IsGodspeedProject fs)); mstep; [|constructor].
        destruct (value (FileExists _ fs)); mstep; [|constructor].
        destruct (value (ioutil_ReadFile _ fs)); mstep; [constructor|].
        destruct (json_Dependencies E _); constructor. }
    apply Hweak in Hinst.
    destruct (value (GetInstalledPlugins E fs)) as [err|installed]; mstep.
    { split; [|by left]. rewrite !Forall_app. repeat split; try done.
      repeat constructor; done. }
    destruct (size installed =? 0)%nat; mstep.
    { split; [|by left]. rewrite !Forall_app. repeat split; try done.
      repeat constructor; done. }
    destruct (selectInstalled_cases E installed
                "Please select godspeed plugin to update:"
                "No plugins selected to update." (updatePlugins E) fs)
      as (prelude & Hpre & [[-> ->] | (selected & Hsel & -> & ->)]).
    - split; [|by left]. rewrite !Forall_app. repeat split; try done.
      eapply Forall_impl; [exact Hpre|]. intros e [Hf Hx]. split; [done|].
      intros He. left. by apply Hx.
    - destruct (updatePlugins_run E selected fs Hsel) as (report & -> & Hrep & ->).
      split; [|right; by exists selected].
      rewrite !Forall_app. repeat split; try done.
      + eapply Forall_impl; [exact Hpre|]. intros e [Hf Hx]. split; [done|].
        intros He. left. by apply Hx.
      + apply Forall_cons. split; [split; [done | discriminate]|].
        apply Forall_cons. split; [split; [done | intros _; right; by exists selected]|].
        apply Forall_cons. split; [split; [done | discriminate] | constructor].
      + by apply Hweak. }
  destruct Hmain as [Hev Hdisk].
  split; [eapply Forall_impl; [exact Hev|]; by intros e [Hf _]|].
  split; [|split; [exact Hdisk|]].
  - intros e Hin He. rewrite Forall_forall in Hev. by apply (Hev e Hin).
  - intros path Hnpm. destruct Hdisk as [-> | (plugins & _ & ->)]; [done|apply Hnpm].
Qed.

(** ** Remove *)

Lemma getModuleInfo_run E pluginName fs :
  emitted (getModuleInfo E pluginName fs) = [resolution pluginName]
  /\ disk (getModuleInfo E pluginName fs) = fs.
Proof.
  unfold getModuleInfo. mstep.
  destruct (value (Cmd_Output E _ _ fs)); mstep; [done|].
  by destruct (json_ModuleInfo E _).
Qed.

Lemma removeIfExists_no_exec path fs :
  Forall (fun e => is_exec e = false) (emitted (removeIfExists path fs)).
Proof.
  unfold removeIfExists. mstep.
  destruct (value (FileExists path fs)); mstep; [|constructor].
  unfold os_Remove. destruct (fs !! path) as [[c|]|]; repeat constructor.
Qed.

Lemma removeEventSourceFiles_no_exec E loaderFileName yamlFileName fs :
  Forall (fun e => is_exec e = false)
         (emitted (removeEventSourceFiles E loaderFileName yamlFileName fs)).
Proof.
  unfold removeEventSourceFiles. msimpl. apply Forall_app. split.
  - apply removeIfExists_no_exec.
  - destruct (value (removeIfExists _ fs)); msimpl; [constructor|].
    apply removeIfExists_no_exec.
Qed.

Lemma removeDataSourceFiles_no_exec E loaderFileName yamlFileName fs :
  Forall (fun e => is_exec e = false)
         (emitted (removeDataSourceFiles E loaderFileName yamlFileName fs)).
Proof.
  unfold removeDataSourceFiles. msimpl. apply Forall_app. split.
  - apply removeIfExists_no_exec.
  - destruct (value (removeIfExists _ fs)); msimpl; [constructor|].
    destruct (String.eqb loaderFileName "prisma"); msimpl; [constructor|].
    apply removeIfExists_no_exec.
Qed.

Lemma removeFilesByType_no_exec E moduleType loaderFileName yamlFileName fs :
  Forall (fun e => is_exec e = false)
         (emitted (removeFilesByType E moduleType loaderFileName yamlFileName fs)).
Proof.
  unfold removeFilesByType.
  destruct (String.eqb moduleType ModuleTypeBoth).
  { msimpl. apply Forall_app. split; [apply removeEventSourceFiles_no_exec|].
    destruct (value (removeEventSourceFiles E _ _ fs)); msimpl; [constructor|].
    apply removeDataSourceFiles_no_exec. }
  destruct (String.eqb moduleType ModuleTypeDS); [apply removeDataSourceFiles_no_exec|].
  destruct (String.eqb moduleType ModuleTypeES); [apply removeEventSourceFiles_no_exec|].
  constructor.
Qed.

(** One turn of the cleanup loop resolves the descriptor first and runs no
    other child process. *)
Lemma removeFilesStep_run E pluginName fs :
  exists rest,
    emitted (removeFilesStep E pluginName fs) = resolution pluginName :: rest
    /\ Forall (fun e => is_exec e = false) rest.
Proof.
  unfold removeFilesStep, removePluginFiles. msimpl.
  destruct (getModuleInfo_run E pluginName fs) as [-> ->].
  destruct (value (getModuleInfo E pluginName fs)) as [err|info]; msimpl.
  - eexists. split; [reflexivity|]. repeat constructor.
  - eexists. split; [reflexivity|]. apply Forall_app. split.
    + apply removeFilesByType_no_exec.
    + destruct (value (removeFilesByType E _ _ _ fs)); repeat constructor.
Qed.

Lemma filter_no_exec (l : list Event) :
  Forall (fun e => is_exec e = false) l -> List.filter is_exec l = [].
Proof.
  induction 1 as [|e l He _ IH]; [done|]. cbn [List.filter]. by rewrite He.
Qed.

Lemma cleanup_resolves_each E plugins fs :
  List.filter is_exec (emitted (forEach (removeFilesStep E) plugins fs))
  = map resolution plugins.
Proof.
  revert fs. induction plugins as [|pluginName plugins IH]; intros fs; [done|].
  cbn [forEach map]. msimpl.
  destruct (removeFilesStep_run E pluginName fs) as (rest & -> & Hrest).
  rewrite List.filter_app. cbn [List.filter is_exec resolution].
  rewrite filter_no_exec by done. cbn [app]. by rewrite IH.
Qed.



(** ** Artifact creation *)

(** *** The source functions are their scripts *)

(** Unfold a whole computation down to the record it returns. *)
Ltac mrun := unfold bind, ret, emit; cbn [value disk emitted].

Lemma run_script_app s1 s2 fs :
  run_script (s1 ++ s2) fs
  = match value (run_script s1 fs) with
    | Some err => run_script s1 fs
    | None =>
        mkRes (value (run_script s2 (disk (run_script s1 fs))))
              (disk (run_script s2 (disk (run_script s1 fs))))
              (emitted (run_script s1 fs) ++ emitted (run_script s2 (disk (run_script s1 fs))))
    end.
Proof.
  revert fs. induction s1 as [|s s1 IH]; intros fs.
  - cbn [app run_script]. mrun. by destruct (run_script s2 fs).
  - cbn [app run_script]. mrun.
    destruct (run_step s fs) as [[err|] fs1 ev1]; msimpl; [done|].
    rewrite IH. destruct (value (run_script s1 fs1)) eqn:Hv; mrun.
    + by rewrite Hv.
    + by rewrite app_assoc.
Qed.

Lemma createEventSourceFiles_script E pluginName loaderFileName yamlFileName defaultConfig fs :
  createEventSourceFiles E pluginName loaderFileName yamlFileName defaultConfig fs
  = run_script (es_script E pluginName loaderFileName yamlFileName defaultConfig) fs.
Proof.
  unfold createEventSourceFiles, es_script, stub_steps, config_steps.
  cbn [app run_script run_step]. mrun.
  destruct (CreateDir _ fs) as [[err|] fs1 ev1]; mrun; [done|].
  destruct (ioutil_WriteFile _ _ fs1) as [[err|] fs2 ev2]; mrun; [done|].
  destruct (yaml_Marshal E _) as [err|yamlData]; cbn [app run_script run_step]; mrun.
  - done.
  - destruct (ioutil_WriteFile _ _ fs2) as [[err|] fs3 ev3]; mrun;
      cbn [app]; by rewrite ?app_nil_r.
Qed.

Lemma createDataSourceFiles_script E pluginName loaderFileName yamlFileName defaultConfig fs :
  createDataSourceFiles E pluginName loaderFileName yamlFileName defaultConfig fs
  = run_script (ds_script E pluginName loaderFileName yamlFileName defaultConfig) fs.
Proof.
  unfold createDataSourceFiles, ds_script, stub_steps, config_steps.
  cbn [app run_script run_step]. mrun.
  destruct (CreateDir _ fs) as [[err|] fs1 ev1]; mrun; [done|].
  destruct (ioutil_WriteFile _ _ fs1) as [[err|] fs2 ev2]; mrun; [done|].
  destruct (String.eqb loaderFileName "prisma"); cbn [app run_script run_step]; mrun.
  { done. }
  destruct (yaml_Marshal E _) as [err|yamlData]; cbn [app run_script run_step]; mrun.
  - done.
  - destruct (ioutil_WriteFile _ _ fs2) as [[err|] fs3 ev3]; mrun;
      cbn [app]; by rewrite ?app_nil_r.
Qed.

Lemma createFilesByType_script E pluginName moduleType loaderFileName yamlFileName
    defaultConfig fs :
  createFilesByType E pluginName moduleType loaderFileName yamlFileName defaultConfig fs
  = run_script (type_script E pluginName moduleType loaderFileName yamlFileName defaultConfig) fs.
Proof.
  unfold createFilesByType, type_script.
  destruct (String.eqb moduleType ModuleTypeBoth).
  { rewrite run_script_app, <- createEventSourceFiles_script. mrun.
    destruct (createEventSourceFiles E _ _ _ _ fs) as [[err|] fs1 ev1];
      cbn [value disk emitted].
    - by rewrite app_nil_r.
    - by rewrite createDataSourceFiles_script. }
  destruct (String.eqb moduleType ModuleTypeDS); [apply createDataSourceFiles_script|].
  destruct (String.eqb moduleType ModuleTypeES); [apply createEventSourceFiles_script|].
  reflexivity.
Qed.

(** *** What one step does to the disk *)

Lemma mkdir_up_spec chain fs :
  (forall path n, fs !! path = Some n -> (mkdir_up chain fs).2 !! path = Some n)
  /\ (forall path content,
        (mkdir_up chain fs).2 !! path = Some (File content) ->
        fs !! path = Some (File content))
  /\ (forall err, (mkdir_up chain fs).1 = Some err -> (mkdir_up chain fs).2 = fs)
  /\ (forall q parents,
        chain = q :: parents -> (mkdir_up chain fs).1 = None ->
        (mkdir_up chain fs).2 !! q = Some Dir).
Proof.
  induction chain as [|q parents IH]; cbn [mkdir_up].
  { repeat split; try done. }
  destruct IH as (IHkeep & IHfile & IHfail & _).
  destruct (fs !! q) as [[c|]|] eqn:Hq; cbn [fst snd].
  - split; [done|]. split; [done|]. split; [done|]. done.
  - split; [done|]. split; [done|]. split; [done|]. by intros ? ? [= <- <-].
  - destruct (mkdir_up parents fs) as [[err|] fs'] eqn:Hup; cbn [fst snd] in *.
    + split; [done|]. split; [done|]. split; [|done].
      intros ? _. by apply (IHfail err).
    + destruct (fs' !! q) as [[c|]|] eqn:Hq'; cbn [fst snd].
      * apply IHfile in Hq'. congruence.
      * split; [done|]. split; [done|]. split; [done|]. by intros ? ? [= <- <-].
      * split; [|split; [|split]].
        -- intros path n Hn. destruct (decide (path = q)) as [->|Hne]; [congruence|].
           rewrite lookup_insert_ne by done. by apply IHkeep.
        -- intros path content.
           destruct (decide (path = q)) as [->|Hne].
           ++ by rewrite lookup_insert_eq.
           ++ rewrite lookup_insert_ne by done. apply IHfile.
        -- done.
        -- intros ? ? [= <- <-] _. by rewrite lookup_insert_eq.
Qed.

Lemma grows_refl fs : grows fs fs.
Proof. by intros path. Qed.

Lemma grows_trans fs1 fs2 fs3 : grows fs1 fs2 -> grows fs2 fs3 -> grows fs1 fs3.
Proof.
  intros H12 H23 path. destruct (H12 path) as [Hd Hf], (H23 path) as [Hd' Hf'].
  split; auto.
Qed.

Lemma DirExists_value fs path :
  value (DirExists path fs) = true <-> fs !! path = Some Dir.
Proof.
  unfold DirExists, os_Stat; msimpl.
  destruct (fs !! path) as [[c|]|]; cbn [IsDir]; split; intros; done.
Qed.

Lemma CreateDir_spec dir fs :
  (fs !! dir = Some Dir -> CreateDir dir fs = mkRes None fs [])
  /\ (forall path n, fs !! path = Some n -> disk (CreateDir dir fs) !! path = Some n)
  /\ (forall path content,
        disk (CreateDir dir fs) !! path = Some (File content) ->
        fs !! path = Some (File content))
  /\ (forall err, value (CreateDir dir fs) = Some err -> disk (CreateDir dir fs) = fs)
  /\ (value (CreateDir dir fs) = None -> disk (CreateDir dir fs) !! dir = Some Dir)
  /\ List.filter is_write (emitted (CreateDir dir fs)) = [].
Proof.
  unfold CreateDir. mrun.
  pose proof (DirExists_value fs dir) as Hdir.
  change (disk (DirExists dir fs)) with fs.
  change (emitted (DirExists dir fs)) with (@nil Event).
  destruct (value (DirExists dir fs)).
  - assert (Hd : fs !! dir = Some Dir) by by apply Hdir.
    repeat split; try done.
  - destruct (mkdir_up_spec (dir :: path_ancestors dir) fs) as (Hkeep & Hfile & Hfail & Hok).
    unfold os_MkdirAll. cbn [value disk emitted app]. repeat split; try done.
    + intros Hd. apply Hdir in Hd. done.
    + intros Hv. by eapply Hok.
Qed.

Lemma WriteFile_spec path data fs :
  (can_write fs path = true ->
   ioutil_WriteFile path data fs
   = mkRes None (<[path := File data]> fs) [EvWriteFile path data])
  /\ (can_write fs path = false ->
      ioutil_WriteFile path data fs
      = mkRes (Some (ExtError "WriteFile")) fs [EvWriteFile path data]).
Proof. unfold ioutil_WriteFile. by split; intros ->. Qed.

Lemma can_write_not_dir fs path : can_write fs path = true -> fs !! path <> Some Dir.
Proof.
  unfold can_write. intros [_ H]%andb_prop Hd. by rewrite Hd in H.
Qed.

Lemma run_step_grows s fs : grows fs (disk (run_step s fs)).
Proof.
  destruct s as [dir|path data|err]; cbn [run_step].
  - destruct (CreateDir_spec dir fs) as (_ & Hkeep & _).
    intros path. split; [apply Hkeep|]. intros [c Hc]. exists c. by apply Hkeep.
  - destruct (WriteFile_spec path data fs) as [Hok Hko].
    destruct (can_write fs path) eqn:Hw; [rewrite Hok by done | rewrite Hko by done];
      cbn [disk]; [|apply grows_refl].
    apply can_write_not_dir in Hw.
    intros q. destruct (decide (q = path)) as [->|Hne].
    + unfold is_file. rewrite lookup_insert_eq. split; [done|]. intros _. by exists data.
    + unfold is_file. by rewrite lookup_insert_ne.
  - apply grows_refl.
Qed.

Lemma run_script_grows s fs : grows fs (disk (run_script s fs)).
Proof.
  revert fs. induction s as [|st s IH]; intros fs; cbn [run_script]; mrun.
  - apply grows_refl.
  - pose proof (run_step_grows st fs) as Hst.
    destruct (value (run_step st fs)); mrun; [done|].
    eapply grows_trans; [exact Hst | apply IH].
Qed.

(** A failing step leaves the disk alone. *)
Lemma run_step_failed s fs err : value (run_step s fs) = Some err -> disk (run_step s fs) = fs.
Proof.
  destruct s as [dir|path data|e]; cbn [run_step].
  - destruct (CreateDir_spec dir fs) as (_ & _ & _ & Hfail & _). apply Hfail.
  - destruct (WriteFile_spec path data fs) as [Hok Hko].
    destruct (can_write fs path) eqn:Hw; [rewrite Hok by done | rewrite Hko by done];
      cbn [value disk]; done.
  - done.
Qed.

(** *** Running a script again on the disk it produced *)

Lemma replays_same fs0 fsx : replays fs0 fsx fs0 -> fsx = fs0.
Proof.
  intros H. apply map_eq. intros path. by destruct (H path) as [-> | [-> _]].
Qed.

Lemma replay_step s fs0 fsx final :
  replays fs0 fsx final ->
  grows (disk (run_step s fs0)) final ->
  (forall err, value (run_step s fs0) = Some err -> final = fs0) ->
  value (run_step s fsx) = value (run_step s fs0)
  /\ List.filter is_write (emitted (run_step s fsx))
     = List.filter is_write (emitted (run_step s fs0))
  /\ match value (run_step s fs0) with
     | None => replays (disk (run_step s fs0)) (disk (run_step s fsx)) final
     | Some _ => disk (run_step s fsx) = final
     end.
Proof.
  intros Hrep Hgrow Hstop.
  destruct (value (run_step s fs0)) as [err|] eqn:Hv.
  { (* the step failed: the run ended here, on an unchanged disk *)
    assert (final = fs0) as -> by by eapply Hstop.
    apply replays_same in Hrep as ->. rewrite Hv.
    split; [done|]. split; [done|]. by eapply run_step_failed. }
  destruct s as [dir|path data|e]; cbn [run_step] in *; [| |done].
  - (* the directory was there or was made: now it is there *)
    destruct (CreateDir_spec dir fs0) as (_ & Hkeep & _ & _ & Hmade & Hquiet).
    destruct (CreateDir_spec dir fsx) as (Hthere & _).
    assert (Hdir : fsx !! dir = Some Dir).
    { destruct (Hgrow dir) as [Hd _]. specialize (Hd (Hmade Hv)).
      destruct (Hrep dir) as [-> | [_ [c Hc]]]; [done|].
      apply Hkeep in Hc. rewrite (Hmade Hv) in Hc. done. }
    rewrite (Hthere Hdir), Hquiet. cbn [value disk emitted List.filter].
    split; [done|]. split; [done|].
    intros path. destruct (Hrep path) as [Hl | [Hr [c Hc]]]; [by left|].
    right. rewrite Hr. split; [by rewrite (Hkeep _ _ Hc)|].
    exists c. by apply Hkeep.
  - (* the file was written: it can be written again *)
    destruct (WriteFile_spec path data fs0) as [Hok0 Hko0].
    destruct (WriteFile_spec path data fsx) as [Hokx _].
    destruct (can_write fs0 path) eqn:Hw; [|by rewrite Hko0 in Hv].
    rewrite Hok0 in Hgrow |- * by done. cbn [value disk emitted] in *.
    assert (Hwx : can_write fsx path = true).
    { pose proof (can_write_not_dir _ _ Hw) as Hnd.
      unfold can_write in Hw |- *. apply andb_prop in Hw as [Hparent _].
      apply andb_true_intro. split.
      - destruct (path_ancestors path) as [|d ds]; [done|].
        destruct (fs0 !! d) as [[c|]|] eqn:Hd; try done.
        destruct (Hrep d) as [-> | [-> _]]; [|by rewrite Hd].
        destruct (Hgrow d) as [Hgd _]. rewrite Hgd; [done|].
        rewrite lookup_insert_ne; [done|]. intros ->. by rewrite Hd in Hnd.
      - destruct (Hrep path) as [-> | [-> [c Hc]]]; [|by rewrite Hc].
        destruct (Hgrow path) as [_ Hgf].
        destruct Hgf as [c Hc]; [exists data; by rewrite lookup_insert_eq|].
        by rewrite Hc. }
    rewrite Hokx by done. cbn [value disk emitted].
    split; [done|]. split; [done|].
    intros q. destruct (decide (q = path)) as [->|Hne].
    + right. unfold is_file. rewrite !lookup_insert_eq. split; [done|]. by exists data.
    + unfold is_file. rewrite !lookup_insert_ne by done. apply Hrep.
Qed.

Lemma replay s fs0 fsx :
  replays fs0 fsx (disk (run_script s fs0)) ->
  value (run_script s fsx) = value (run_script s fs0)
  /\ disk (run_script s fsx) = disk (run_script s fs0)
  /\ List.filter is_write (emitted (run_script s fsx))
     = List.filter is_write (emitted (run_script s fs0)).
Proof.
  revert fs0 fsx. induction s as [|st s IH]; intros fs0 fsx; cbn [run_script]; mrun.
  { intros ->%replays_same. done. }
  intros Hrep.
  destruct (replay_step st fs0 fsx
              (disk (match value (run_step st fs0) with
                     | Some err => mkRes (Some err) (disk (run_step st fs0)) []
                     | None => run_script s (disk (run_step st fs0))
                     end))) as (Hv & Hw & Hnext).
  - by destruct (value (run_step st fs0)).
  - destruct (value (run_step st fs0)); cbn [disk]; [apply grows_refl|].
    apply run_script_grows.
  - intros err Herr. rewrite Herr. cbn [disk]. by eapply run_step_failed.
  - rewrite Hv, !List.filter_app, Hw.
    destruct (value (run_step st fs0)) as [err|]; cbn [value disk emitted] in *.
    + done.
    + destruct (IH _ _ Hnext) as (-> & -> & ->). done.
Qed.

(** Running a script on the disk it has just produced gives the same
    outcome, the same disk and the same writes. *)
Lemma run_script_twice s fs :
  value (run_script s (disk (run_script s fs))) = value (run_script s fs)
  /\ disk (run_script s (disk (run_script s fs))) = disk (run_script s fs)
  /\ List.filter is_write (emitted (run_script s (disk (run_script s fs))))
     = List.filter is_write (emitted (run_script s fs)).
Proof. apply replay. intros path. by left. Qed.

(** *** Where a script writes *)

Lemma run_script_paths s fs :
  map written_path (List.filter is_write (emitted (run_script s fs)))
    `prefix_of` planned_paths s
  /\ (value (run_script s fs) = None ->
      never_fails s
      /\ map written_path (List.filter is_write (emitted (run_script s fs)))
         = planned_paths s).
Proof.
  revert fs. induction s as [|st s IH]; intros fs; cbn [run_script]; mrun.
  { split; [done|]. intros _. split; [constructor | done]. }
  rewrite List.filter_app, map_app.
  destruct st as [dir|path data|err]; cbn [run_step planned_paths].
  - destruct (CreateDir_spec dir fs) as (_ & _ & _ & _ & _ & ->). cbn [map app].
    destruct (value (CreateDir dir fs)); cbn [value emitted List.filter map].
    + split; [apply prefix_nil | done].
    + destruct (IH (disk (CreateDir dir fs))) as [Hp Hs].
      split; [done|]. intros Hv. destruct (Hs Hv) as [Hnf ->].
      split; [by constructor | done].
  - destruct (WriteFile_spec path data fs) as [Hok Hko].
    destruct (can_write fs path); [rewrite Hok by done | rewrite Hko by done];
      cbn [value disk emitted List.filter is_write map written_path app].
    + destruct (IH (<[path:=File data]> fs)) as [Hp Hs].
      split; [by apply prefix_cons|]. intros Hv. destruct (Hs Hv) as [Hnf ->].
      split; [by constructor | done].
    + split; [|done]. apply prefix_cons, prefix_nil.
  - cbn [value emitted List.filter map app]. split; [done|done].
Qed.

Lemma planned_type_script E pluginName moduleType loaderFileName yamlFileName defaultConfig :
  planned_paths (type_script E pluginName moduleType loaderFileName yamlFileName defaultConfig)
    `prefix_of` artifact_paths E moduleType loaderFileName yamlFileName
  /\ (never_fails (type_script E pluginName moduleType loaderFileName yamlFileName
                               defaultConfig) ->
      planned_paths (type_script E pluginName moduleType loaderFileName yamlFileName
                                 defaultConfig)
      = artifact_paths E moduleType loaderFileName yamlFileName).
Proof.
  unfold type_script, artifact_paths, es_script, ds_script, es_paths, ds_paths,
    tree_paths, stub_steps, config_steps, never_fails.
  destruct (String.eqb moduleType ModuleTypeBoth);
    [|destruct (String.eqb moduleType ModuleTypeDS);
      [|destruct (String.eqb moduleType ModuleTypeES)]];
    destruct (String.eqb loaderFileName "prisma");
    destruct (yaml_Marshal E (build_config E loaderFileName defaultConfig))
      as [err|yamlData];
    cbn [app planned_paths negb];
    (split; [eexists; reflexivity || (cbn [app]; reflexivity)
            | intros Hnf; try reflexivity; exfalso;
              repeat match goal with
                     | H : Forall _ (_ :: _) |- _ => apply Forall_cons in H as [? H]
                     end; done]).
Qed.

(** *** The claims about artifact creation *)

(** C9: creating the artifacts of a descriptor twice in a row gives the same
    outcome and the same disk as creating them once, and the second call
    writes the same contents to the same paths as the first.  The paths
    written are the leading part of [artifact_paths], a function of the
    module type, the loader name and the config name alone, and all of it
    when the creation succeeds. *)
Theorem createFilesByType_idempotent E pluginName moduleType loaderFileName yamlFileName
    defaultConfig fs :
  let create :=
    createFilesByType E pluginName moduleType loaderFileName yamlFileName defaultConfig in
  value (create (disk (create fs))) = value (create fs)
  /\ disk (create (disk (create fs))) = disk (create fs)
  /\ List.filter is_write (emitted (create (disk (create fs))))
     = List.filter is_write (emitted (create fs))
  /\ map written_path (List.filter is_write (emitted (create fs)))
       `prefix_of` artifact_paths E moduleType loaderFileName yamlFileName
  /\ (value (create fs) = None ->
      map written_path (List.filter is_write (emitted (create fs)))
      = artifact_paths E moduleType loaderFileName yamlFileName).
Proof.
  intros create. unfold create. rewrite !createFilesByType_script.
  set (s := type_script E pluginName moduleType loaderFileName yamlFileName defaultConfig).
  destruct (run_script_twice s fs) as (Hv & Hd & Hw).
  destruct (run_script_paths s fs) as [Hpre Hall].
  destruct (planned_type_script E pluginName moduleType loaderFileName yamlFileName
              defaultConfig) as [Hplan Hexact].
  fold s in Hplan, Hexact.
  split; [exact Hv|]. split; [exact Hd|]. split; [exact Hw|]. split.
  - by etrans.
  - intros Hok. destruct (Hall Hok) as [Hnf ->]. by apply Hexact.
Qed.

Lemma build_config_union E loaderFileName defaultConfig :
  range_visits_once E ->
  build_config E loaderFileName defaultConfig
  = defaultConfig ∪ {["type" := AString loaderFileName]}.
Proof.
  intros Hr. unfold build_config.
  rewrite foldl_insert_union by (by apply range_NoDup). by rewrite range_to_map.
Qed.

Lemma run_script_last_write s path data fs :
  value (run_script (s ++ [StepWrite path data]) fs) = None ->
  disk (run_script (s ++ [StepWrite path data]) fs) !! path = Some (File data).
Proof.
  rewrite run_script_app.
  destruct (value (run_script s fs)) eqn:Hs; [by rewrite Hs|].
  cbn [run_script run_step]. mrun.
  destruct (WriteFile_spec path data (disk (run_script s fs))) as [Hok Hko].
  destruct (can_write (disk (run_script s fs)) path);
    [rewrite Hok by done | rewrite Hko by done]; cbn [value disk]; [|done].
  intros _. apply lookup_insert_eq.
Qed.

(** C4: the config written for a role is the map that starts as
    [{"type": loaderFileName}] and then receives every entry of
    [defaultConfig]: it is [defaultConfig] laid over the base map, so every
    default entry is in it and a ["type"] key of [defaultConfig] replaces the
    loader name.  Whenever the creation for a role succeeds, the YAML file of
    that role holds the encoding of exactly this map (for the data-source
    role, unless the loader is ["prisma"]). *)
Theorem config_is_defaults_over_type E pluginName loaderFileName yamlFileName defaultConfig :
  range_visits_once E ->
  let config := build_config E loaderFileName defaultConfig in
  config = defaultConfig ∪ {["type" := AString loaderFileName]}
  /\ (forall k v, defaultConfig !! k = Some v -> config !! k = Some v)
  /\ (defaultConfig !! "type" = None -> config !! "type" = Some (AString loaderFileName))
  /\ (forall fs,
        value (createEventSourceFiles E pluginName loaderFileName yamlFileName
                                      defaultConfig fs) = None ->
        exists yamlData,
          yaml_Marshal E config = inr yamlData
          /\ disk (createEventSourceFiles E pluginName loaderFileName yamlFileName
                                          defaultConfig fs)
             !! filepath_Join E ["src"; "eventsources"; yamlFileName +:+ ".yaml"]
             = Some (File yamlData))
  /\ (forall fs,
        loaderFileName <> "prisma" ->
        value (createDataSourceFiles E pluginName loaderFileName yamlFileName
                                     defaultConfig fs) = None ->
        exists yamlData,
          yaml_Marshal E config = inr yamlData
          /\ disk (createDataSourceFiles E pluginName loaderFileName yamlFileName
                                         defaultConfig fs)
             !! filepath_Join E ["src"; "datasources"; yamlFileName +:+ ".yaml"]
             = Some (File yamlData)).
Proof.
  intros Hr config. unfold config.
  split; [by apply build_config_union|].
  split; [|split; [|split]].
  - intros k v Hk. rewrite build_config_union by done.
    by apply lookup_union_Some_l.
  - intros Hno. rewrite build_config_union by done.
    rewrite lookup_union_r by done. apply lookup_singleton_eq.
  - intros fs. rewrite createEventSourceFiles_script.
    unfold es_script, config_steps.
    destruct (yaml_Marshal E (build_config E loaderFileName defaultConfig))
      as [err|yamlData].
    + rewrite run_script_app.
      destruct (value (run_script _ fs)) eqn:Hs; [by rewrite Hs|]. done.
    + intros Hv. exists yamlData. split; [done|]. by apply run_script_last_write.
  - intros fs Hprisma. rewrite createDataSourceFiles_script.
    unfold ds_script, config_steps.
    apply String.eqb_neq in Hprisma. rewrite Hprisma.
    destruct (yaml_Marshal E (build_config E loaderFileName defaultConfig))
      as [err|yamlData].
    + rewrite run_script_app.
      destruct (value (run_script _ fs)) eqn:Hs; [by rewrite Hs|]. done.
    + intros Hv. exists yamlData. split; [done|]. by apply run_script_last_write.
Qed.

Lemma config_is_defaults_over_type_witness :
  build_config Demo.env "mongo" {["type" := AString "custom"; "uri" := AString "x"]}
    !! "type" = Some (AString "custom")
  /\ disk (createEventSourceFiles Demo.env Demo.mongo "mongo" "mongo-cfg"
             {["type" := AString "custom"; "uri" := AString "x"]} Demo.project)
     !! "src/eventsources/mongo-cfg.yaml" = Some (File "type: custom").
Proof.
  destruct (config_is_defaults_over_type Demo.env Demo.mongo "mongo" "mongo-cfg"
              {["type" := AString "custom"; "uri" := AString "x"]})
    as (_ & Hin & _ & Hes & _).
  - intros A m. reflexivity.
  - split; [by apply Hin|].
    destruct (Hes Demo.project) as (yamlData & Hy & Hfile); [reflexivity|].
    vm_compute in Hy. injection Hy as <-. exact Hfile.
Defined.

Lemma CreateDir_emitted dir fs :
  emitted (CreateDir dir fs) = [] \/ emitted (CreateDir dir fs) = [EvMkdirAll dir].
Proof.
  unfold CreateDir. mrun. change (emitted (DirExists dir fs)) with (@nil Event).
  destruct (value (DirExists dir fs)); [by left | by right].
Qed.

Lemma removeIfExists_spec path fs :
  Forall (fun e => e = EvRemove path) (emitted (removeIfExists path fs))
  /\ (forall q, q <> path -> disk (removeIfExists path fs) !! q = fs !! q).
Proof.
  unfold removeIfExists, FileExists, os_Stat, os_Remove. mrun.
  destruct (fs !! path) as [[c|]|] eqn:Hp; cbn [IsDir negb value disk emitted app];
    rewrite ?Hp; cbn [value disk emitted app].
  - split; [repeat constructor|]. intros q Hq. by rewrite lookup_delete_ne.
  - split; [constructor | done].
  - split; [constructor | done].
Qed.

(** C5: for the loader ["prisma"] and the data-source role, creation makes the types
    directory and writes the stub, and nothing else: whatever the config
    name, no other write is issued and no other file appears or changes.
    The data-source removal deletes the stub, if it is there, and nothing
    else: the only removal ever issued is that of the stub and every other
    path keeps its content. *)
Theorem prisma_has_no_config E pluginName yamlFileName defaultConfig fs :
  let typesDir := filepath_Join E ["src"; "datasources"; "types"] in
  let stub := filepath_Join E [typesDir; "prisma.ts"] in
  let created :=
    createFilesByType E pluginName ModuleTypeDS "prisma" yamlFileName defaultConfig fs in
  let removed := removeFilesByType E ModuleTypeDS "prisma" yamlFileName fs in
  let removedStub := filepath_Join E ["src"; "datasources"; "types"; "prisma.ts"] in
  Forall (fun e => e = EvMkdirAll typesDir
                   \/ e = EvWriteFile stub (stub_content "DataSource" pluginName))
         (emitted created)
  /\ (forall path content,
        path <> stub ->
        disk created !! path = Some (File content) <-> fs !! path = Some (File content))
  /\ Forall (fun e => e = EvRemove removedStub) (emitted removed)
  /\ (forall path, path <> removedStub -> disk removed !! path = fs !! path).
Proof.
  intros typesDir stub created removed removedStub.
  change created
    with (createDataSourceFiles E pluginName "prisma" yamlFileName defaultConfig fs).
  change removed with (removeDataSourceFiles E "prisma" yamlFileName fs).
  split; [|split]; [| |split].
  - unfold createDataSourceFiles. fold typesDir. mrun.
    apply Forall_app. split.
    { destruct (CreateDir_emitted typesDir fs) as [-> | ->]; [constructor|].
      apply Forall_singleton. by left. }
    destruct (value (CreateDir typesDir fs)); cbn [emitted]; [constructor|].
    change (filepath_Join E [typesDir; "prisma" +:+ ".ts"]) with stub.
    apply Forall_app. split.
    { unfold ioutil_WriteFile.
      destruct (can_write _ stub); cbn [emitted]; apply Forall_singleton; by right. }
    destruct (value (ioutil_WriteFile stub _ _)); cbn [emitted]; constructor.
  - intros path content Hne.
    unfold createDataSourceFiles. fold typesDir.
    change (String.eqb "prisma" "prisma") with true. mrun.
    destruct (CreateDir_spec typesDir fs) as (_ & Hkeep & Hback & _).
    destruct (value (CreateDir typesDir fs)); cbn [disk].
    { split; [apply Hback | apply Hkeep]. }
    change (filepath_Join E [typesDir; "prisma" +:+ ".ts"]) with stub.
    assert (Hw : disk (ioutil_WriteFile stub (stub_content "DataSource" pluginName)
                         (disk (CreateDir typesDir fs))) !! path
                 = disk (CreateDir typesDir fs) !! path).
    { unfold ioutil_WriteFile. destruct (can_write _ stub); cbn [disk]; [|done].
      by rewrite lookup_insert_ne. }
    destruct (value (ioutil_WriteFile stub _ _)); cbn [disk]; rewrite Hw;
      (split; [apply Hback | apply Hkeep]).
  - unfold removeDataSourceFiles. mrun.
    change (filepath_Join E ["src"; "datasources"; "types"; "prisma" +:+ ".ts"])
      with removedStub.
    destruct (removeIfExists_spec removedStub fs) as [Hev _].
    apply Forall_app. split; [exact Hev|].
    destruct (value (removeIfExists removedStub fs)); cbn [emitted]; constructor.
  - intros path Hne. unfold removeDataSourceFiles. mrun.
    change (filepath_Join E ["src"; "datasources"; "types"; "prisma" +:+ ".ts"])
      with removedStub.
    destruct (removeIfExists_spec removedStub fs) as [_ Hframe].
    destruct (value (removeIfExists removedStub fs)); cbn [disk]; by apply Hframe.
Qed.


(** * Further properties *)

(** ** Operations that stop before doing anything *)

Lemma IsGodspeedProject_false fs :
  value (IsGodspeedProject fs) = false ->
  emitted (IsGodspeedProject fs) = no_marker_notice
  \/ emitted (IsGodspeedProject fs) = no_manifest_notice.
Proof.
  unfold IsGodspeedProject; mstep.
  destruct (value (FileExists ".godspeed" fs)); mstep; [|by left].
  destruct (value (FileExists "package.json" fs)); mstep; [done | by right].
Qed.

(** X1: outside a project (the marker file or the manifest is missing)
    [Add], [Remove] and [Update] print the two-line notice of
    [IsGodspeedProject] and return: no prompt, no child process, no file
    operation, and the disk is left as it was. *)
Theorem outside_project_nothing_happens E fs pluginName :
  ~ (is_file fs ".godspeed" /\ is_file fs "package.json") ->
  exists notice,
    (notice = no_marker_notice \/ notice = no_manifest_notice)
    /\ emitted (Add E pluginName fs) = notice
    /\ emitted (Remove E pluginName fs) = notice
    /\ emitted (Update E fs) = notice
    /\ disk (Add E pluginName fs) = fs
    /\ disk (Remove E pluginName fs) = fs
    /\ disk (Update E fs) = fs.
Proof.
  intros Hno. rewrite <- IsGodspeedProject_true in Hno.
  apply not_true_is_false in Hno.
  exists (emitted (IsGodspeedProject fs)).
  split; [by apply IsGodspeedProject_false|].
  unfold Add, Remove, Update. mstep. rewrite Hno. mstep.
  by rewrite app_nil_r.
Qed.

Lemma outside_project_nothing_happens_witness :
  emitted (Add Demo.env Demo.mongo Demo2.elsewhere) = no_marker_notice
  /\ disk (Add Demo.env Demo.mongo Demo2.elsewhere) = Demo2.elsewhere.
Proof.
  destruct (outside_project_nothing_happens Demo.env Demo2.elsewhere Demo.mongo)
    as (notice & Hn & Ha & _ & _ & Hd & _).
  - intros [[c Hc] _]. vm_compute in Hc. discriminate.
  - split; [|exact Hd]. rewrite Ha.
    destruct Hn as [-> | ->]; [reflexivity|].
    vm_compute in Ha. discriminate.
Defined.

(** X2: when no plugin is installed, [Remove] (whatever identifier it is
    given) and [Update] print that there are no plugins installed and stop:
    the catalog is not loaded, nothing is asked, nothing is run. *)
Theorem nothing_installed E fs pluginName :
  value (GetInstalledPlugins E fs) = inr ∅ ->
  emitted (Remove E pluginName fs)
  = [EvPrint Red "There are no eventsource/datasource plugins installed." []]
  /\ emitted (Update E fs)
     = [EvPrint Red "There are no eventsource/datasource plugins installed." []]
  /\ disk (Remove E pluginName fs) = fs
  /\ disk (Update E fs) = fs.
Proof.
  intros Hinst.
  destruct (GetInstalledPlugins_quiet E fs ∅ Hinst) as [Hquiet Hproj].
  unfold Remove, Update. mstep. rewrite Hproj. mstep.
  rewrite IsGodspeedProject_quiet by done.
  rewrite Hinst, Hquiet. mstep. rewrite map_size_empty. done.
Qed.

Lemma nothing_installed_witness :
  emitted (Remove Demo2.bare Demo.express Demo.project)
  = [EvPrint Red "There are no eventsource/datasource plugins installed." []].
Proof.
  destruct (nothing_installed Demo2.bare Demo.project Demo.express) as (Hr & _).
  - vm_compute. reflexivity.
  - exact Hr.
Defined.

(** [Remove] once the installed set is known to be non-empty and an
    identifier is given. *)
Lemma Remove_explicit E fs pluginName installed :
  pluginName <> "" ->
  value (GetInstalledPlugins E fs) = inr installed ->
  installed <> ∅ ->
  exists (k : M unit),
    k = (if negb (has_key installed pluginName)
         then emit (EvPrint Red "Plugin %s is not installed." [ArgS pluginName])
         else removePlugins E [pluginName])
    /\ emitted (Remove E pluginName fs) = emitted (k fs)
    /\ disk (Remove E pluginName fs) = disk (k fs).
Proof.
  intros Hname Hinst Hne.
  destruct (GetInstalledPlugins_quiet E fs installed Hinst) as [Hquiet Hproj].
  eexists. split; [reflexivity|].
  unfold Remove. mstep. rewrite Hproj. mstep.
  rewrite IsGodspeedProject_quiet by done.
  rewrite Hinst, Hquiet. mstep.
  assert (Hsize : (size installed =? 0)%nat = false).
  { apply Nat.eqb_neq. by rewrite map_size_empty_iff. }
  rewrite Hsize. apply String.eqb_neq in Hname. rewrite Hname. done.
Qed.

(** X3: [Remove] with an identifier that is not installed (while other
    plugins are) prints "Plugin ... is not installed." and stops: no
    descriptor is resolved, no file is deleted and [npm uninstall] is not
    run. *)
Theorem Remove_not_installed E fs pluginName installed :
  pluginName <> "" ->
  value (GetInstalledPlugins E fs) = inr installed ->
  installed <> ∅ ->
  installed !! pluginName = None ->
  emitted (Remove E pluginName fs)
  = [EvPrint Red "Plugin %s is not installed." [ArgS pluginName]]
  /\ disk (Remove E pluginName fs) = fs.
Proof.
  intros Hname Hinst Hne Hnot.
  destruct (Remove_explicit E fs pluginName installed) as (k & -> & He & Hd); [done..|].
  unfold has_key in He, Hd. rewrite Hnot in He, Hd. done.
Qed.

Lemma Remove_not_installed_witness :
  emitted (Remove Demo.env Demo.mongo Demo.project)
  = [EvPrint Red "Plugin %s is not installed." [ArgS Demo.mongo]].
Proof.
  destruct (Remove_not_installed Demo.env Demo.project Demo.mongo
              (filter (fun entry => HasPrefix (fst entry) plugin_prefix = true)
                      ({[Demo.express := "^1.0.0"; "lodash" := "^4.17.0"]}
                         : gmap string string)))
    as (He & _).
  - discriminate.
  - vm_compute. reflexivity.
  - intros Hempty.
    assert (Hl : (filter (fun entry : string * string =>
                            HasPrefix (fst entry) plugin_prefix = true)
                         ({[Demo.express := "^1.0.0"; "lodash" := "^4.17.0"]}
                            : gmap string string)) !! Demo.express = None)
      by (rewrite Hempty; apply lookup_empty).
    vm_compute in Hl. discriminate.
  - vm_compute. reflexivity.
  - exact He.
Defined.

(** ** Batches *)

Lemma run_script_no_exec s fs :
  Forall (fun e => is_exec e = false) (emitted (run_script s fs)).
Proof.
  revert fs. induction s as [|st s IH]; intros fs; cbn [run_script]; mrun; [constructor|].
  apply Forall_app. split.
  - destruct st as [dir|path data|err]; cbn [run_step].
    + destruct (CreateDir_emitted dir fs) as [-> | ->]; repeat constructor.
    + unfold ioutil_WriteFile. destruct (can_write fs path); repeat constructor.
    + constructor.
  - destruct (value (run_step st fs)); cbn [emitted]; [constructor | apply IH].
Qed.

(** One turn of the creation loop resolves the descriptor first and runs no
    other child process. *)
Lemma createFilesStep_run E pluginName fs :
  exists rest,
    emitted (createFilesStep E pluginName fs) = resolution pluginName :: rest
    /\ Forall (fun e => is_exec e = false) rest.
Proof.
  unfold createFilesStep, createPluginFiles. msimpl.
  destruct (getModuleInfo_run E pluginName fs) as [-> ->].
  destruct (value (getModuleInfo E pluginName fs)) as [err|info]; msimpl.
  - eexists. split; [reflexivity|]. repeat constructor.
  - eexists. split; [reflexivity|]. apply Forall_app. split.
    + rewrite createFilesByType_script. apply run_script_no_exec.
    + destruct (value (createFilesByType E _ _ _ _ _ fs)); repeat constructor.
Qed.

Lemma creation_resolves_each E plugins fs :
  List.filter is_exec (emitted (forEach (createFilesStep E) plugins fs))
  = map resolution plugins.
Proof.
  revert fs. induction plugins as [|pluginName plugins IH]; intros fs; [done|].
  cbn [forEach map]. msimpl.
  destruct (createFilesStep_run E pluginName fs) as (rest & -> & Hrest).
  rewrite List.filter_app. cbn [List.filter is_exec resolution].
  rewrite filter_no_exec by done. cbn [app]. by rewrite IH.
Qed.

(** A failed resolution costs one error line and leaves the disk alone. *)
Lemma createFilesStep_unresolved E pluginName fs err :
  value (getModuleInfo E pluginName fs) = inl err ->
  emitted (createFilesStep E pluginName fs)
  = [resolution pluginName;
     EvPrint Red "Error creating files for %s: %v" [ArgS pluginName; ArgE err]]
  /\ disk (createFilesStep E pluginName fs) = fs.
Proof.
  intros Hres. unfold createFilesStep, createPluginFiles. msimpl.
  destruct (getModuleInfo_run E pluginName fs) as [-> ->].
  rewrite Hres. msimpl. done.
Qed.

(** X4: after a successful [npm install], [installPlugins] resolves the
    descriptor of every identifier of the batch, in order, whatever happens
    to the earlier ones, and then prints the farewell line.  An identifier
    whose resolution fails costs one error line and changes nothing on
    disk. *)
Theorem installPlugins_processes_whole_batch E plugins fs :
  plugins <> [] ->
  fst (exec_Run E "npm" (("install" :: plugins) ++ quiet_flags) fs) = None ->
  let installed := snd (exec_Run E "npm" (("install" :: plugins) ++ quiet_flags) fs) in
  emitted (installPlugins E plugins fs)
  = [EvSpinnerStart "Installing plugins... "; npm_call "install" plugins; EvSpinnerStop;
     EvPrint Green (nl +:+ "Plugins installed successfully!") []]
    ++ emitted (forEach (createFilesStep E) plugins installed)
    ++ [happy_coding]
  /\ List.filter is_exec (emitted (installPlugins E plugins fs))
     = npm_call "install" plugins :: map resolution plugins
  /\ (forall before pluginName after err,
        plugins = before ++ pluginName :: after ->
        let reached := disk (forEach (createFilesStep E) before installed) in
        value (getModuleInfo E pluginName reached) = inl err ->
        emitted (forEach (createFilesStep E) plugins installed)
        = emitted (forEach (createFilesStep E) before installed)
          ++ [resolution pluginName;
              EvPrint Red "Error creating files for %s: %v" [ArgS pluginName; ArgE err]]
          ++ emitted (forEach (createFilesStep E) after reached)).
Proof.
  intros Hne Hok installed.
  assert (Hshape :
    emitted (installPlugins E plugins fs)
    = [EvSpinnerStart "Installing plugins... "; npm_call "install" plugins; EvSpinnerStop;
       EvPrint Green (nl +:+ "Plugins installed successfully!") []]
      ++ emitted (forEach (createFilesStep E) plugins installed)
      ++ [happy_coding]).
  { unfold installPlugins, installed. rewrite is_empty_false by done.
    unfold NewSpinner_Start, Spinner_Stop, Cmd_Run, npm_call.
    cbn [app] in Hok |- *. msimpl. rewrite Hok. msimpl. done. }
  split; [exact Hshape|]. split.
  - rewrite Hshape, !List.filter_app, creation_resolves_each.
    cbn [List.filter is_exec npm_call happy_coding app]. by rewrite app_nil_r.
  - intros before pluginName after err -> reached Hres.
    destruct (createFilesStep_unresolved E pluginName reached err Hres) as [Hse Hsd].
    destruct (forEach_app (createFilesStep E) before (pluginName :: after) installed)
      as [-> _].
    fold reached. cbn [forEach]. msimpl. rewrite Hse, Hsd. done.
Qed.

Lemma installPlugins_processes_whole_batch_witness :
  List.filter is_exec (emitted (installPlugins Demo.env ["lodash"; Demo.mongo] Demo.project))
  = [npm_call "install" ["lodash"; Demo.mongo]; resolution "lodash"; resolution Demo.mongo]
  /\ is_file (disk (installPlugins Demo.env ["lodash"; Demo.mongo] Demo.project))
             "src/datasources/types/mongo.ts".
Proof.
  destruct (installPlugins_processes_whole_batch Demo.env ["lodash"; Demo.mongo]
              Demo.project) as (_ & Hexec & _).
  - discriminate.
  - reflexivity.
  - split; [exact Hexec|]. eexists. vm_compute. reflexivity.
Defined.

Lemma removePlugins_exec E plugins fs :
  plugins <> [] ->
  List.filter is_exec (emitted (removePlugins E plugins fs))
  = map resolution plugins ++ [npm_call "uninstall" plugins]
  /\ disk (removePlugins E plugins fs)
     = snd (exec_Run E "npm" (("uninstall" :: plugins) ++ quiet_flags)
                     (disk (forEach (removeFilesStep E) plugins fs))).
Proof.
  intros Hne. unfold removePlugins. rewrite is_empty_false by done.
  unfold NewSpinner_Start, Spinner_Stop, Cmd_Run, npm_call. msimpl.
  rewrite List.filter_app, cleanup_resolves_each.
  destruct (exec_Run E "npm" _ _) as [[err|] fs']; msimpl; done.
Qed.

(** X5: [Remove] with an installed identifier cleans up and uninstalls that
    identifier and no other: the child processes it runs are the resolution
    of its descriptor followed by [npm uninstall] of it alone, and the disk
    it leaves is the one that uninstall left after the cleanup. *)
Theorem Remove_installed E fs pluginName installed :
  pluginName <> "" ->
  value (GetInstalledPlugins E fs) = inr installed ->
  is_Some (installed !! pluginName) ->
  List.filter is_exec (emitted (Remove E pluginName fs))
  = [resolution pluginName; npm_call "uninstall" [pluginName]]
  /\ disk (Remove E pluginName fs)
     = snd (exec_Run E "npm" (("uninstall" :: [pluginName]) ++ quiet_flags)
                     (disk (removeFilesStep E pluginName fs))).
Proof.
  intros Hname Hinst [version Hin].
  destruct (Remove_explicit E fs pluginName installed) as (k & -> & He & Hd);
    [done | done | by intros -> |].
  unfold has_key in He, Hd. rewrite Hin in He, Hd. cbn [negb] in He, Hd.
  destruct (removePlugins_exec E [pluginName] fs) as [Hx Hdisk]; [done|].
  rewrite He, Hd, Hx, Hdisk. split; [done|].
  cbn [forEach]. msimpl. done.
Qed.

Lemma Remove_installed_witness :
  List.filter is_exec (emitted (Remove Demo.env Demo.express Demo.project))
  = [resolution Demo.express; npm_call "uninstall" [Demo.express]].
Proof.
  destruct (Remove_installed Demo.env Demo.project Demo.express
              (filter (fun entry => HasPrefix (fst entry) plugin_prefix = true)
                      ({[Demo.express := "^1.0.0"; "lodash" := "^4.17.0"]}
                         : gmap string string)))
    as (He & _).
  - discriminate.
  - vm_compute. reflexivity.
  - vm_compute. eauto.
  - exact He.
Defined.

(** ** Interactive selection *)

Lemma foldl_snoc_filter {A : Type} (keep : A -> bool) (l acc : list A) :
  foldl (fun kept x => if keep x then kept ++ [x] else kept) acc l
  = acc ++ List.filter keep l.
Proof.
  revert acc. induction l as [|x l IH]; intros acc; cbn [foldl List.filter].
  - by rewrite app_nil_r.
  - rewrite IH. destruct (keep x); [|done]. by rewrite <- app_assoc.
Qed.

(** [Add] without an identifier, once the catalog and the installed set are
    known. *)
Lemma Add_interactive_run E fs available installed :
  value (LoadPluginsList E fs) = inr available ->
  value (GetInstalledPlugins E fs) = inr installed ->
  let missing := missing_plugins installed available in
  exists (k : M unit),
    k = (if is_empty missing then
           emit (EvPrint Red "All plugins are already installed." [])
         else
           sel <- survey_AskOne E "Please select godspeed plugin to install:"
                                (map label missing) ;;
           match sel with
           | inl err => emit (EvPrint Red "Error: %v" [ArgE err])
           | inr selectedPlugins =>
               if is_empty selectedPlugins then
                 emit (EvPrint Red "No plugins selected." [])
               else
                 installPlugins E
                   (map (index (foldl (fun m plugin => <[label plugin := Value plugin]> m)
                                      (∅ : gmap string string) missing))
                        selectedPlugins)
           end)
    /\ emitted (Add E "" fs) = emitted (LoadPluginsList E fs) ++ emitted (k fs)
    /\ disk (Add E "" fs) = disk (k fs).
Proof.
  intros Hload Hinst missing.
  destruct (GetInstalledPlugins_quiet E fs installed Hinst) as [Hquiet Hproj].
  eexists. split; [reflexivity|].
  unfold Add. mstep. rewrite Hproj. mstep.
  rewrite IsGodspeedProject_quiet by done.
  rewrite Hload. mstep. rewrite Hinst, Hquiet. mstep.
  change (String.eqb "" "") with true. cbv iota.
  rewrite (foldl_snoc_filter (fun plugin => negb (has_key installed (Value plugin)))).
  cbn [app]. done.
Qed.

(** X6: [Add] without an identifier offers exactly the catalog entries that
    are not installed, in catalog order.  If there is none it says that all
    plugins are installed, and if nothing is chosen it says so; in both
    cases nothing is installed and the disk is left as it was. *)
Theorem Add_offers_missing E fs available installed :
  value (LoadPluginsList E fs) = inr available ->
  value (GetInstalledPlugins E fs) = inr installed ->
  let missing := missing_plugins installed available in
  let prompt :=
    EvPrompt "Please select godspeed plugin to install:" (map label missing) in
  (missing = [] ->
   emitted (Add E "" fs)
   = emitted (LoadPluginsList E fs)
     ++ [EvPrint Red "All plugins are already installed." []]
   /\ disk (Add E "" fs) = fs)
  /\ (missing <> [] ->
      exists rest,
        emitted (Add E "" fs) = emitted (LoadPluginsList E fs) ++ prompt :: rest)
  /\ (missing <> [] ->
      survey_MultiSelect E "Please select godspeed plugin to install:" (map label missing)
      = inr [] ->
      emitted (Add E "" fs)
      = emitted (LoadPluginsList E fs)
        ++ [prompt; EvPrint Red "No plugins selected." []]
      /\ disk (Add E "" fs) = fs).
Proof.
  intros Hload Hinst missing prompt.
  destruct (Add_interactive_run E fs available installed Hload Hinst)
    as (k & -> & He & Hd).
  fold missing in He, Hd. rewrite He, Hd. split; [|split].
  - intros ->. done.
  - intros Hne. rewrite is_empty_false by done.
    unfold survey_AskOne. msimpl. eexists. reflexivity.
  - intros Hne Hsel. rewrite is_empty_false by done.
    unfold survey_AskOne. msimpl. rewrite Hsel. done.
Qed.

Lemma Add_offers_missing_witness :
  exists rest,
    emitted (Add Demo.env "" Demo.project)
    = EvPrompt "Please select godspeed plugin to install:" ["mongo - Mongo data source"]
      :: rest.
Proof.
  destruct (Add_offers_missing Demo.env Demo.project Demo.catalog
              (filter (fun entry => HasPrefix (fst entry) plugin_prefix = true)
                      ({[Demo.express := "^1.0.0"; "lodash" := "^4.17.0"]}
                         : gmap string string)))
    as (_ & Hoffer & _).
  - reflexivity.
  - vm_compute. reflexivity.
  - destruct Hoffer as [rest Hrest]; [vm_compute; discriminate|].
    exists rest. exact Hrest.
Defined.

(** A map filled key by key sends a key to the value it was last given;
    when the keys of the list are pairwise distinct that is the value of the
    one element carrying the key. *)
Lemma keyed_lookup {A : Type} (key val : A -> string) (l : list A) (x : A) :
  NoDup (map key l) ->
  x ∈ l ->
  index (foldl (fun m y => <[key y := val y]> m) (∅ : gmap string string) l) (key x)
  = val x.
Proof.
  intros Hnd Hx.
  assert (Hfold : forall acc : gmap string string,
    foldl (fun m y => <[key y := val y]> m) acc l
    = foldl (fun m (e : string * string) => <[fst e := snd e]> m) acc
            (map (fun y => (key y, val y)) l)).
  { clear. induction l as [|y l IH]; intros acc; [done|]. cbn [foldl map]. apply IH. }
  assert (Hfst : (map (fun y => (key y, val y)) l).*1 = map key l).
  { clear. induction l as [|y l IH]; [done|]. cbn. by rewrite IH. }
  unfold index. rewrite Hfold, foldl_insert_union by (by rewrite Hfst).
  rewrite (lookup_union_Some_l _ _ _ (val x)); [done|].
  apply elem_of_list_to_map_1; [by rewrite Hfst|].
  apply list_elem_of_In, in_map_iff. exists x. split; [done|]. by apply list_elem_of_In.
Qed.

(** X7: when the labels of the offered entries are pairwise distinct, the
    entries chosen at the prompt are the ones installed: [Add] hands
    [installPlugins] exactly the identifiers of the chosen catalog entries,
    in the order they were chosen. *)
Theorem Add_installs_choice E fs available installed chosen :
  value (LoadPluginsList E fs) = inr available ->
  value (GetInstalledPlugins E fs) = inr installed ->
  let missing := missing_plugins installed available in
  NoDup (map label missing) ->
  chosen <> [] ->
  Forall (fun plugin => plugin ∈ missing) chosen ->
  survey_MultiSelect E "Please select godspeed plugin to install:" (map label missing)
  = inr (map label chosen) ->
  emitted (Add E "" fs)
  = emitted (LoadPluginsList E fs)
    ++ EvPrompt "Please select godspeed plugin to install:" (map label missing)
       :: emitted (installPlugins E (map Value chosen) fs)
  /\ disk (Add E "" fs) = disk (installPlugins E (map Value chosen) fs).
Proof.
  intros Hload Hinst missing Hnd Hne Hin Hsel.
  destruct (Add_interactive_run E fs available installed Hload Hinst)
    as (k & -> & He & Hd).
  fold missing in He, Hd. rewrite He, Hd.
  assert (Hmissing : missing <> []).
  { destruct chosen as [|plugin chosen']; [done|].
    apply Forall_cons in Hin as [Hp _]. intros Hm. rewrite Hm in Hp.
    by apply elem_of_nil in Hp. }
  rewrite is_empty_false by done.
  unfold survey_AskOne. msimpl. rewrite Hsel.
  rewrite is_empty_false by (by destruct chosen).
  assert (Hback :
    map (index (foldl (fun m plugin => <[label plugin := Value plugin]> m)
                      (∅ : gmap string string) missing))
        (map label chosen)
    = map Value chosen).
  { rewrite map_map. apply map_ext_in. intros plugin Hp.
    apply keyed_lookup; [done|].
    rewrite Forall_forall in Hin. apply Hin. by apply list_elem_of_In. }
  rewrite Hback. done.
Qed.

Lemma Add_installs_choice_witness :
  emitted (Add Demo.env "" Demo.project)
  = EvPrompt "Please select godspeed plugin to install:" ["mongo - Mongo data source"]
    :: emitted (installPlugins Demo.env [Demo.mongo] Demo.project).
Proof.
  destruct (Add_installs_choice Demo.env Demo.project Demo.catalog
              (filter (fun entry => HasPrefix (fst entry) plugin_prefix = true)
                      ({[Demo.express := "^1.0.0"; "lodash" := "^4.17.0"]}
                         : gmap string string))
              [mkPlugin Demo.mongo "mongo" "Mongo data source"])
    as (He & _).
  - reflexivity.
  - vm_compute. reflexivity.
  - vm_compute. repeat constructor. intros Hin. by apply elem_of_nil in Hin.
  - discriminate.
  - vm_compute. repeat constructor.
  - reflexivity.
  - exact He.
Defined.

(** *** Choosing among the installed plugins *)

Lemma display_inj a b x y :
  no_space a = true -> no_space b = true -> display a x = display b y -> a = b.
Proof.
  unfold display. revert b. induction a as [|c a IH]; intros [|d b] Ha Hb Heq.
  - done.
  - cbn in Heq, Hb. injection Heq as <- _. by cbn in Hb.
  - cbn in Heq, Ha. injection Heq as -> _. by cbn in Ha.
  - cbn in Heq, Ha, Hb. injection Heq as <- Heq.
    apply andb_prop in Ha as [_ Ha]. apply andb_prop in Hb as [_ Hb].
    f_equal. by apply IH.
Qed.

Lemma describe_inj available a b :
  no_space a = true -> no_space b = true ->
  describe available a = describe available b -> a = b.
Proof. unfold describe. cbv zeta. apply display_inj. Qed.

Section OptionsMap.
Variable f : string -> string.

Lemma options_kept (names : list string) (acc : gmap string string) s :
  is_Some (acc !! s) ->
  is_Some (foldl (fun m name => <[f name := name]> m) acc names !! s).
Proof.
  revert acc. induction names as [|n names IH]; intros acc Hs; [done|].
  cbn [foldl]. apply IH. destruct (decide (f n = s)) as [<-|Hne].
  - rewrite lookup_insert_eq. eauto.
  - by rewrite lookup_insert_ne.
Qed.

(** Every option leads to a visited name carrying that label, and every
    visited name has an option. *)
Lemma options_sound (names : list string) (acc : gmap string string) s v :
  foldl (fun m name => <[f name := name]> m) acc names !! s = Some v ->
  acc !! s = Some v \/ (v ∈ names /\ f v = s).
Proof.
  revert acc. induction names as [|n names IH]; intros acc Hs; [by left|].
  cbn [foldl] in Hs. apply IH in Hs as [Hs | [Hin Hf]].
  - destruct (decide (f n = s)) as [<-|Hne].
    + rewrite lookup_insert_eq in Hs. injection Hs as <-. right. split; [left | done].
    + rewrite lookup_insert_ne in Hs by done. by left.
  - right. split; [by right | done].
Qed.

Lemma options_complete (names : list string) (acc : gmap string string) n :
  n ∈ names ->
  is_Some (foldl (fun m name => <[f name := name]> m) acc names !! f n).
Proof.
  revert acc. induction names as [|x names IH]; intros acc Hn.
  - by apply elem_of_nil in Hn.
  - cbn [foldl]. apply elem_of_cons in Hn as [-> | Hn]; [|by apply IH].
    apply options_kept. rewrite lookup_insert_eq. eauto.
Qed.
End OptionsMap.

(** The selection shared by [Remove] and [Update], once the catalog is
    loaded and something is chosen. *)
Lemma selectInstalled_run E installed message none_selected (k : list string -> M unit)
    fs available selected :
  value (LoadPluginsList E fs) = inr available ->
  survey_MultiSelect E message (map (describe available) (visited_names E installed))
  = inr selected ->
  selected <> [] ->
  let optionsMap :=
    foldl (fun m name => <[describe available name := name]> m)
          (∅ : gmap string string) (visited_names E installed) in
  emitted (selectInstalled E installed message none_selected k fs)
  = emitted (LoadPluginsList E fs)
    ++ EvPrompt message (map (describe available) (visited_names E installed))
       :: emitted (k (map (index optionsMap) selected) fs)
  /\ disk (selectInstalled E installed message none_selected k fs)
     = disk (k (map (index optionsMap) selected) fs).
Proof.
  intros Hload Hsel Hne optionsMap.
  unfold selectInstalled. mstep. rewrite Hload. mstep.
  change (map fst (go_range E string installed)) with (visited_names E installed).
  change (fun name : string =>
            display name
              (if String.eqb (index (foldl (fun m plugin =>
                                              <[Value plugin := Description plugin]> m)
                                           (∅ : gmap string string) available) name) ""
               then "No description available"
               else index (foldl (fun m plugin =>
                                    <[Value plugin := Description plugin]> m)
                                 (∅ : gmap string string) available) name))
    with (describe available).
  unfold survey_AskOne. msimpl. rewrite Hsel.
  rewrite is_empty_false by done. done.
Qed.

Lemma Update_run E fs installed :
  value (GetInstalledPlugins E fs) = inr installed ->
  installed <> ∅ ->
  emitted (Update E fs)
  = emitted (selectInstalled E installed "Please select godspeed plugin to update:"
                             "No plugins selected to update." (updatePlugins E) fs)
  /\ disk (Update E fs)
     = disk (selectInstalled E installed "Please select godspeed plugin to update:"
                             "No plugins selected to update." (updatePlugins E) fs).
Proof.
  intros Hinst Hne.
  destruct (GetInstalledPlugins_quiet E fs installed Hinst) as [Hquiet Hproj].
  unfold Update. mstep. rewrite Hproj. mstep.
  rewrite IsGodspeedProject_quiet by done.
  rewrite Hinst, Hquiet. mstep.
  assert (Hsize : (size installed =? 0)%nat = false).
  { apply Nat.eqb_neq. by rewrite map_size_empty_iff. }
  rewrite Hsize. done.
Qed.

Lemma Remove_interactive_run E fs installed :
  value (GetInstalledPlugins E fs) = inr installed ->
  installed <> ∅ ->
  emitted (Remove E "" fs)
  = emitted (selectInstalled E installed "Please select godspeed plugin to uninstall:"
                             "No plugins selected to remove." (removePlugins E) fs)
  /\ disk (Remove E "" fs)
     = disk (selectInstalled E installed "Please select godspeed plugin to uninstall:"
                             "No plugins selected to remove." (removePlugins E) fs).
Proof.
  intros Hinst Hne.
  destruct (GetInstalledPlugins_quiet E fs installed Hinst) as [Hquiet Hproj].
  unfold Remove. mstep. rewrite Hproj. mstep.
  rewrite IsGodspeedProject_quiet by done.
  rewrite Hinst, Hquiet. mstep.
  assert (Hsize : (size installed =? 0)%nat = false).
  { apply Nat.eqb_neq. by rewrite map_size_empty_iff. }
  rewrite Hsize. done.
Qed.

(** X8: when no installed identifier contains a space, the plugins chosen at
    the prompt of [Update] (of [Remove] without an identifier) are exactly
    the ones handed to [updatePlugins] ([removePlugins]), in the order they
    were chosen: the label of an installed plugin leads back to it. *)
Theorem selection_leads_back E fs available installed chosen :
  value (LoadPluginsList E fs) = inr available ->
  value (GetInstalledPlugins E fs) = inr installed ->
  installed <> ∅ ->
  let names := visited_names E installed in
  let options := map (describe available) names in
  Forall (fun name => no_space name = true) names ->
  chosen <> [] ->
  Forall (fun name => name ∈ names) chosen ->
  (survey_MultiSelect E "Please select godspeed plugin to update:" options
   = inr (map (describe available) chosen) ->
   emitted (Update E fs)
   = emitted (LoadPluginsList E fs)
     ++ EvPrompt "Please select godspeed plugin to update:" options
        :: emitted (updatePlugins E chosen fs)
   /\ disk (Update E fs) = disk (updatePlugins E chosen fs))
  /\ (survey_MultiSelect E "Please select godspeed plugin to uninstall:" options
      = inr (map (describe available) chosen) ->
      emitted (Remove E "" fs)
      = emitted (LoadPluginsList E fs)
        ++ EvPrompt "Please select godspeed plugin to uninstall:" options
           :: emitted (removePlugins E chosen fs)
      /\ disk (Remove E "" fs) = disk (removePlugins E chosen fs)).
Proof.
  intros Hload Hinst Hne names options Hspace Hchosen Hin.
  assert (Hback :
    map (index (foldl (fun m name => <[describe available name := name]> m)
                      (∅ : gmap string string) names))
        (map (describe available) chosen)
    = chosen).
  { rewrite map_map. rewrite <- (map_id chosen) at 2. apply map_ext_in.
    intros name Hname. rewrite Forall_forall in Hin, Hspace.
    apply list_elem_of_In in Hname. pose proof (Hin _ Hname) as Hvisited.
    destruct (options_complete (describe available) names ∅ name Hvisited) as [v Hv].
    unfold index. rewrite Hv.
    apply options_sound in Hv as [Hv | [Hvin Hveq]]; [by rewrite lookup_empty in Hv|].
    apply (describe_inj available); auto. }
  assert (Hlabels : map (describe available) chosen <> []) by by destruct chosen.
  split; intros Hsel.
  - destruct (Update_run E fs installed Hinst Hne) as [-> ->].
    destruct (selectInstalled_run E installed "Please select godspeed plugin to update:"
                "No plugins selected to update." (updatePlugins E) fs available
                (map (describe available) chosen) Hload Hsel Hlabels) as [-> ->].
    fold names. by rewrite Hback.
  - destruct (Remove_interactive_run E fs installed Hinst Hne) as [-> ->].
    destruct (selectInstalled_run E installed "Please select godspeed plugin to uninstall:"
                "No plugins selected to remove." (removePlugins E) fs available
                (map (describe available) chosen) Hload Hsel Hlabels) as [-> ->].
    fold names. by rewrite Hback.
Qed.

Lemma selection_leads_back_witness :
  List.filter is_exec (emitted (Update Demo.env Demo.project))
  = [npm_call "update" [Demo.express]].
Proof.
  destruct (selection_leads_back Demo.env Demo.project Demo.catalog
              (filter (fun entry => HasPrefix (fst entry) plugin_prefix = true)
                      ({[Demo.express := "^1.0.0"; "lodash" := "^4.17.0"]}
                         : gmap string string))
              [Demo.express])
    as ([He _] & _).
  - reflexivity.
  - vm_compute. reflexivity.
  - intros Hempty.
    assert (Hl : (filter (fun entry : string * string =>
                            HasPrefix (fst entry) plugin_prefix = true)
                         ({[Demo.express := "^1.0.0"; "lodash" := "^4.17.0"]}
                            : gmap string string)) !! Demo.express = None)
      by (rewrite Hempty; apply lookup_empty).
    vm_compute in Hl. discriminate.
  - vm_compute. repeat constructor.
  - discriminate.
  - vm_compute. repeat constructor.
  - reflexivity.
  - rewrite He. vm_compute. reflexivity.
Defined.

(** X9: [Update] and [Remove] without an identifier never hand the package
    manager an identifier that is not installed, as long as the prompt
    returns labels it was offered: every identifier of the batch is a key
    of the installed set. *)
Theorem selection_stays_installed E fs available installed selected :
  range_visits_once E ->
  value (LoadPluginsList E fs) = inr available ->
  value (GetInstalledPlugins E fs) = inr installed ->
  installed <> ∅ ->
  let options := map (describe available) (visited_names E installed) in
  selected <> [] ->
  Forall (fun s => s ∈ options) selected ->
  exists plugins,
    length plugins = length selected
    /\ Forall (fun name => is_Some (installed !! name)) plugins
    /\ (survey_MultiSelect E "Please select godspeed plugin to update:" options
        = inr selected ->
        emitted (Update E fs)
        = emitted (LoadPluginsList E fs)
          ++ EvPrompt "Please select godspeed plugin to update:" options
             :: emitted (updatePlugins E plugins fs))
    /\ (survey_MultiSelect E "Please select godspeed plugin to uninstall:" options
        = inr selected ->
        emitted (Remove E "" fs)
        = emitted (LoadPluginsList E fs)
          ++ EvPrompt "Please select godspeed plugin to uninstall:" options
             :: emitted (removePlugins E plugins fs)).
Proof.
  intros Hr Hload Hinst Hne options Hsel Hin.
  set (optionsMap := foldl (fun m name => <[describe available name := name]> m)
                           (∅ : gmap string string) (visited_names E installed)).
  exists (map (index optionsMap) selected).
  split; [by rewrite length_map|]. split; [|split].
  - apply Forall_forall. intros name Hname.
    apply list_elem_of_In, in_map_iff in Hname as (s & <- & Hs).
    rewrite Forall_forall in Hin. apply list_elem_of_In in Hs.
    apply Hin, list_elem_of_In, in_map_iff in Hs as (n & <- & Hn).
    apply list_elem_of_In in Hn.
    destruct (options_complete (describe available) _ ∅ n Hn) as [v Hv].
    fold optionsMap in Hv. unfold index. rewrite Hv.
    apply options_sound in Hv as [Hv | [Hvin _]]; [by rewrite lookup_empty in Hv|].
    unfold visited_names in Hvin.
    apply list_elem_of_In, in_map_iff in Hvin as ([name version] & <- & Hentry).
    apply list_elem_of_In in Hentry. rewrite (Hr string installed) in Hentry.
    apply elem_of_map_to_list in Hentry. cbn. eauto.
  - intros Hask. destruct (Update_run E fs installed Hinst Hne) as [-> _].
    by destruct (selectInstalled_run E installed "Please select godspeed plugin to update:"
                   "No plugins selected to update." (updatePlugins E) fs available
                   selected Hload Hask Hsel) as [-> _].
  - intros Hask. destruct (Remove_interactive_run E fs installed Hinst Hne) as [-> _].
    by destruct (selectInstalled_run E installed
                   "Please select godspeed plugin to uninstall:"
                   "No plugins selected to remove." (removePlugins E) fs available
                   selected Hload Hask Hsel) as [-> _].
Qed.

Lemma selection_stays_installed_witness :
  exists plugins,
    length plugins = 1
    /\ emitted (Remove Demo.env "" Demo.project)
       = EvPrompt "Please select godspeed plugin to uninstall:"
                  [Demo.express +:+ " - HTTP event source"]
         :: emitted (removePlugins Demo.env plugins Demo.project).
Proof.
  destruct (selection_stays_installed Demo.env Demo.project Demo.catalog
              (filter (fun entry => HasPrefix (fst entry) plugin_prefix = true)
                      ({[Demo.express := "^1.0.0"; "lodash" := "^4.17.0"]}
                         : gmap string string))
              [Demo.express +:+ " - HTTP event source"])
    as (plugins & Hlen & _ & _ & Hremove).
  - intros A m. reflexivity.
  - reflexivity.
  - vm_compute. reflexivity.
  - intros Hempty.
    assert (Hl : (filter (fun entry : string * string =>
                            HasPrefix (fst entry) plugin_prefix = true)
                         ({[Demo.express := "^1.0.0"; "lodash" := "^4.17.0"]}
                            : gmap string string)) !! Demo.express = None)
      by (rewrite Hempty; apply lookup_empty).
    vm_compute in Hl. discriminate.
  - discriminate.
  - vm_compute. repeat constructor.
  - exists plugins. split; [exact Hlen|]. apply Hremove. reflexivity.
Defined.

(** ** Removing artifacts *)

Lemma removeEventSourceFiles_all E loaderFileName yamlFileName fs :
  removeEventSourceFiles E loaderFileName yamlFileName fs
  = remove_all (removed_tree_paths E "eventsources" loaderFileName yamlFileName true) fs.
Proof.
  unfold removeEventSourceFiles, removed_tree_paths. cbn [remove_all]. mrun.
  destruct (removeIfExists _ fs) as [[err|] fs1 ev1]; mrun; [done|].
  destruct (removeIfExists _ fs1) as [[err|] fs2 ev2]; mrun; by rewrite ?app_nil_r.
Qed.

Lemma removeDataSourceFiles_all E loaderFileName yamlFileName fs :
  removeDataSourceFiles E loaderFileName yamlFileName fs
  = remove_all (removed_tree_paths E "datasources" loaderFileName yamlFileName
                                   (negb (String.eqb loaderFileName "prisma"))) fs.
Proof.
  unfold removeDataSourceFiles, removed_tree_paths. cbn [remove_all]. mrun.
  destruct (removeIfExists _ fs) as [[err|] fs1 ev1]; mrun; [done|].
  destruct (String.eqb loaderFileName "prisma"); cbn [negb remove_all]; mrun; [done|].
  destruct (removeIfExists _ fs1) as [[err|] fs2 ev2]; mrun; by rewrite ?app_nil_r.
Qed.

Lemma remove_all_app l1 l2 fs :
  remove_all (l1 ++ l2) fs
  = match value (remove_all l1 fs) with
    | Some err => remove_all l1 fs
    | None =>
        mkRes (value (remove_all l2 (disk (remove_all l1 fs))))
              (disk (remove_all l2 (disk (remove_all l1 fs))))
              (emitted (remove_all l1 fs) ++ emitted (remove_all l2 (disk (remove_all l1 fs))))
    end.
Proof.
  revert fs. induction l1 as [|p l1 IH]; intros fs.
  - cbn [app remove_all]. mrun. by destruct (remove_all l2 fs).
  - cbn [app remove_all]. mrun.
    destruct (removeIfExists p fs) as [[err|] fs1 ev1]; mrun; [done|].
    rewrite IH. destruct (value (remove_all l1 fs1)) eqn:Hv; mrun.
    + by rewrite Hv.
    + by rewrite app_assoc.
Qed.

Lemma removeFilesByType_all E moduleType loaderFileName yamlFileName fs :
  known_type moduleType = true ->
  removeFilesByType E moduleType loaderFileName yamlFileName fs
  = remove_all (removal_paths E moduleType loaderFileName yamlFileName) fs.
Proof.
  unfold known_type, removeFilesByType, removal_paths. cbv zeta.
  destruct (String.eqb moduleType ModuleTypeBoth).
  { intros _. rewrite remove_all_app, <- removeEventSourceFiles_all. mrun.
    destruct (removeEventSourceFiles E _ _ fs) as [[err|] fs1 ev1];
      cbn [value disk emitted].
    - by rewrite app_nil_r.
    - by rewrite removeDataSourceFiles_all. }
  destruct (String.eqb moduleType ModuleTypeDS);
    [intros _; apply removeDataSourceFiles_all|].
  destruct (String.eqb moduleType ModuleTypeES);
    [intros _; apply removeEventSourceFiles_all | done].
Qed.

Lemma removeIfExists_run path fs :
  (is_file fs path ->
   removeIfExists path fs = mkRes None (delete path fs) [EvRemove path])
  /\ (~ is_file fs path -> removeIfExists path fs = mkRes None fs []).
Proof.
  unfold removeIfExists, FileExists, os_Stat, os_Remove, is_file. mrun.
  destruct (fs !! path) as [[c|]|] eqn:Hp; cbn [IsDir negb]; rewrite ?Hp; split; try done.
  - intros Hno. destruct Hno. eauto.
  - by intros [c Hc].
  - by intros [c Hc].
Qed.

Lemma is_file_dec fs path : is_file fs path \/ ~ is_file fs path.
Proof.
  unfold is_file. destruct (fs !! path) as [[c|]|]; [left; eauto | right | right];
    by intros [c' Hc'].
Qed.

(** What a completed removal leaves: every path is as before or was a file
    of the list and is gone, and no path of the list is a file any more. *)
Lemma remove_all_spec paths fs :
  value (remove_all paths fs) = None ->
  (forall q,
     disk (remove_all paths fs) !! q = fs !! q
     \/ (q ∈ paths /\ is_file fs q /\ disk (remove_all paths fs) !! q = None))
  /\ (forall p, p ∈ paths -> ~ is_file (disk (remove_all paths fs)) p).
Proof.
  revert fs. induction paths as [|path paths IH]; intros fs; cbn [remove_all]; mrun.
  { intros _. split; [by left|]. intros p Hp. by apply elem_of_nil in Hp. }
  destruct (removeIfExists_run path fs) as [Hfile Hnot].
  destruct (is_file_dec fs path) as [Hf|Hf];
    [rewrite (Hfile Hf) | rewrite (Hnot Hf)]; cbn [value disk].
  - intros Hv. destruct (IH _ Hv) as [Hframe Hgone]. split.
    + intros q. destruct (Hframe q) as [Hq | (Hin & Hqf & Hq)].
      * rewrite Hq. destruct (decide (q = path)) as [->|Hne].
        -- right. rewrite lookup_delete_eq. split; [left | done].
        -- left. by rewrite lookup_delete_ne.
      * right. split; [by right|]. split; [|done].
        destruct Hqf as [c Hc]. exists c.
        destruct (decide (q = path)) as [->|Hne];
          [by rewrite lookup_delete_eq in Hc | by rewrite lookup_delete_ne in Hc].
    + intros p [-> | Hp]%elem_of_cons; [|by apply Hgone].
      intros [c Hc]. destruct (Hframe path) as [Hq | (_ & _ & Hq)];
        rewrite Hq in Hc; [by rewrite lookup_delete_eq in Hc | done].
  - intros Hv. destruct (IH _ Hv) as [Hframe Hgone]. split.
    + intros q. destruct (Hframe q) as [Hq | (Hin & Hqf & Hq)]; [by left|].
      right. split; [by right | done].
    + intros p [-> | Hp]%elem_of_cons; [|by apply Hgone].
      intros [c Hc]. destruct (Hframe path) as [Hq | (_ & Hqf & _)]; [|done].
      rewrite Hq in Hc. apply Hf. by exists c.
Qed.

Lemma remove_all_absent paths fs :
  (forall p, p ∈ paths -> ~ is_file fs p) ->
  remove_all paths fs = mkRes None fs [].
Proof.
  induction paths as [|path paths IH]; intros Hno; cbn [remove_all]; mrun; [done|].
  destruct (removeIfExists_run path fs) as [_ Hnot].
  rewrite Hnot by (apply Hno; left). cbn [value disk emitted].
  rewrite IH; [done|]. intros p Hp. apply Hno. by right.
Qed.

(** X10: removing the artifacts of a descriptor tolerates their absence and
    is idempotent.  When none of its files is there the removal succeeds
    without touching anything; and after a removal that succeeded, a second
    one finds nothing to do: it issues no operation and leaves the disk as
    it is. *)
Theorem removal_is_idempotent E moduleType loaderFileName yamlFileName fs :
  known_type moduleType = true ->
  let remove := removeFilesByType E moduleType loaderFileName yamlFileName in
  ((forall p, p ∈ removal_paths E moduleType loaderFileName yamlFileName ->
              ~ is_file fs p) ->
   remove fs = mkRes None fs [])
  /\ (value (remove fs) = None ->
      remove (disk (remove fs)) = mkRes None (disk (remove fs)) []).
Proof.
  intros Hknown remove. unfold remove. split.
  - intros Hno. rewrite removeFilesByType_all by done. by apply remove_all_absent.
  - rewrite !removeFilesByType_all by done. intros Hv.
    apply remove_all_absent. by apply remove_all_spec.
Qed.

Lemma removal_is_idempotent_witness :
  removeFilesByType Demo.env "BOTH" "mongo" "mongo-cfg" Demo.project
  = mkRes None Demo.project [].
Proof.
  destruct (removal_is_idempotent Demo.env "BOTH" "mongo" "mongo-cfg" Demo.project)
    as [Habsent _].
  - reflexivity.
  - apply Habsent. intros p Hp [c Hc]. vm_compute in Hp.
    repeat (apply elem_of_cons in Hp as [-> | Hp]; [vm_compute in Hc; discriminate|]).
    by apply elem_of_nil in Hp.
Defined.

(** ** Creating, then removing *)

(** A script that completes has written every path it planned, and leaves
    every other file as it found it. *)
Lemma run_script_written s fs :
  value (run_script s fs) = None ->
  forall p, p ∈ planned_paths s -> is_file (disk (run_script s fs)) p.
Proof.
  revert fs. induction s as [|st s IH]; intros fs; cbn [run_script]; mrun.
  { intros _ p Hp. by apply elem_of_nil in Hp. }
  destruct (value (run_step st fs)) as [err|] eqn:Hst; mrun; [done|].
  intros Hv p Hp. destruct st as [dir|path data|err]; cbn [planned_paths] in Hp.
  - by apply IH.
  - apply elem_of_cons in Hp as [-> | Hp]; [|by apply IH].
    cbn [run_step] in *. destruct (WriteFile_spec path data fs) as [Hok Hko].
    destruct (can_write fs path); [|by rewrite Hko in Hst].
    rewrite Hok in Hv |- * by done. cbn [disk] in *.
    destruct (run_script_grows s (<[path:=File data]> fs) path) as [_ Hfile].
    apply Hfile. exists data. apply lookup_insert_eq.
  - by apply elem_of_nil in Hp.
Qed.

Lemma run_script_frame s fs q content :
  q ∉ planned_paths s ->
  disk (run_script s fs) !! q = Some (File content) <-> fs !! q = Some (File content).
Proof.
  revert fs. induction s as [|st s IH]; intros fs Hq; cbn [run_script]; mrun; [done|].
  assert (Hstep : disk (run_step st fs) !! q = Some (File content)
                  <-> fs !! q = Some (File content)).
  { destruct st as [dir|path data|err]; cbn [run_step planned_paths] in *.
    - destruct (CreateDir_spec dir fs) as (_ & Hkeep & Hback & _).
      split; [apply Hback | apply Hkeep].
    - apply not_elem_of_cons in Hq as [Hne _]. unfold ioutil_WriteFile.
      destruct (can_write fs path); cbn [disk]; [|done]. by rewrite lookup_insert_ne.
    - done. }
  destruct (value (run_step st fs)) eqn:Hst; cbn [disk]; [exact Hstep|].
  etrans; [apply IH | exact Hstep].
  destruct st as [dir|path data|err]; cbn [planned_paths] in Hq.
  - done.
  - by apply not_elem_of_cons in Hq as [_ Hq].
  - done.
Qed.

Lemma removal_paths_artifact E moduleType loaderFileName yamlFileName :
  stub_paths_agree E loaderFileName ->
  removal_paths E moduleType loaderFileName yamlFileName
  = artifact_paths E moduleType loaderFileName yamlFileName.
Proof.
  intros Hj. unfold removal_paths, artifact_paths, es_paths, ds_paths,
    removed_tree_paths, tree_paths. cbv zeta.
  by rewrite (Hj "eventsources"), (Hj "datasources") by auto.
Qed.

Lemma created_known_type E pluginName moduleType loaderFileName yamlFileName
    defaultConfig fs :
  value (createFilesByType E pluginName moduleType loaderFileName yamlFileName
                           defaultConfig fs) = None ->
  known_type moduleType = true.
Proof.
  unfold createFilesByType, known_type.
  destruct (String.eqb moduleType ModuleTypeBoth); [done|].
  destruct (String.eqb moduleType ModuleTypeDS); [done|].
  destruct (String.eqb moduleType ModuleTypeES); done.
Qed.

(** X11: removal undoes creation.  After the artifacts of a descriptor have
    been created, removing the artifacts of the same descriptor leaves none
    of its artifact paths on disk, and every other path holds a regular file
    exactly when it did before the creation, with the same content. *)
Theorem removal_undoes_creation E pluginName moduleType loaderFileName yamlFileName
    defaultConfig fs :
  stub_paths_agree E loaderFileName ->
  value (createFilesByType E pluginName moduleType loaderFileName yamlFileName
                           defaultConfig fs) = None ->
  let created :=
    disk (createFilesByType E pluginName moduleType loaderFileName yamlFileName
                            defaultConfig fs) in
  let removed := removeFilesByType E moduleType loaderFileName yamlFileName created in
  value removed = None ->
  (forall p, p ∈ artifact_paths E moduleType loaderFileName yamlFileName ->
             is_file created p /\ disk removed !! p = None)
  /\ (forall q content,
        q ∉ artifact_paths E moduleType loaderFileName yamlFileName ->
        disk removed !! q = Some (File content) <-> fs !! q = Some (File content)).
Proof.
  intros Hj Hcreate created removed Hremove.
  pose proof (created_known_type _ _ _ _ _ _ _ Hcreate) as Hknown.
  unfold removed in *. rewrite removeFilesByType_all in * by done.
  rewrite removal_paths_artifact in * by done.
  destruct (remove_all_spec _ _ Hremove) as [Hframe Hgone].
  unfold created in *. rewrite createFilesByType_script in *.
  set (s := type_script E pluginName moduleType loaderFileName yamlFileName defaultConfig)
    in *.
  destruct (run_script_paths s fs) as [_ Hall]. destruct (Hall Hcreate) as [Hnf _].
  destruct (planned_type_script E pluginName moduleType loaderFileName yamlFileName
              defaultConfig) as [_ Hexact].
  fold s in Hexact. specialize (Hexact Hnf).
  pose proof (run_script_written s fs Hcreate) as Hwritten. rewrite Hexact in Hwritten.
  split.
  - intros p Hp. split; [by apply Hwritten|].
    destruct (Hframe p) as [Hsame | (_ & _ & Hnone)]; [|done].
    exfalso. apply (Hgone p Hp). destruct (Hwritten p Hp) as [c Hc].
    exists c. by rewrite Hsame.
  - intros q content Hq. destruct (Hframe q) as [-> | (Hin & _)]; [|done].
    apply run_script_frame. by rewrite Hexact.
Qed.

Lemma removal_undoes_creation_witness :
  let created :=
    disk (createFilesByType Demo.env Demo.mongo "BOTH" "mongo" "mongo-cfg" ∅ Demo.project) in
  is_file created "src/eventsources/mongo-cfg.yaml"
  /\ disk (removeFilesByType Demo.env "BOTH" "mongo" "mongo-cfg" created)
     !! "src/eventsources/mongo-cfg.yaml" = None
  /\ disk (removeFilesByType Demo.env "BOTH" "mongo" "mongo-cfg" created)
     !! "package.json" = Some (File "manifest").
Proof.
  intros created.
  destruct (removal_undoes_creation Demo.env Demo.mongo "BOTH" "mongo" "mongo-cfg" ∅
              Demo.project) as [Hgone Hkept].
  - intros tree [-> | ->]; reflexivity.
  - reflexivity.
  - reflexivity.
  - destruct (Hgone "src/eventsources/mongo-cfg.yaml") as [Hf Hn].
    + vm_compute. right. left.
    + split; [exact Hf|]. split; [exact Hn|]. apply Hkept; [|reflexivity].
      vm_compute. intros Hin.
      repeat (apply elem_of_cons in Hin as [Hin | Hin]; [discriminate|]).
      by apply elem_of_nil in Hin.
Defined.

(** X12: a module type other than ["DS"], ["ES"] and ["BOTH"], spelt exactly
    so, is refused.  Creating or removing the files of a plugin whose
    descriptor carries any other type fails with "unknown module type" right
    after the resolution; no directory is made and no file is written or
    deleted. *)
Theorem unknown_module_type E pluginName fs info :
  value (getModuleInfo E pluginName fs) = inr info ->
  known_type (ModuleType info) = false ->
  createPluginFiles E pluginName fs
  = mkRes (Some (Errorf "unknown module type: %s" [ArgS (ModuleType info)])) fs
          [resolution pluginName]
  /\ removePluginFiles E pluginName fs
     = mkRes (Some (Errorf "unknown module type: %s" [ArgS (ModuleType info)])) fs
             [resolution pluginName].
Proof.
  intros Hres Hunknown. unfold known_type in Hunknown.
  apply orb_false_elim in Hunknown as [Hunknown Hes].
  apply orb_false_elim in Hunknown as [Hboth Hds].
  destruct (getModuleInfo_run E pluginName fs) as [Hev Hd].
  unfold createPluginFiles, removePluginFiles, createFilesByType, removeFilesByType.
  mrun. rewrite Hres, Hev, Hd, Hboth, Hds, Hes. done.
Qed.

Lemma unknown_module_type_witness :
  value (createPluginFiles Demo2.odd Demo.mongo Demo.project)
  = Some (Errorf "unknown module type: %s" [ArgS "both"])
  /\ disk (createPluginFiles Demo2.odd Demo.mongo Demo.project) = Demo.project.
Proof.
  destruct (unknown_module_type Demo2.odd Demo.mongo Demo.project
              (mkModuleInfo "both" "mongo" "mongo-cfg" ∅)) as [Hc _].
  - reflexivity.
  - reflexivity.
  - rewrite Hc. split; reflexivity.
Defined.

(** X13: the stub of a role re-exports that role's class from the plugin:
    after a successful creation the stub file holds the two-line module
    importing [EventSource] (or [DataSource]) from the plugin identifier,
    provided the config file of the role is not written over it. *)
Theorem stubs_reexport E pluginName loaderFileName yamlFileName defaultConfig fs :
  let stub tree :=
    filepath_Join E [filepath_Join E ["src"; tree; "types"]; loaderFileName +:+ ".ts"] in
  let config tree := filepath_Join E ["src"; tree; yamlFileName +:+ ".yaml"] in
  (value (createEventSourceFiles E pluginName loaderFileName yamlFileName defaultConfig fs)
   = None ->
   stub "eventsources" <> config "eventsources" ->
   disk (createEventSourceFiles E pluginName loaderFileName yamlFileName defaultConfig fs)
     !! stub "eventsources"
   = Some (File (nl +:+ "import { EventSource } from '" +:+ pluginName +:+ "';" +:+ nl
                 +:+ "export default EventSource;" +:+ nl +:+ tab)))
  /\ (value (createDataSourceFiles E pluginName loaderFileName yamlFileName defaultConfig fs)
      = None ->
      stub "datasources" <> config "datasources" ->
      disk (createDataSourceFiles E pluginName loaderFileName yamlFileName defaultConfig fs)
        !! stub "datasources"
      = Some (File (nl +:+ "import { DataSource } from '" +:+ pluginName +:+ "';" +:+ nl
                    +:+ "export default DataSource;" +:+ nl +:+ tab))).
Proof.
  intros stub config.
  assert (Hgen : forall tree kind (tail : list step),
    (forall st, st ∈ tail ->
                match st with
                | StepWrite path _ => path = config tree
                | StepMkdir _ => False
                | StepFail _ => True
                end) ->
    value (run_script (stub_steps E tree kind pluginName loaderFileName ++ tail) fs) = None ->
    stub tree <> config tree ->
    disk (run_script (stub_steps E tree kind pluginName loaderFileName ++ tail) fs)
      !! stub tree
    = Some (File (stub_content kind pluginName))).
  { intros tree kind tail Htail Hv Hne.
    assert (Hprefix :
      value (run_script (stub_steps E tree kind pluginName loaderFileName) fs) = None).
    { rewrite run_script_app in Hv.
      by destruct (value (run_script (stub_steps E tree kind pluginName loaderFileName) fs))
        eqn:Hs; [rewrite Hs in Hv|]. }
    pose proof (run_script_last_write
                  [StepMkdir (filepath_Join E ["src"; tree; "types"])]
                  (stub tree) (stub_content kind pluginName) fs Hprefix) as Hstub.
    rewrite run_script_app in Hv |- *.
    change ([StepMkdir (filepath_Join E ["src"; tree; "types"])]
            ++ [StepWrite (stub tree) (stub_content kind pluginName)])
      with (stub_steps E tree kind pluginName loaderFileName) in Hstub.
    rewrite Hprefix in Hv |- *. cbn [value disk] in *.
    apply run_script_frame; [|done].
    clear -Htail Hne. induction tail as [|st tail IH]; [apply not_elem_of_nil|].
    pose proof (Htail st ltac:(left)) as Hst.
    destruct st as [dir|path data|err]; cbn [planned_paths]; [done| |apply not_elem_of_nil].
    apply not_elem_of_cons. split; [by rewrite Hst|].
    apply IH. intros st' Hst'. apply Htail. by right. }
  split.
  - rewrite createEventSourceFiles_script. unfold es_script. apply Hgen.
    intros st Hst. unfold config_steps in Hst.
    destruct (yaml_Marshal E _); apply list_elem_of_singleton in Hst as ->; done.
  - rewrite createDataSourceFiles_script. unfold ds_script. apply Hgen.
    intros st Hst. destruct (String.eqb loaderFileName "prisma");
      [by apply elem_of_nil in Hst|].
    unfold config_steps in Hst.
    destruct (yaml_Marshal E _); apply list_elem_of_singleton in Hst as ->; done.
Qed.

Lemma stubs_reexport_witness :
  disk (createDataSourceFiles Demo.env Demo.mongo "mongo" "mongo-cfg" ∅ Demo.project)
    !! "src/datasources/types/mongo.ts"
  = Some (File (nl +:+ "import { DataSource } from '" +:+ Demo.mongo +:+ "';" +:+ nl
                +:+ "export default DataSource;" +:+ nl +:+ tab)).
Proof.
  destruct (stubs_reexport Demo.env Demo.mongo "mongo" "mongo-cfg" ∅ Demo.project)
    as [_ Hds].
  apply Hds; [reflexivity | discriminate].
Defined.

(** ** Directories *)

(** X14: [CreateDir] on an existing directory does nothing at all, not even
    a system call.  Otherwise it either makes the directory, after which it
    is there and a second [CreateDir] does nothing, or fails and leaves the
    disk as it was; a regular file at the path makes it fail.  It never
    changes or removes an entry that was already there. *)
Theorem CreateDir_makes_or_keeps dir fs :
  (fs !! dir = Some Dir -> CreateDir dir fs = mkRes None fs [])
  /\ (value (CreateDir dir fs) = None ->
      disk (CreateDir dir fs) !! dir = Some Dir
      /\ CreateDir dir (disk (CreateDir dir fs)) = mkRes None (disk (CreateDir dir fs)) [])
  /\ (forall err, value (CreateDir dir fs) = Some err -> disk (CreateDir dir fs) = fs)
  /\ (is_file fs dir -> value (CreateDir dir fs) = Some (ExtError "MkdirAll"))
  /\ (forall path n, fs !! path = Some n -> disk (CreateDir dir fs) !! path = Some n).
Proof.
  destruct (CreateDir_spec dir fs) as (Hthere & Hkeep & _ & Hfail & Hmade & _).
  split; [exact Hthere|]. split; [|split; [exact Hfail|split; [|exact Hkeep]]].
  - intros Hv. split; [by apply Hmade|].
    destruct (CreateDir_spec dir (disk (CreateDir dir fs))) as (Hagain & _).
    apply Hagain. by apply Hmade.
  - intros [c Hc]. unfold CreateDir, DirExists, os_Stat, os_MkdirAll. mrun.
    rewrite Hc. cbn [IsDir mkdir_up value fst]. by rewrite Hc.
Qed.

Lemma CreateDir_makes_or_keeps_witness :
  value (CreateDir "package.json" Demo.project) = Some (ExtError "MkdirAll")
  /\ disk (CreateDir "package.json" Demo.project) = Demo.project.
Proof.
  destruct (CreateDir_makes_or_keeps "package.json" Demo.project)
    as (_ & _ & Hfail & Hfile & _).
  assert (Hv : value (CreateDir "package.json" Demo.project) = Some (ExtError "MkdirAll")).
  { apply Hfile. by exists "manifest". }
  split; [exact Hv | by apply (Hfail _ Hv)].
Defined.

(** ** The registry search *)

Lemma append_cons x (a b : string) : String x a +:+ b = String x (a +:+ b).
Proof. reflexivity. Qed.

Lemma append_nil_r (a : string) : a +:+ "" = a.
Proof. induction a as [|x a IH]; [done|]. by rewrite append_cons, IH. Qed.

Lemma append_assoc (a b c : string) : (a +:+ b) +:+ c = a +:+ (b +:+ c).
Proof. induction a as [|x a IH]; [done|]. by rewrite !append_cons, IH. Qed.

(** Without an occurrence of the separator there is one piece. *)
Lemma split_from_whole sep cur s :
  contains s sep = false -> split_from sep 0 cur s = [cur +:+ s].
Proof.
  revert cur. induction s as [|c s IH]; intros cur Hno.
  - cbn [split_from]. by rewrite append_nil_r.
  - cbn [contains] in Hno. apply orb_false_elim in Hno as [Hhere Hlater].
    cbn [split_from]. rewrite Hhere, IH by done.
    by rewrite append_assoc.
Qed.

Lemma foldl_snoc_map_filter {A B : Type} (keep : A -> bool) (g : A -> B) (l : list A)
    (acc : list B) :
  foldl (fun kept x => if keep x then kept ++ [g x] else kept) acc l
  = acc ++ map g (List.filter keep l).
Proof.
  revert acc. induction l as [|x l IH]; intros acc; cbn [foldl List.filter map].
  - by rewrite app_nil_r.
  - rewrite IH. destruct (keep x); [|done]. cbn [map]. by rewrite <- app_assoc.
Qed.

(** The conversion loop of [searchPluginsFromNpm] keeps, in order, the
    results whose name splits in at least two pieces. *)
Lemma search_conversion (results : list SearchResult) :
  foldl (fun plugins result =>
           let nameParts := Split (sr_Name result) "plugins-" in
           if (1 <? length nameParts)%nat
           then plugins ++ [mkPlugin (sr_Name result) (nth 1 nameParts "")
                                     (sr_Description result)]
           else plugins)
        [] results
  = map (fun r => catalog_entry r (nth 1 (Split (sr_Name r) "plugins-") ""))
        (List.filter (fun r => (1 <? length (Split (sr_Name r) "plugins-"))%nat) results).
Proof.
  exact (foldl_snoc_map_filter
           (fun r => (1 <? length (Split (sr_Name r) "plugins-"))%nat)
           (fun r => catalog_entry r (nth 1 (Split (sr_Name r) "plugins-") ""))
           results []).
Qed.

Lemma Split_namespace short :
  contains short "plugins-" = false ->
  Split ("@godspeedsystems/plugins-" +:+ short) "plugins-" = ["@godspeedsystems/"; short].
Proof.
  intros Hno. unfold Split. rewrite !append_cons.
  cbn [split_from HasPrefix Ascii.eqb Bool.eqb String.length Nat.sub].
  change ("" +:+ short) with short.
  assert (HasPrefix short "" = true) as -> by by destruct short.
  by rewrite split_from_whole.
Qed.

Lemma Split_foreign name :
  contains name "plugins-" = false -> Split name "plugins-" = [name].
Proof. intros Hno. unfold Split. by rewrite split_from_whole. Qed.

Lemma registry_entry_kept short d v :
  contains short "plugins-" = false ->
  (1 <? length (Split (sr_Name (registry_entry short d v)) "plugins-"))%nat = true
  /\ nth 1 (Split (sr_Name (registry_entry short d v)) "plugins-") "" = short.
Proof.
  intros Hs. unfold registry_entry. cbn [sr_Name].
  by rewrite Split_namespace.
Qed.

(** X15: the registry search turns its results into catalog entries by
    stripping the namespace: a result named
    ["@godspeedsystems/plugins-<short>"] becomes the entry with that full
    name as identifier, [<short>] as display name and the same description;
    a result whose name does not contain ["plugins-"] is left out; the
    entries come in the order of the results. *)
Theorem searchPluginsFromNpm_strips_namespace E fs output
    (items : list (string * string * string + SearchResult)) :
  exec_Output E "npm" ["search"; "@godspeedsystems/plugins"; "--json"] fs = inr output ->
  Forall (fun item => contains (item_key item) "plugins-" = false) items ->
  json_SearchResults E output = inr (map search_result items) ->
  value (searchPluginsFromNpm E fs) = inr (omap expected_entry items).
Proof.
  intros Hout Hitems Hjson.
  unfold searchPluginsFromNpm, Cmd_Output. msimpl.
  change plugin_prefix with "@godspeedsystems/plugins".
  rewrite Hout. msimpl. rewrite Hjson. msimpl. f_equal.
  rewrite search_conversion. clear -Hitems.
  induction Hitems as [|[[[short d] v]|r] l Hs _ IH]; [done| |];
    cbn [map List.filter omap list_omap expected_entry search_result item_key fst snd]
      in Hs |- *.
  - destruct (registry_entry_kept short d v Hs) as [-> Hname].
    cbn [map]. unfold catalog_entry at 1. rewrite Hname.
    unfold registry_entry at 1 2. cbn [sr_Name sr_Description]. by rewrite IH.
  - by rewrite Split_foreign.
Qed.

Lemma searchPluginsFromNpm_strips_namespace_witness :
  value (searchPluginsFromNpm Demo.env Demo.project)
  = inr [mkPlugin "@godspeedsystems/plugins-mongo" "mongo" "Mongo data source"].
Proof.
  apply (searchPluginsFromNpm_strips_namespace Demo.env Demo.project "search"
           [inl ("mongo", "Mongo data source", "1.0.0")]).
  - reflexivity.
  - repeat constructor.
  - reflexivity.
Defined.
